(** * Wellness Forever: the pharmacy data layer, its validators and its
      remote handlers

    A shallow embedding of

    - [utils/validation] (class [Validator]),
    - [utils/supabase/client.tsx] (classes [LocalStorageManager] and
      [PharmacyAPI]),
    - [supabase/functions/server/index.tsx] (the Hono route handlers) over
      the tables of [002_simplified_schema.sql],
    - [components/SalesBilling.tsx] ([calculateTotal]),

    followed by the properties of the specification that concern them.

    Conventions of the embedding.

    - A JavaScript number is an exact rational ([Q]); the value of an
      expression may also be [NaN] ([VNaN]), which is what arithmetic on a
      missing, ill-typed or [NaN] operand yields.  An argument or a field
      that the source types as [number] is taken to be a rational, but for
      the quantity of [updateStock], which the client applies untested
      and which may be [NaN] as well ([num]).  The infinities and binary
      rounding are outside the model; every arithmetic operation of the
      source on the modelled values is exact on integers below [2^53],
      which is the range stock levels and quantities live in, and a
      property that depends on the exact value of a sum of amounts is
      stated for such numbers ([Cart.exact]).
    - A row of the table [meds] holds values of the types of its columns:
      a uuid in [id] and 32-bit integers in [stock], [min_stock] and
      [max_stock]; a query that compares [id] with a text that is not a
      uuid, or that writes another number into one of the three columns,
      is an error and changes nothing.
    - A JavaScript string is a [string] of code units below 256.
    - A JavaScript object is a finite map from property names to values
      ([gmap string value]); a property that is absent reads as
      [undefined] ([None]); the spread [{...a, ...b}] is the union that
      prefers [b].
    - The built-ins of the runtime that print and parse numbers and
      dates are the members of the class [Runtime]; the development holds
      for every runtime.
    - [new Date().toISOString()], [generateId()], the UUIDs and [NOW()] of
      the database are inputs of the operation that reads them.
    - An [async] method is a function from the state it reads to the state
      it leaves and its outcome, [Returned v] or [Thrown msg]. *)

From Stdlib Require Import QArith Qminmax Lqa ZArith String Ascii List Bool DecimalString.
From Stdlib Require Qcanon.
From stdpp Require Import gmap strings list fin_maps sorting.

#[local] Set Warnings "-register-all".
#[local] Open Scope string_scope.

(** ** JavaScript values and primitives *)

Module JS.

Inductive value : Type :=
  | VNull
  | VBool (b : bool)
  | VNum (q : Q)
  | VNaN
  | VStr (s : string)
  | VArr (l : list value)
  | VObj (m : gmap string value).

(** The outcome of awaiting a promise. *)
Inductive outcome (A : Type) : Type :=
  | Returned (a : A)
  | Thrown (msg : string).
Arguments Returned {A} a.
Arguments Thrown {A} msg.

(** [{...a, ...b}] *)
Definition spread (a b : gmap string value) : gmap string value := b ∪ a.

(** [x < y], [x <= y], [x >= y] and [x === y] on numbers. *)
Definition Qltb (x y : Q) : bool := negb (Qle_bool y x).
Definition Qleb (x y : Q) : bool := Qle_bool x y.
Definition Qgeb (x y : Q) : bool := Qle_bool y x.
Definition Qeqb (x y : Q) : bool := Qeq_bool x y.

(** [Number.isInteger(q)] *)
Definition Number_isInteger (q : Q) : bool := (Qden (Qred q) =? 1)%positive.

(** [!q] on a number: zero is the falsy number. *)
Definition falsy_num (q : Q) : bool := Qeq_bool q 0.

(** [!s] on a string: the empty string is the falsy string. *)
Definition falsy_str (s : string) : bool :=
  match s with EmptyString => true | _ => false end.

(** White space and line terminators of ECMAScript among the code units
    below 256: TAB, LF, VT, FF, CR, SP and NBSP.  This is the class [\s]
    of a regular expression and the class [String.prototype.trim]
    strips. *)
Definition is_space (c : ascii) : bool :=
  let n := nat_of_ascii c in
  ((9 <=? n) && (n <=? 13) || (n =? 32) || (n =? 160))%nat.

Fixpoint trimStart (s : string) : string :=
  match s with
  | EmptyString => EmptyString
  | String c r => if is_space c then trimStart r else s
  end.

Fixpoint trimEnd (s : string) : string :=
  match s with
  | EmptyString => EmptyString
  | String c r =>
      match trimEnd r with
      | EmptyString => if is_space c then EmptyString else String c EmptyString
      | r' => String c r'
      end
  end.

(** [s.trim()] *)
Definition trim (s : string) : string := trimEnd (trimStart s).

(** [s.replace(/[...]/g, '')] for a character class. *)
Fixpoint remove_class (p : ascii -> bool) (s : string) : string :=
  match s with
  | EmptyString => EmptyString
  | String c r => if p c then remove_class p r else String c (remove_class p r)
  end.

(** Regular expressions as far as the source uses them: character
    classes, concatenation, alternation and iteration, matched against
    the whole subject (every pattern of the source is anchored by [^] and
    [$] and carries no flag). *)
Inductive regex : Type :=
  | Void
  | Eps
  | Class (p : ascii -> bool)
  | Seq (r1 r2 : regex)
  | Alt (r1 r2 : regex)
  | Star (r : regex).

(** [r+], [r?] and [r{0,n}] *)
Definition Plus (r : regex) : regex := Seq r (Star r).
Definition Opt (r : regex) : regex := Alt Eps r.
Fixpoint UpTo (n : nat) (r : regex) : regex :=
  match n with
  | O => Eps
  | S k => Opt (Seq r (UpTo k r))
  end.

Fixpoint nullable (r : regex) : bool :=
  match r with
  | Void => false
  | Eps => true
  | Class _ => false
  | Seq r1 r2 => nullable r1 && nullable r2
  | Alt r1 r2 => nullable r1 || nullable r2
  | Star _ => true
  end.

Fixpoint deriv (c : ascii) (r : regex) : regex :=
  match r with
  | Void => Void
  | Eps => Void
  | Class p => if p c then Eps else Void
  | Seq r1 r2 =>
      if nullable r1
      then Alt (Seq (deriv c r1) r2) (deriv c r2)
      else Seq (deriv c r1) r2
  | Alt r1 r2 => Alt (deriv c r1) (deriv c r2)
  | Star r1 => Seq (deriv c r1) (Star r1)
  end.

(** [/^r$/.test(s)] *)
Fixpoint test (r : regex) (s : string) : bool :=
  match s with
  | EmptyString => nullable r
  | String c s' => test (deriv c r) s'
  end.

Definition is_char (a : ascii) (c : ascii) : bool := Ascii.eqb a c.
Definition in_range (lo hi : ascii) (c : ascii) : bool :=
  ((nat_of_ascii lo <=? nat_of_ascii c) && (nat_of_ascii c <=? nat_of_ascii hi))%nat.

(** The decimal numeral of a natural number, as a template literal
    prints it. *)
Definition show_nat (n : nat) : string := NilEmpty.string_of_uint (Nat.to_uint n).

(** The built-ins that the model leaves to the runtime.  [None] stands
    for [NaN] in their results. *)
Class Runtime : Type := {
  (** [String(q)] for a number [q] *)
  Number_toString : Q -> string;
  (** [q.toFixed(digits)] *)
  Number_toFixed : Q -> nat -> string;
  (** [Number(s)] for a string [s] *)
  String_toNumber : string -> option Q;
  (** [parseInt(s)] and [parseFloat(s)] for a string [s] *)
  parseInt_string : string -> option Q;
  parseFloat_string : string -> option Q;
  (** [new Date(s).getTime()] for a string [s] *)
  Date_parse : string -> option Z;
}.

(** A number or [NaN] as a value. *)
Definition number (n : option Q) : value :=
  match n with Some q => VNum q | None => VNaN end.

(** An argument that the source types as [number] without testing it: a
    rational or [NaN] (the infinities are left out).  A rational is read
    as the number it is. *)
Inductive num : Type :=
  | Num (q : Q)
  | NaN.
Coercion Num : Q >-> num.
Bind Scope Q_scope with num.

Definition num_value (n : num) : value :=
  match n with Num q => VNum q | NaN => VNaN end.

(** The own enumerable properties of a value, which are what the spread
    [{...v}] copies: those of an object, the elements of an array and the
    characters of a string under their indices, and none of any other
    value, [null] and [undefined] among them. *)
Fixpoint indexed (i : nat) (l : list value) : gmap string value :=
  match l with
  | [] => ∅
  | x :: rest => <[show_nat i := x]> (indexed (S i) rest)
  end.

Definition characters (s : string) : list value :=
  List.map (fun c => VStr (String c EmptyString)) (list_ascii_of_string s).

Definition own (v : option value) : gmap string value :=
  match v with
  | Some (VObj m) => m
  | Some (VArr l) => indexed 0 l
  | Some (VStr s) => indexed 0 (characters s)
  | _ => ∅
  end.

(** Truthiness of the value of an expression; [None] is [undefined]. *)
Definition truthy (v : option value) : bool :=
  match v with
  | None | Some VNull | Some VNaN => false
  | Some (VBool b) => b
  | Some (VNum q) => negb (Qeq_bool q 0)
  | Some (VStr s) => negb (falsy_str s)
  | Some (VArr _) | Some (VObj _) => true
  end.

(** [a || b] *)
Definition or_else (a b : option value) : option value :=
  if truthy a then a else b.

(** [v === undefined || v === null], the test of [?.] *)
Definition nullish (v : option value) : bool :=
  match v with None | Some VNull => true | _ => false end.

(** The values that [ToPrimitive] turns into a string. *)
Definition stringy (v : option value) : bool :=
  match v with
  | Some (VStr _) | Some (VArr _) | Some (VObj _) => true
  | _ => false
  end.

Section Coercions.

Context {rt : Runtime}.

Fixpoint ToString_value (v : value) : string :=
  match v with
  | VNull => "null"
  | VBool true => "true"
  | VBool false => "false"
  | VNum q => Number_toString q
  | VNaN => "NaN"
  | VStr s => s
  | VArr l =>
      String.concat ","
        (List.map (fun x => match x with VNull => "" | _ => ToString_value x end) l)
  | VObj _ => "[object Object]"
  end.

Definition ToString (v : option value) : string :=
  match v with
  | None => "undefined"
  | Some v => ToString_value v
  end.

Definition ToNumber (v : option value) : option Q :=
  match v with
  | None | Some VNaN => None
  | Some VNull => Some 0%Q
  | Some (VBool b) => Some (if b then 1%Q else 0%Q)
  | Some (VNum q) => Some q
  | Some (VStr s) => String_toNumber s
  | Some v => String_toNumber (ToString_value v)
  end.

Definition arith (op : Q -> Q -> Q) (a b : option value) : value :=
  match ToNumber a, ToNumber b with
  | Some x, Some y => VNum (op x y)
  | _, _ => VNaN
  end.

(** [a + b], [a - b] and [a * b] *)
Definition js_add (a b : option value) : value :=
  if stringy a || stringy b
  then VStr (ToString a ++ ToString b)
  else arith Qplus a b.
Definition js_sub (a b : option value) : value := arith Qminus a b.
Definition js_mul (a b : option value) : value := arith Qmult a b.

(** [Math.max(a, b)] *)
Definition Math_max (a b : option value) : value := arith Qmax a b.

(** [a <= b], [a < b] and [a >= b]: strings compare by code units, every
    other pair as numbers, and a comparison with [NaN] is false. *)
Definition compare_with (on_str : string -> string -> bool) (on_num : Q -> Q -> bool)
  (a b : option value) : bool :=
  if stringy a && stringy b
  then on_str (ToString a) (ToString b)
  else match ToNumber a, ToNumber b with
       | Some x, Some y => on_num x y
       | _, _ => false
       end.
Definition js_le (a b : option value) : bool := compare_with String.leb Qleb a b.
Definition js_lt (a b : option value) : bool := compare_with String.ltb Qltb a b.
Definition js_ge (a b : option value) : bool := compare_with (fun x y => String.leb y x) Qgeb a b.

(** [new Date(v).getTime()] *)
Definition Date_getTime (v : option value) : option Z :=
  match v with
  | None | Some VNaN => None
  | Some VNull => Some 0%Z
  | Some (VBool b) => Some (if b then 1%Z else 0%Z)
  | Some (VNum q) => Some (Z.quot (Qnum q) (Zpos (Qden q)))
  | Some (VStr s) => Date_parse s
  | Some v => Date_parse (ToString_value v)
  end.

End Coercions.

(** [v === "s"] and [v === q] against a literal. *)
Definition is_str (s : string) (v : option value) : bool :=
  match v with Some (VStr t) => String.eqb t s | _ => false end.
Definition is_num (q : Q) (v : option value) : bool :=
  match v with Some (VNum p) => Qeq_bool p q | _ => false end.

End JS.

Import JS.

(** ** utils/validation: class Validator *)

Module Validator.

Record ValidationResult : Type := {
  isValid : bool;
  errors : list string;
}.

Record MedicineData : Type := {
  md_name : option string;
  md_category : option string;
  md_strength : option string;
  md_manufacturer : option string;
  md_stock : option Q;
  md_minStock : option Q;
  md_maxStock : option Q;
  md_price : option Q;
  md_expiryDate : option string;
  md_batchNumber : option string;
  md_location : option string;
}.

Record PrescriptionData : Type := {
  pd_patientName : option string;
  pd_patientAge : option Q;
  pd_doctorName : option string;
  pd_medicines : option (list string);
}.

Record SaleItem : Type := {
  si_medicineId : string;
  si_name : string;
  si_quantity : Q;
  si_price : Q;
}.

Record SaleData : Type := {
  sd_customerName : option string;
  sd_customerPhone : option string;
  sd_items : option (list SaleItem);
  sd_total : option Q;
  sd_paymentMethod : option string;
}.

Record EmployeeData : Type := {
  ed_name : option string;
  ed_email : option string;
  ed_phone : option string;
  ed_role : option string;
  ed_department : option string;
  ed_salary : option Q;
  ed_hireDate : option string;
}.

(** [errors.push(msg)] under a condition. *)
Definition push_if (c : bool) (msg : string) (errors : list string) : list string :=
  if c then (errors ++ [msg])%list else errors.

(** [!s || s.trim().length < n] for an optional string property. *)
Definition missing_or_short (n : nat) (s : option string) : bool :=
  match s with
  | None => true
  | Some s => falsy_str s || (String.length (trim s) <? n)%nat
  end.

(** [s && s.trim().length < n]: the property is present, non-empty and
    too short. *)
Definition present_and_short (n : nat) (s : option string) : bool :=
  match s with
  | None => false
  | Some s => negb (falsy_str s) && (String.length (trim s) <? n)%nat
  end.

(** [x !== undefined && (x < 0 || !Number.isInteger(x))] *)
Definition bad_count (x : option Q) : bool :=
  match x with
  | None => false
  | Some q => Qltb q 0 || negb (Number_isInteger q)
  end.

(** [x !== undefined && (x < 0 || isNaN(x))]; no modelled number is
    [NaN]. *)
Definition bad_amount (x : option Q) : bool :=
  match x with
  | None => false
  | Some q => Qltb q 0
  end.

(** [[^\s@]] *)
Definition not_space_at (c : ascii) : bool := negb (is_space c || is_char "@" c).

(** [/^[^\s@]+@[^\s@]+\.[^\s@]+$/] *)
Definition emailRegex : regex :=
  Seq (Plus (Class not_space_at))
    (Seq (Class (is_char "@"))
      (Seq (Plus (Class not_space_at))
        (Seq (Class (is_char "."))
          (Plus (Class not_space_at))))).

Definition validateEmail (email : string) : bool := test emailRegex email.

(** [/^[\+]?[1-9][\d]{0,15}$/] *)
Definition phoneRegex : regex :=
  Seq (Opt (Class (is_char "+")))
    (Seq (Class (in_range "1" "9"))
      (UpTo 15 (Class (in_range "0" "9")))).

(** [[\s\-\(\)]] *)
Definition phone_noise (c : ascii) : bool :=
  is_space c || is_char "-" c || is_char "(" c || is_char ")" c.

Definition validatePhone (phone : string) : bool :=
  test phoneRegex (remove_class phone_noise phone).

Section WithClock.

Context {rt : Runtime}.

(** The time value of [new Date()]. *)
Variable now : Z.

Definition validateDate (dateString : string) : bool :=
  match Date_parse dateString with Some _ => true | None => false end.

(** [s && !this.validateDate(s)] *)
Definition present_and_undated (s : option string) : bool :=
  match s with
  | None => false
  | Some s => negb (falsy_str s) && negb (validateDate s)
  end.

(** [s && new Date(s) <= new Date()]; a comparison with an invalid date
    is false. *)
Definition present_and_past (s : option string) : bool :=
  match s with
  | None => false
  | Some s =>
      negb (falsy_str s) &&
      match Date_parse s with Some t => (t <=? now)%Z | None => false end
  end.

Definition validateMedicine (data : MedicineData) : ValidationResult :=
  let errors := [] in
  let errors := push_if (missing_or_short 2 (md_name data))
                  "Medicine name must be at least 2 characters long" errors in
  let errors := push_if (missing_or_short 2 (md_category data))
                  "Category must be at least 2 characters long" errors in
  let errors := push_if (missing_or_short 2 (md_manufacturer data))
                  "Manufacturer must be at least 2 characters long" errors in
  let errors := push_if (bad_count (md_stock data))
                  "Stock must be a non-negative integer" errors in
  let errors := push_if (bad_count (md_minStock data))
                  "Minimum stock must be a non-negative integer" errors in
  let errors := push_if (bad_count (md_maxStock data))
                  "Maximum stock must be a non-negative integer" errors in
  let errors := push_if
                  match md_minStock data, md_maxStock data with
                  | Some lo, Some hi => Qgeb lo hi
                  | _, _ => false
                  end
                  "Maximum stock must be greater than minimum stock" errors in
  let errors := push_if (bad_amount (md_price data))
                  "Price must be a non-negative number" errors in
  let errors := push_if (present_and_undated (md_expiryDate data))
                  "Invalid expiry date format" errors in
  let errors := push_if (present_and_past (md_expiryDate data))
                  "Expiry date must be in the future" errors in
  let errors := push_if (present_and_short 3 (md_batchNumber data))
                  "Batch number must be at least 3 characters long" errors in
  {| isValid := (List.length errors =? 0)%nat; errors := errors |}.

End WithClock.

(** The body of [data.medicines.forEach((medicine, index) => ...)],
    [index] being the position of the head of [l]. *)
Fixpoint each_medicine (index : nat) (l : list string) (errors : list string)
  : list string :=
  match l with
  | [] => errors
  | medicine :: rest =>
      each_medicine (S index) rest
        (push_if (falsy_str medicine || (String.length (trim medicine) <? 2)%nat)
           ("Medicine " ++ show_nat (index + 1) ++ " must be at least 2 characters long")
           errors)
  end.

Definition validatePrescription (data : PrescriptionData) : ValidationResult :=
  let errors := [] in
  let errors := push_if (missing_or_short 2 (pd_patientName data))
                  "Patient name must be at least 2 characters long" errors in
  let errors := push_if (missing_or_short 2 (pd_doctorName data))
                  "Doctor name must be at least 2 characters long" errors in
  let errors := push_if
                  match pd_patientAge data with
                  | None => false
                  | Some a => Qltb a 0 || Qltb 150 a || negb (Number_isInteger a)
                  end
                  "Patient age must be a valid integer between 0 and 150" errors in
  let errors := push_if
                  match pd_medicines data with
                  | None => true
                  | Some l => (List.length l =? 0)%nat
                  end
                  "At least one medicine must be prescribed" errors in
  let errors := match pd_medicines data with
                | None => errors
                | Some l => each_medicine 0 l errors
                end in
  {| isValid := (List.length errors =? 0)%nat; errors := errors |}.

(** The body of [data.items.forEach((item, index) => ...)]. *)
Fixpoint each_item (index : nat) (l : list SaleItem) (errors : list string)
  : list string :=
  match l with
  | [] => errors
  | item :: rest =>
      let label := "Item " ++ show_nat (index + 1) in
      let errors := push_if (falsy_str (si_medicineId item))
                      (label ++ ": Medicine ID is required") errors in
      let errors := push_if
                      (falsy_str (si_name item)
                       || (String.length (trim (si_name item)) <? 2)%nat)
                      (label ++ ": Medicine name is required") errors in
      let errors := push_if
                      (falsy_num (si_quantity item) || Qleb (si_quantity item) 0
                       || negb (Number_isInteger (si_quantity item)))
                      (label ++ ": Quantity must be a positive integer") errors in
      let errors := push_if
                      (falsy_num (si_price item) || Qleb (si_price item) 0)
                      (label ++ ": Price must be a positive number") errors in
      each_item (S index) rest errors
  end.

Definition paymentMethods : list string := ["cash"; "card"; "insurance"; "other"].

Definition validateSale (data : SaleData) : ValidationResult :=
  let errors := [] in
  let errors := push_if (present_and_short 2 (sd_customerName data))
                  "Customer name must be at least 2 characters long" errors in
  let errors := push_if
                  match sd_customerPhone data with
                  | None => false
                  | Some p => negb (falsy_str p) && negb (validatePhone p)
                  end
                  "Invalid phone number format" errors in
  let errors := push_if
                  match sd_items data with
                  | None => true
                  | Some l => (List.length l =? 0)%nat
                  end
                  "At least one item must be added to the sale" errors in
  let errors := match sd_items data with
                | None => errors
                | Some l => each_item 0 l errors
                end in
  let errors := push_if (bad_amount (sd_total data))
                  "Total must be a non-negative number" errors in
  let errors := push_if
                  match sd_paymentMethod data with
                  | None => false
                  | Some m => negb (falsy_str m)
                              && negb (existsb (String.eqb m) paymentMethods)
                  end
                  "Invalid payment method" errors in
  {| isValid := (List.length errors =? 0)%nat; errors := errors |}.

Section WithDates.

Context {rt : Runtime}.

Definition validateEmployee (data : EmployeeData) : ValidationResult :=
  let errors := [] in
  let errors := push_if (missing_or_short 2 (ed_name data))
                  "Employee name must be at least 2 characters long" errors in
  let errors := push_if
                  match ed_email data with
                  | None => true
                  | Some e => falsy_str e || negb (validateEmail e)
                  end
                  "Valid email address is required" errors in
  let errors := push_if
                  match ed_phone data with
                  | None => false
                  | Some p => negb (falsy_str p) && negb (validatePhone p)
                  end
                  "Invalid phone number format" errors in
  let errors := push_if (missing_or_short 2 (ed_role data))
                  "Role must be at least 2 characters long" errors in
  let errors := push_if (missing_or_short 2 (ed_department data))
                  "Department must be at least 2 characters long" errors in
  let errors := push_if (bad_amount (ed_salary data))
                  "Salary must be a non-negative number" errors in
  let errors := push_if (present_and_undated (ed_hireDate data))
                  "Invalid hire date format" errors in
  {| isValid := (List.length errors =? 0)%nat; errors := errors |}.

End WithDates.

End Validator.

(** An object of the store and the JSON blob that holds, under each
    entity name, the array of its records. *)
Abbreviation obj := (gmap string value).
Abbreviation store := (gmap string (list (gmap string value))).

(** ** utils/supabase/client.tsx: the sample data and class
       LocalStorageManager *)

Module LocalStorageManager.

Definition sampleMedicines : list obj :=
  [ list_to_map
      [("id", VStr "med_001"); ("name", VStr "Paracetamol");
       ("category", VStr "Pain Relief"); ("strength", VStr "500mg");
       ("manufacturer", VStr "PharmaCorp"); ("stock", VNum 150);
       ("minStock", VNum 50); ("maxStock", VNum 300); ("price", VNum (599 # 100));
       ("expiryDate", VStr "2025-12-15"); ("batchNumber", VStr "PC240815");
       ("location", VStr "A1-S2"); ("createdAt", VStr "2025-01-08T10:00:00Z");
       ("updatedAt", VStr "2025-01-08T10:00:00Z")];
    list_to_map
      [("id", VStr "med_002"); ("name", VStr "Amoxicillin");
       ("category", VStr "Antibiotic"); ("strength", VStr "250mg");
       ("manufacturer", VStr "MediLife"); ("stock", VNum 25);
       ("minStock", VNum 30); ("maxStock", VNum 150); ("price", VNum (1250 # 100));
       ("expiryDate", VStr "2025-06-20"); ("batchNumber", VStr "ML240601");
       ("location", VStr "B2-S1"); ("createdAt", VStr "2025-01-07T10:00:00Z");
       ("updatedAt", VStr "2025-01-07T10:00:00Z")];
    list_to_map
      [("id", VStr "med_003"); ("name", VStr "Ibuprofen");
       ("category", VStr "Anti-inflammatory"); ("strength", VStr "200mg");
       ("manufacturer", VStr "HealthCare+"); ("stock", VNum 200);
       ("minStock", VNum 40); ("maxStock", VNum 250); ("price", VNum (875 # 100));
       ("expiryDate", VStr "2026-03-10"); ("batchNumber", VStr "HC241120");
       ("location", VStr "A3-S1"); ("createdAt", VStr "2025-01-08T10:00:00Z");
       ("updatedAt", VStr "2025-01-08T10:00:00Z")];
    list_to_map
      [("id", VStr "med_004"); ("name", VStr "Aspirin");
       ("category", VStr "Pain Relief"); ("strength", VStr "75mg");
       ("manufacturer", VStr "HealthCare+"); ("stock", VNum 8);
       ("minStock", VNum 25); ("maxStock", VNum 200); ("price", VNum (650 # 100));
       ("expiryDate", VStr "2025-04-15"); ("batchNumber", VStr "HC240320");
       ("location", VStr "A1-S3"); ("createdAt", VStr "2025-01-06T10:00:00Z");
       ("updatedAt", VStr "2025-01-06T10:00:00Z")];
    list_to_map
      [("id", VStr "med_005"); ("name", VStr "Metformin");
       ("category", VStr "Diabetes"); ("strength", VStr "500mg");
       ("manufacturer", VStr "MediLife"); ("stock", VNum 5);
       ("minStock", VNum 20); ("maxStock", VNum 100); ("price", VNum 18);
       ("expiryDate", VStr "2025-08-30"); ("batchNumber", VStr "ML240215");
       ("location", VStr "C1-S2"); ("createdAt", VStr "2025-01-05T10:00:00Z");
       ("updatedAt", VStr "2025-01-05T10:00:00Z")] ].

(** [loaded] is the value of [new Date().toISOString()] when the module
    is evaluated. *)
Definition sampleSales (loaded : string) : list obj :=
  [ list_to_map
      [("id", VStr "sale_001"); ("customerName", VStr "John Smith");
       ("customerPhone", VStr "+1234567890");
       ("items", VArr [VObj (list_to_map
                        [("medicineId", VStr "med_001"); ("name", VStr "Paracetamol");
                         ("quantity", VNum 2); ("price", VNum (599 # 100))])]);
       ("total", VNum (1198 # 100)); ("paymentMethod", VStr "cash");
       ("timestamp", VStr loaded)] ].

Definition samplePrescriptions (loaded : string) : list obj :=
  [ list_to_map
      [("id", VStr "presc_001"); ("patientName", VStr "Jane Doe");
       ("patientAge", VNum 35); ("doctorName", VStr "Dr. Smith");
       ("medicines", VArr [VStr "Amoxicillin 250mg"]); ("status", VStr "pending");
       ("createdAt", VStr loaded); ("updatedAt", VStr loaded)] ].

(** [loadFromStorage]: the parsed content of the storage key when there
    is one and it parses ([Some]), the sample data otherwise.
    [saveToStorage] writes a JSON copy of [data] under the storage key,
    swallows a failure of the write and never changes [data]; the copy is
    read again only here. *)
Definition loadFromStorage (stored : option store) (loaded : string) : store :=
  match stored with
  | Some data => data
  | None =>
      list_to_map
        [("medicines", sampleMedicines); ("sales", sampleSales loaded);
         ("prescriptions", samplePrescriptions loaded);
         ("employees", []); ("tickets", [])]
  end.

(** [item.id === id] *)
Definition has_id (id : string) (item : obj) : bool :=
  match item !! "id" with
  | Some (VStr s) => String.eqb s id
  | _ => false
  end.

Fixpoint findIndex (p : obj -> bool) (l : list obj) : option nat :=
  match l with
  | [] => None
  | item :: rest => if p item then Some O else S <$> findIndex p rest
  end.

Definition get (data : store) (key : string) : list obj :=
  default [] (data !! key).

Definition set (data : store) (key : string) (value : list obj) : store :=
  <[key := value]> data.

Definition add (data : store) (key : string) (item : obj) : store * obj :=
  (<[key := (get data key ++ [item])%list]> data, item).

(** [update] answers [None] for the [null] of the source. *)
Definition update (data : store) (key id : string) (updates : obj)
  : store * option obj :=
  match data !! key with
  | None => (data, None)
  | Some arr =>
      match findIndex (has_id id) arr with
      | Some index =>
          let item := spread (default ∅ (arr !! index)) updates in
          (<[key := <[index := item]> arr]> data, Some item)
      | None => (data, None)
      end
  end.

Definition delete (data : store) (key id : string) : store * bool :=
  match data !! key with
  | None => (data, false)
  | Some arr => (<[key := List.filter (fun item => negb (has_id id item)) arr]> data, true)
  end.

End LocalStorageManager.

(** ** utils/supabase/client.tsx: class PharmacyAPI *)

Module PharmacyAPI.

Import LocalStorageManager.

(** What [fetch] brought back: a rejection, or a response with its
    status line and, when the body parses, its JSON. *)
Inductive fetched : Type :=
  | NetworkError (msg : string)
  | Response (status : nat) (statusText : string) (json : option value).

(** What a method reads from its surroundings while it runs:
    [generateId()] and the successive values of
    [new Date().toISOString()]. *)
Record ambient : Type := {
  generateId : string;
  clock : nat -> string;
}.

Definition useBackend : bool := true.

(** [response.ok] *)
Definition ok (status : nat) : bool := ((200 <=? status) && (status <=? 299))%nat.

(** [v?.k] *)
Definition prop (v : option value) (k : string) : option value :=
  match v with
  | Some (VObj o) => o !! k
  | _ => None
  end.

(** [tryBackend]: the JSON of a response that is [ok], an exception
    otherwise.  The message of the exception is [errorData?.error] when
    that is a non-empty string and the status line when it is falsy; when
    it is truthy and not a string the call throws as well, and the model
    keeps one message for that case.  The console output is not
    modelled. *)
Definition tryBackend (f : fetched) : outcome value :=
  if negb useBackend then Thrown "Backend disabled"
  else match f with
       | NetworkError msg => Thrown msg
       | Response status statusText json =>
           if ok status
           then match json with
                | Some v => Returned v
                | None => Thrown "Unexpected end of JSON input"
                end
           else match or_else (prop json "error")
                        (Some (VStr ("HTTP " ++ show_nat status ++ ": " ++ statusText))) with
                | Some (VStr errorMessage) => Thrown errorMessage
                | _ => Thrown "errorMessage.includes is not a function"
                end
       end.

(** [try { return await this.tryBackend(...) } catch { fallback }] *)
Definition try_catch (remote : outcome value)
  (fallback : store -> store * outcome value) (data : store)
  : store * outcome value :=
  match remote with
  | Returned response => (data, Returned response)
  | Thrown _ => fallback data
  end.

(** The shapes of the results: [{ key: v }], an array of records, a
    record or [null], and [{ success: true }]. *)
Definition result (key : string) (v : value) : value := VObj {[ key := v ]}.
Definition records (l : list obj) : value := VArr (VObj <$> l).
Definition or_null (o : option obj) : value :=
  match o with Some item => VObj item | None => VNull end.
Definition success : value := result "success" (VBool true).

(** [o] with [k: v], a property whose value is [undefined] being left
    out as [JSON.stringify] leaves it out. *)
Definition with_prop (k : string) (v : option value) (o : obj) : obj :=
  match v with Some x => <[k := x]> o | None => o end.

(** [s.split('T')[0]] *)
Fixpoint before_T (s : string) : string :=
  match s with
  | EmptyString => EmptyString
  | String c r => if is_char "T" c then EmptyString else String c (before_T r)
  end.

(** [l.slice(-n)] *)
Definition slice_last {A : Type} (n : nat) (l : list A) : list A :=
  drop (List.length l - n) l.

(** [l.length] as a value. *)
Definition count {A : Type} (l : list A) : value :=
  VNum (inject_Z (Z.of_nat (List.length l))).

(** Callbacks that may throw, and [filter] and [map] over them: the
    first exception ends the traversal. *)
Definition bind {A B : Type} (m : outcome A) (f : A -> outcome B) : outcome B :=
  match m with
  | Returned a => f a
  | Thrown e => Thrown e
  end.

Fixpoint filterM {A : Type} (p : A -> outcome bool) (l : list A) : outcome (list A) :=
  match l with
  | [] => Returned []
  | x :: rest =>
      bind (p x) (fun keep =>
      bind (filterM p rest) (fun rest' =>
      Returned (if keep then x :: rest' else rest')))
  end.

Fixpoint mapM {A B : Type} (f : A -> outcome B) (l : list A) : outcome (list B) :=
  match l with
  | [] => Returned []
  | x :: rest =>
      bind (f x) (fun y =>
      bind (mapM f rest) (fun rest' =>
      Returned (y :: rest')))
  end.

(** The calls of the class: a method and its arguments.  An argument
    that the source types [any] and only spreads into a record
    ([medicine], [updates], [sale], ...) is given as the object of its own
    properties, which is all that the spread reads of it. *)
Inductive request : Type :=
  | GetMedicines
  | AddMedicine (medicine : obj)
  | UpdateMedicine (id : string) (updates : obj)
  | DeleteMedicine (id : string)
  | UpdateStock (id : string) (quantity : num) (type : string)
  | GetSales
  | CreateSale (sale : obj)
  | GetSaleById (id : string)
  | GetPrescriptions
  | AddPrescription (prescription : obj)
  | UpdatePrescriptionStatus (id status : string)
  | VerifyPrescription (id : string) (verification : option value)
  | GetEmployees
  | AddEmployee (employee : obj)
  | ClockIn (employeeId : string)
  | ClockOut (employeeId : string)
  | GetTimeEntries (employeeId : option string)
  | GetTickets
  | CreateTicket (ticket : obj)
  | UpdateTicketStatus (id status : string)
  | GetDashboardStats
  | GetRecentActivity
  | GetLowStockAlerts
  | GetSalesReport (startDate endDate : string)
  | GetInventoryReport
  | GetEmployeeReport (month : string)
  | GetPrescriptionReport (startDate endDate : string).

Section Methods.

Context {rt : Runtime}.
Variable amb : ambient.

(** *** Medicine/Inventory APIs *)

Definition getMedicines (remote : outcome value) : store -> store * outcome value :=
  try_catch remote (fun data =>
    (data, Returned (result "medicines" (records (get data "medicines"))))).

Definition newMedicine (medicine : obj) : obj :=
  spread (spread {[ "id" := VStr (generateId amb) ]} medicine)
    {[ "createdAt" := VStr (clock amb 0); "updatedAt" := VStr (clock amb 1) ]}.

Definition addMedicine (remote : outcome value) (medicine : obj)
  : store -> store * outcome value :=
  try_catch remote (fun data =>
    let '(data, item) := add data "medicines" (newMedicine medicine) in
    (data, Returned (result "medicine" (VObj item)))).

Definition updateMedicine (remote : outcome value) (id : string) (updates : obj)
  : store -> store * outcome value :=
  let updated := spread updates {[ "updatedAt" := VStr (clock amb 0) ]} in
  try_catch remote (fun data =>
    let '(data, medicine) := update data "medicines" id updated in
    (data, Returned (result "medicine" (or_null medicine)))).

Definition deleteMedicine (remote : outcome value) (id : string)
  : store -> store * outcome value :=
  try_catch remote (fun data =>
    (fst (delete data "medicines" id), Returned success)).

Definition updateStock (remote : outcome value) (id : string) (quantity : num)
  (type : string) : store -> store * outcome value :=
  try_catch remote (fun data =>
    let medicines := get data "medicines" in
    match List.find (has_id id) medicines with
    | Some medicine =>
        let newStock :=
          if String.eqb type "add"
          then js_add (medicine !! "stock") (Some (num_value quantity))
          else js_sub (medicine !! "stock") (Some (num_value quantity)) in
        let '(data, updated) :=
          update data "medicines" id
            {[ "stock" := Math_max (Some (VNum 0)) (Some newStock);
               "updatedAt" := VStr (clock amb 0) ]} in
        (data, Returned (result "medicine" (or_null updated)))
    | None => (data, Thrown "Medicine not found")
    end).

(** *** Sales APIs *)

Definition getSales (remote : outcome value) : store -> store * outcome value :=
  try_catch remote (fun data =>
    (data, Returned (result "sales" (records (get data "sales"))))).

Definition newSale (sale : obj) : obj :=
  spread (spread {[ "id" := VStr (generateId amb) ]} sale)
    {[ "timestamp" := VStr (clock amb 0) ]}.

Definition createSale (remote : outcome value) (sale : obj)
  : store -> store * outcome value :=
  try_catch remote (fun data =>
    let '(data, item) := add data "sales" (newSale sale) in
    (data, Returned (result "sale" (VObj item)))).

Definition getSaleById (remote : outcome value) (id : string)
  : store -> store * outcome value :=
  try_catch remote (fun data =>
    let sale := List.find (has_id id) (get data "sales") in
    (data, Returned (VObj (with_prop "sale" (VObj <$> sale) ∅)))).

(** *** Prescription APIs *)

Definition getPrescriptions (remote : outcome value) : store -> store * outcome value :=
  try_catch remote (fun data =>
    (data, Returned (result "prescriptions" (records (get data "prescriptions"))))).

Definition newPrescription (prescription : obj) : obj :=
  spread (spread {[ "id" := VStr (generateId amb) ]} prescription)
    {[ "status" := VStr "pending";
       "createdAt" := VStr (clock amb 0); "updatedAt" := VStr (clock amb 1) ]}.

Definition addPrescription (remote : outcome value) (prescription : obj)
  : store -> store * outcome value :=
  try_catch remote (fun data =>
    let '(data, item) := add data "prescriptions" (newPrescription prescription) in
    (data, Returned (result "prescription" (VObj item)))).

Definition updatePrescriptionStatus (remote : outcome value) (id status : string)
  : store -> store * outcome value :=
  try_catch remote (fun data =>
    let '(data, prescription) :=
      update data "prescriptions" id
        {[ "status" := VStr status; "updatedAt" := VStr (clock amb 0) ]} in
    (data, Returned (result "prescription" (or_null prescription)))).

(** [verification] is typed [any].  The catch block spreads it, which
    every value allows, and then reads [verification.approved], which
    throws a [TypeError] when it is [null] or [undefined]; the arguments
    of [storage.update] are evaluated before the call, so that nothing
    is written then. *)
Definition verifyPrescription (remote : outcome value) (id : string)
  (verification : option value) : store -> store * outcome value :=
  try_catch remote (fun data =>
    match verification with
    | None =>
        (data, Thrown "Cannot read properties of undefined (reading 'approved')")
    | Some VNull =>
        (data, Thrown "Cannot read properties of null (reading 'approved')")
    | _ =>
        let '(data, prescription) :=
          update data "prescriptions" id
            {[ "verification" :=
                 VObj (spread (own verification)
                         {[ "timestamp" := VStr (clock amb 0) ]});
               "status" :=
                 VStr (if truthy (prop verification "approved")
                       then "verified" else "rejected");
               "updatedAt" := VStr (clock amb 1) ]} in
        (data, Returned (result "prescription" (or_null prescription)))
    end).

(** *** Employee APIs *)

Definition getEmployees (remote : outcome value) : store -> store * outcome value :=
  try_catch remote (fun data =>
    (data, Returned (result "employees" (records (get data "employees"))))).

Definition newEmployee (employee : obj) : obj :=
  spread (spread {[ "id" := VStr (generateId amb) ]} employee)
    {[ "createdAt" := VStr (clock amb 0); "updatedAt" := VStr (clock amb 1) ]}.

Definition addEmployee (remote : outcome value) (employee : obj)
  : store -> store * outcome value :=
  try_catch remote (fun data =>
    let '(data, item) := add data "employees" (newEmployee employee) in
    (data, Returned (result "employee" (VObj item)))).

Definition clockIn (remote : outcome value) (employeeId : string)
  : store -> store * outcome value :=
  try_catch remote (fun data => (data, Returned success)).

Definition clockOut (remote : outcome value) (employeeId : string)
  : store -> store * outcome value :=
  try_catch remote (fun data => (data, Returned success)).

Definition getTimeEntries (remote : outcome value) (employeeId : option string)
  : store -> store * outcome value :=
  try_catch remote (fun data => (data, Returned (result "timeEntries" (VArr [])))).

(** *** Help Desk APIs *)

Definition getTickets (remote : outcome value) : store -> store * outcome value :=
  try_catch remote (fun data =>
    (data, Returned (result "tickets" (records (get data "tickets"))))).

Definition newTicket (ticket : obj) : obj :=
  spread (spread {[ "id" := VStr (generateId amb) ]} ticket)
    {[ "status" := VStr "open";
       "createdAt" := VStr (clock amb 0); "updatedAt" := VStr (clock amb 1) ]}.

Definition createTicket (remote : outcome value) (ticket : obj)
  : store -> store * outcome value :=
  try_catch remote (fun data =>
    let '(data, item) := add data "tickets" (newTicket ticket) in
    (data, Returned (result "ticket" (VObj item)))).

Definition updateTicketStatus (remote : outcome value) (id status : string)
  : store -> store * outcome value :=
  try_catch remote (fun data =>
    let '(data, ticket) :=
      update data "tickets" id
        {[ "status" := VStr status; "updatedAt" := VStr (clock amb 0) ]} in
    (data, Returned (result "ticket" (or_null ticket)))).

(** *** Helpers of the dashboard and report fallbacks *)

(** [sale.timestamp && sale.timestamp.startsWith(today)] as the filter
    reads it; a truthy timestamp that is not a string has no
    [startsWith]. *)
Definition startsWith_today (today : string) (sale : obj) : outcome bool :=
  match sale !! "timestamp" with
  | Some (VStr s) => Returned (negb (falsy_str s) && String.prefix today s)
  | timestamp =>
      if truthy timestamp
      then Thrown "sale.timestamp.startsWith is not a function"
      else Returned false
  end.

(** [reduce((sum, sale) => sum + (sale.total || 0), 0)] *)
Definition revenue (sales : list obj) : value :=
  fold_left
    (fun sum sale => js_add (Some sum) (or_else (sale !! "total") (Some (VNum 0))))
    sales (VNum 0).

(** [a / b] *)
Definition js_div (a b : option value) : value := arith Qdiv a b.

(** The text of [${v?.toFixed(2)}]. *)
Definition toFixed_2 (v : option value) : outcome string :=
  match v with
  | None | Some VNull => Returned "undefined"
  | Some (VNum q) => Returned (Number_toFixed q 2)
  | Some VNaN => Returned "NaN"
  | _ => Thrown "sale.total?.toFixed is not a function"
  end.

(** [v?.split('T')[0]] *)
Definition day_of (v : option value) : outcome (option value) :=
  match v with
  | None | Some VNull => Returned None
  | Some (VStr s) => Returned (Some (VStr (before_T s)))
  | _ => Thrown "split is not a function"
  end.

(** [day >= startDate && day <= endDate] for [day = v?.split('T')[0]] *)
Definition in_period (startDate endDate : string) (v : option value) : outcome bool :=
  bind (day_of v) (fun day =>
    Returned (js_ge day (Some (VStr startDate)) && js_le day (Some (VStr endDate)))).

(** *** Dashboard APIs *)

Definition getDashboardStats (remote : outcome value) : store -> store * outcome value :=
  try_catch remote (fun data =>
    let medicines := get data "medicines" in
    let sales := get data "sales" in
    let prescriptions := get data "prescriptions" in
    let today := before_T (clock amb 0) in
    match filterM (startsWith_today today) sales with
    | Thrown e => (data, Thrown e)
    | Returned todaySales =>
        (data, Returned (result "stats" (VObj (list_to_map
           [("totalMedicines", count medicines);
            ("todaySales", count todaySales);
            ("todayRevenue", revenue todaySales);
            ("lowStockAlerts",
               count (List.filter
                 (fun m => js_le (m !! "stock") (or_else (m !! "minStock") (Some (VNum 10))))
                 medicines));
            ("pendingPrescriptions",
               count (List.filter (fun p => is_str "pending" (p !! "status"))
                        prescriptions))]))))
    end).

Definition sale_activity (sale : obj) : outcome obj :=
  bind (toFixed_2 (sale !! "total")) (fun total =>
    Returned (with_prop "timestamp" (sale !! "timestamp")
      {[ "type" := VStr "sale";
         "description" :=
           VStr ("Sale to "
                 ++ ToString (or_else (sale !! "customerName") (Some (VStr "Customer")))
                 ++ " - $" ++ total) ]})).

Definition prescription_activity (p : obj) : obj :=
  with_prop "timestamp" (p !! "updatedAt")
    {[ "type" := VStr "prescription";
       "description" :=
         VStr ("Prescription for " ++ ToString (p !! "patientName")
               ++ " - " ++ ToString (p !! "status")) ]}.

(** The comparator
    [(a, b) => new Date(b.timestamp).getTime() - new Date(a.timestamp).getTime()]
    leaves [a] before [b] when it is not positive; a [NaN] is treated as
    zero (what the sort does with it is left to the implementation by
    ECMAScript). *)
Definition newest_first (a b : obj) : bool :=
  match Date_getTime (a !! "timestamp"), Date_getTime (b !! "timestamp") with
  | Some ta, Some tb => (tb <=? ta)%Z
  | _, _ => true
  end.

Definition getRecentActivity (remote : outcome value) : store -> store * outcome value :=
  try_catch remote (fun data =>
    let sales := get data "sales" in
    let prescriptions := get data "prescriptions" in
    match mapM sale_activity (slice_last 5 sales) with
    | Thrown e => (data, Thrown e)
    | Returned fromSales =>
        let activities :=
          take 10 (merge_sort (fun a b => Is_true (newest_first a b))
                     (fromSales ++ (prescription_activity <$> slice_last 5 prescriptions))%list) in
        (data, Returned (result "activities" (records activities)))
    end).

Definition low_stock_alert (m : obj) : obj :=
  with_prop "id" (m !! "id")
    (with_prop "name" (m !! "name")
      (with_prop "currentStock" (m !! "stock")
        (with_prop "minStock" (or_else (m !! "minStock") (Some (VNum 10)))
          {[ "severity" :=
               VStr (if is_num 0 (m !! "stock") then "critical"
                     else if js_lt (m !! "stock") (Some (VNum 5)) then "high"
                     else "medium") ]}))).

Definition getLowStockAlerts (remote : outcome value) : store -> store * outcome value :=
  try_catch remote (fun data =>
    let medicines := get data "medicines" in
    let alerts :=
      low_stock_alert <$>
        List.filter
          (fun m => js_le (m !! "stock") (or_else (m !! "minStock") (Some (VNum 10))))
          medicines in
    (data, Returned (result "alerts" (records alerts)))).

(** *** Reports APIs *)

Definition period (startDate endDate : string) : value :=
  VObj {[ "start" := VStr startDate; "end" := VStr endDate ]}.

Definition getSalesReport (remote : outcome value) (startDate endDate : string)
  : store -> store * outcome value :=
  try_catch remote (fun data =>
    let sales := get data "sales" in
    match filterM (fun sale => in_period startDate endDate (sale !! "timestamp")) sales with
    | Thrown e => (data, Thrown e)
    | Returned filteredSales =>
        (data, Returned (result "report" (VObj (list_to_map
           [("period", period startDate endDate);
            ("totalSales", count filteredSales);
            ("totalRevenue", revenue filteredSales);
            ("averageOrderValue",
               if (0 <? List.length filteredSales)%nat
               then js_div (Some (revenue filteredSales)) (Some (count filteredSales))
               else VNum 0);
            ("sales", records filteredSales)]))))
    end).

Definition getInventoryReport (remote : outcome value) : store -> store * outcome value :=
  try_catch remote (fun data =>
    let medicines := get data "medicines" in
    (data, Returned (result "report" (VObj (list_to_map
       [("totalItems", count medicines);
        ("totalValue",
           fold_left
             (fun sum med =>
                js_add (Some sum)
                  (or_else (Some (js_mul (med !! "stock") (med !! "price")))
                     (Some (VNum 0))))
             medicines (VNum 0));
        ("lowStockItems",
           count (List.filter
             (fun med => js_lt (med !! "stock") (or_else (med !! "minStock") (Some (VNum 10))))
             medicines));
        ("outOfStockItems",
           count (List.filter (fun med => is_num 0 (med !! "stock")) medicines));
        ("medicines", records medicines)]))))).

Definition getEmployeeReport (remote : outcome value) (month : string)
  : store -> store * outcome value :=
  try_catch remote (fun data =>
    (data, Returned (result "report" (VObj (list_to_map
       [("period", VStr month); ("employees", VArr []); ("timeEntries", VArr [])]))))).

(** [acc[p.status] = (acc[p.status] || 0) + 1] on an accumulator that
    starts as [{}]; the properties that [{}] inherits from its prototype
    are not modelled. *)
Definition tally (acc : obj) (p : obj) : obj :=
  let status := ToString (p !! "status") in
  <[status := js_add (or_else (acc !! status) (Some (VNum 0))) (Some (VNum 1))]> acc.

Definition getPrescriptionReport (remote : outcome value) (startDate endDate : string)
  : store -> store * outcome value :=
  try_catch remote (fun data =>
    let prescriptions := get data "prescriptions" in
    match filterM (fun p => in_period startDate endDate (p !! "createdAt")) prescriptions with
    | Thrown e => (data, Thrown e)
    | Returned filtered =>
        (data, Returned (result "report" (VObj (list_to_map
           [("period", period startDate endDate);
            ("totalPrescriptions", count filtered);
            ("statusBreakdown", VObj (fold_left tally filtered ∅));
            ("prescriptions", records filtered)]))))
    end).

(** *** A call of any method *)

Definition perform (remote : outcome value) (r : request)
  : store -> store * outcome value :=
  match r with
  | GetMedicines => getMedicines remote
  | AddMedicine medicine => addMedicine remote medicine
  | UpdateMedicine id updates => updateMedicine remote id updates
  | DeleteMedicine id => deleteMedicine remote id
  | UpdateStock id quantity type => updateStock remote id quantity type
  | GetSales => getSales remote
  | CreateSale sale => createSale remote sale
  | GetSaleById id => getSaleById remote id
  | GetPrescriptions => getPrescriptions remote
  | AddPrescription prescription => addPrescription remote prescription
  | UpdatePrescriptionStatus id status => updatePrescriptionStatus remote id status
  | VerifyPrescription id verification => verifyPrescription remote id verification
  | GetEmployees => getEmployees remote
  | AddEmployee employee => addEmployee remote employee
  | ClockIn employeeId => clockIn remote employeeId
  | ClockOut employeeId => clockOut remote employeeId
  | GetTimeEntries employeeId => getTimeEntries remote employeeId
  | GetTickets => getTickets remote
  | CreateTicket ticket => createTicket remote ticket
  | UpdateTicketStatus id status => updateTicketStatus remote id status
  | GetDashboardStats => getDashboardStats remote
  | GetRecentActivity => getRecentActivity remote
  | GetLowStockAlerts => getLowStockAlerts remote
  | GetSalesReport startDate endDate => getSalesReport remote startDate endDate
  | GetInventoryReport => getInventoryReport remote
  | GetEmployeeReport month => getEmployeeReport remote month
  | GetPrescriptionReport startDate endDate =>
      getPrescriptionReport remote startDate endDate
  end.

End Methods.

End PharmacyAPI.

(** ** components/SalesBilling.tsx: the cart and the sale it submits *)

Module SalesBilling.

Record CartItem : Type := {
  medicineId : string;
  name : string;
  price : Q;
  quantity : Q;
  stock : Q;
  strength : option string;
  manufacturer : option string;
}.

(** [cart.reduce((total, item) => total + item.price * item.quantity, 0)],
    in rationals: the sum without the rounding of the doubles of the
    source, with which it agrees where no product and no partial sum is
    rounded. *)
Definition calculateTotal (cart : list CartItem) : Q :=
  fold_left (fun total item => total + price item * quantity item)%Q cart 0%Q.

(** The [saleData] of [processSale]. *)
Record saleData : Type := {
  customerName : string;
  customerPhone : string;
  items : list CartItem;
  total : Q;
  paymentMethod : string;
}.

Definition make_saleData (name phone : string) (cart : list CartItem) (method : string)
  : saleData :=
  {| customerName := name; customerPhone := phone; items := cart;
     total := calculateTotal cart; paymentMethod := method |}.

(** The objects that [createSale] receives and [JSON.stringify] sends. *)
Definition item_object (item : CartItem) : obj :=
  PharmacyAPI.with_prop "strength" (VStr <$> strength item)
    (PharmacyAPI.with_prop "manufacturer" (VStr <$> manufacturer item)
      (list_to_map
         [("medicineId", VStr (medicineId item)); ("name", VStr (name item));
          ("price", VNum (price item)); ("quantity", VNum (quantity item));
          ("stock", VNum (stock item))])).

Definition sale_object (sale : saleData) : obj :=
  list_to_map
    [("customerName", VStr (customerName sale));
     ("customerPhone", VStr (customerPhone sale));
     ("items", VArr (VObj ∘ item_object <$> items sale));
     ("total", VNum (total sale));
     ("paymentMethod", VStr (paymentMethod sale))].

End SalesBilling.

(** ** supabase/functions/server/index.tsx over the tables of
       002_simplified_schema.sql *)

Module Server.

(** *** The column types [UUID] and [INTEGER]

    [id UUID]: the store reads a text as a uuid when it is 32
    hexadecimal digits in either case, with an optional hyphen after any
    group of four digits and optional braces around the whole, and it
    writes a uuid as its lower-case digits in groups of 8, 4, 4, 4 and
    12.  A text that is not read as a uuid is an error of the query that
    compares it with the column (the error [22P02]). *)

Definition hex_digit (c : ascii) : bool :=
  in_range "0" "9" c || in_range "a" "f" c || in_range "A" "F" c.

Definition to_lower (c : ascii) : ascii :=
  if in_range "A" "F" c then ascii_of_nat (nat_of_ascii c + 32) else c.

(** [n] bytes of two digits each, [i] bytes being read already: a hyphen
    may follow a byte of odd index that is not the last.  The result is
    the digits in lower case and the rest of the text. *)
Fixpoint uuid_bytes (n i : nat) (s : string) : option (string * string) :=
  match n with
  | O => Some (EmptyString, s)
  | S n' =>
      match s with
      | String a (String b rest) =>
          if hex_digit a && hex_digit b
          then
            let rest :=
              match rest with
              | String c rest' =>
                  if is_char "-" c && Nat.odd i && (i <? 15)%nat then rest' else rest
              | EmptyString => rest
              end in
            match uuid_bytes n' (S i) rest with
            | Some (digits, rest) =>
                Some (String (to_lower a) (String (to_lower b) digits), rest)
            | None => None
            end
          else None
      | _ => None
      end
  end.

Definition hyphenated (digits : string) : string :=
  substring 0 8 digits ++ "-" ++ substring 8 4 digits ++ "-"
  ++ substring 12 4 digits ++ "-" ++ substring 16 4 digits ++ "-"
  ++ substring 20 12 digits.

(** The text of the uuid that a text denotes. *)
Definition uuid_in (s : string) : option string :=
  let '(braces, s) :=
    match s with
    | String c r => if is_char "{" c then (true, r) else (false, s)
    | EmptyString => (false, s)
    end in
  match uuid_bytes 16 0 s with
  | Some (digits, rest) =>
      if String.eqb rest (if braces then "}" else "")
      then Some (hyphenated digits)
      else None
  | None => None
  end.

(** A value of the column: the text of a uuid as the store writes it. *)
Record uuid : Type := {
  uuid_text : string;
  uuid_ok : uuid_in uuid_text = Some uuid_text;
}.

(** [stock INTEGER]: a whole number from [-2147483648] to [2147483647];
    the store refuses any other number (the errors [22P02] and
    [22003]). *)
Definition int4 (q : Q) : bool :=
  Number_isInteger q && Qle_bool (-2147483648) q && Qle_bool q 2147483647.

Record integer : Type := {
  int_value : Q;
  int_ok : int4 int_value = true;
}.

Definition as_integer (q : Q) : option integer :=
  match bool_dec (int4 q) true with
  | left H => Some {| int_value := q; int_ok := H |}
  | right _ => None
  end.

(** *** The hosted store

    A table is the list of its rows, in insertion order.  The columns that
    the schema fills by default ([id], [active], [created], [updated]) are
    filled by [insert]; the trigger [meds_updated] ([BEFORE UPDATE ON
    meds], [NEW.updated = NOW()]) runs on every update of a row of [meds].
    A row of [meds] holds a uuid in [id] and integers in [stock],
    [min_stock] and [max_stock], and a query that would write or compare
    another value fails.  The other checks that the column types make
    (lengths of texts, date syntax, decimal scale) and the checks of the
    tables that only keep a log ([sale_items], [stock_moves]) are not
    modelled.  [ready] is false while the tables of the simplified schema
    have not been created; every query then fails with the error
    [42P01]. *)

Record med : Type := {
  m_id_col : uuid;
  m_name : string;
  m_cat : string;
  m_strength : option string;
  m_mfg : string;
  m_stock_col : integer;
  m_min_stock_col : integer;
  m_max_stock_col : integer;
  m_price : Q;
  m_exp_date : option string;
  m_batch : option string;
  m_location : option string;
  m_active : bool;
  m_created : string;
  m_updated : string;
}.

(** The columns as the handlers read them. *)
Definition m_id (m : med) : string := uuid_text (m_id_col m).
Definition m_stock (m : med) : Q := int_value (m_stock_col m).
Definition m_min_stock (m : med) : Q := int_value (m_min_stock_col m).
Definition m_max_stock (m : med) : Q := int_value (m_max_stock_col m).

Record sale : Type := {
  s_id : string;
  s_sale_no : string;
  s_cust_name : string;
  s_cust_phone : string;
  s_total : Q;
  s_payment : string;
  s_sale_date : string;
}.

Record sale_item : Type := {
  i_sale_id : string;
  i_med_id : string;
  i_med_name : string;
  i_qty : Q;
  i_price : Q;
  i_total : Q;
}.

Record stock_move : Type := {
  v_med_id : string;
  v_type : string;
  v_qty_change : Q;
  v_old_stock : Q;
  v_new_stock : Q;
  v_reason : string;
  v_ref_type : string;
  v_ref_id : option string;
}.

Record db : Type := {
  ready : bool;
  meds : list med;
  sales : list sale;
  sale_items : list sale_item;
  stock_moves : list stock_move;
}.

(** What a handler reads from its surroundings: the [gen_random_uuid()]
    and the [NOW()] of the row it inserts or updates, and the result of
    [generateSaleNumber()]. *)
Record surroundings : Type := {
  new_uuid : uuid;
  NOW : string;
  saleNumber : string;
}.

Definition gen_random_uuid (env : surroundings) : string := uuid_text (new_uuid env).

(** [message.includes(text)] *)
Fixpoint includes (text message : string) : bool :=
  String.prefix text message
  || match message with
     | EmptyString => false
     | String _ rest => includes text rest
     end.

(** The errors of a query, by what [isTableMissingError] sees of them:
    the code [42P01]; the error of a text that is compared with [id] and
    is not read as a uuid, whose message ends with the text between
    quotes ([invalid input syntax for type uuid:], which holds none of
    the words that the function looks for); and errors whose code and
    message the function does not match. *)
Inductive db_error : Type :=
  | UndefinedTable              (* code 42P01 *)
  | NotSingle                   (* [.single()] on zero or several rows *)
  | InvalidUuid (text : string) (* code 22P02 *)
  | Refused.                    (* a value that is not of the column's type,
                                   or a key that is taken *)

(** [error.code === '42P01' || error.message?.includes('relation') ||
    error.message?.includes('does not exist') ||
    error.message?.includes('table')] *)
Definition isTableMissingError (error : db_error) : bool :=
  match error with
  | UndefinedTable => true
  | InvalidUuid text =>
      includes "relation" text || includes "does not exist" text
      || includes "table" text
  | NotSingle | Refused => false
  end.

Definition set_meds (d : db) (l : list med) : db :=
  {| ready := ready d; meds := l; sales := sales d;
     sale_items := sale_items d; stock_moves := stock_moves d |}.

Definition log_sale_item (d : db) (i : sale_item) : db :=
  {| ready := ready d; meds := meds d; sales := sales d;
     sale_items := (sale_items d ++ [i])%list; stock_moves := stock_moves d |}.

Definition log_stock_move (d : db) (v : stock_move) : db :=
  {| ready := ready d; meds := meds d; sales := sales d;
     sale_items := sale_items d; stock_moves := (stock_moves d ++ [v])%list |}.

Definition insert_sale (d : db) (s : sale) : db :=
  {| ready := ready d; meds := meds d; sales := (sales d ++ [s])%list;
     sale_items := sale_items d; stock_moves := stock_moves d |}.

(** [.eq('id', id)]: the test that a row carries the uuid that the text
    [id] denotes; no row does when the text denotes none, and the query
    is then an error. *)
Definition eq_id (id : string) (m : med) : bool :=
  match uuid_in id with
  | Some key => String.eqb (m_id m) key
  | None => false
  end.

(** [.from('meds').select(...).eq('id', id).single()] *)
Definition select_med (d : db) (id : string) : med + db_error :=
  if negb (ready d) then inr UndefinedTable
  else match uuid_in id with
       | None => inr (InvalidUuid id)
       | Some _ =>
           match List.filter (eq_id id) (meds d) with
           | [m] => inl m
           | _ => inr NotSingle
           end
       end.

(** [.from('meds').update(...).eq('id', id)]: [change] on every row whose
    id is [id], followed by the trigger.  [update_error] is the error of
    the query, if it is one; the rows are then left as they are. *)
Definition touch (now : string) (m : med) : med :=
  {| m_id_col := m_id_col m; m_name := m_name m; m_cat := m_cat m;
     m_strength := m_strength m; m_mfg := m_mfg m; m_stock_col := m_stock_col m;
     m_min_stock_col := m_min_stock_col m; m_max_stock_col := m_max_stock_col m;
     m_price := m_price m; m_exp_date := m_exp_date m; m_batch := m_batch m;
     m_location := m_location m; m_active := m_active m;
     m_created := m_created m; m_updated := now |}.

Definition update_meds (now : string) (change : med -> med) (id : string) (d : db) : db :=
  set_meds d
    (List.map (fun m => if eq_id id m then touch now (change m) else m) (meds d)).

Definition update_error (d : db) (id : string) : option db_error :=
  if negb (ready d) then Some UndefinedTable
  else match uuid_in id with
       | None => Some (InvalidUuid id)
       | Some _ => None
       end.

(** [{ stock: q }] on a row.  The column takes [q] when it is an
    integer; an update with another number is an error, and the row stays
    as it is. *)
Definition with_stock (q : Q) (m : med) : med :=
  match as_integer q with
  | Some stock =>
      {| m_id_col := m_id_col m; m_name := m_name m; m_cat := m_cat m;
         m_strength := m_strength m; m_mfg := m_mfg m; m_stock_col := stock;
         m_min_stock_col := m_min_stock_col m; m_max_stock_col := m_max_stock_col m;
         m_price := m_price m; m_exp_date := m_exp_date m; m_batch := m_batch m;
         m_location := m_location m; m_active := m_active m;
         m_created := m_created m; m_updated := m_updated m |}
  | None => m
  end.

Definition with_updated (t : string) (m : med) : med := touch t m.

Definition with_active (b : bool) (m : med) : med :=
  {| m_id_col := m_id_col m; m_name := m_name m; m_cat := m_cat m;
     m_strength := m_strength m; m_mfg := m_mfg m; m_stock_col := m_stock_col m;
     m_min_stock_col := m_min_stock_col m; m_max_stock_col := m_max_stock_col m;
     m_price := m_price m; m_exp_date := m_exp_date m; m_batch := m_batch m;
     m_location := m_location m; m_active := b;
     m_created := m_created m; m_updated := m_updated m |}.

(** *** Responses *)

Record response : Type := {
  status : nat;
  body : value;
}.

(** [c.json(body)] and [c.json(body, status)] *)
Definition json (body : obj) : response := {| status := 200; body := VObj body |}.
Definition json_status (body : obj) (status : nat) : response :=
  {| status := status; body := VObj body |}.

Definition nullable (s : option string) : value :=
  match s with Some x => VStr x | None => VNull end.

(** The "transformed" medicine of the handlers. *)
Definition transformedMedicine (data : med) : obj :=
  list_to_map
    [("id", VStr (m_id data)); ("name", VStr (m_name data));
     ("category", VStr (m_cat data)); ("strength", nullable (m_strength data));
     ("manufacturer", VStr (m_mfg data)); ("current_stock", VNum (m_stock data));
     ("minimum_stock", VNum (m_min_stock data));
     ("maximum_stock", VNum (m_max_stock data)); ("unit_price", VNum (m_price data));
     ("expiry_date", nullable (m_exp_date data));
     ("batch_number", nullable (m_batch data));
     ("storage_location", nullable (m_location data));
     ("is_active", VBool (m_active data)); ("created_at", VStr (m_created data));
     ("updated_at", VStr (m_updated data))].

Definition not_initialized : string := "Database not initialized with simplified schema".

(** *** The course of a handler: it goes on with a value, returns a
    response, or throws into the [catch] of the handler. *)
Inductive step (A : Type) : Type :=
  | Next (a : A)
  | Reply (r : response)
  | Raise.
Arguments Next {A} a.
Arguments Reply {A} r.
Arguments Raise {A}.

#[local] Instance step_bind : MBind step := fun A B f m =>
  match m with
  | Next a => f a
  | Reply r => Reply r
  | Raise => Raise
  end.

(** [if (c) return r] *)
Definition return_if (c : bool) (r : response) : step unit :=
  if c then Reply r else Next tt.

(** [try { body } catch (error) { return failure }] *)
Definition caught (failure : response) (body : step response) : response :=
  match body with
  | Next r | Reply r => r
  | Raise => failure
  end.

(** [v.trim()] and [v?.trim()]: only a string has [trim]. *)
Definition trim_of (v : option value) : step string :=
  match v with
  | Some (VStr s) => Next (trim s)
  | _ => Raise
  end.

Definition trim_opt (v : option value) : step (option value) :=
  match v with
  | None | Some VNull => Next None
  | Some (VStr s) => Next (Some (VStr (trim s)))
  | _ => Raise
  end.

(** [!v || v.trim().length < 2] *)
Definition too_short (v : option value) : step bool :=
  if truthy v
  then s ← trim_of v; Next (String.length s <? 2)%nat
  else Next true.

(** [a || b] on numbers: zero and [NaN] are falsy. *)
Definition or_num (a : option Q) (b : Q) : Q :=
  match a with
  | Some q => if Qeq_bool q 0 then b else q
  | None => b
  end.

(** [a?.trim() || b?.trim() || null]; [b?.trim()] is evaluated only when
    the first operand is falsy. *)
Definition trimmed_or_null (a b : option value) : step (option string) :=
  x ← trim_opt a;
  y ← (if truthy x then Next x else trim_opt b);
  Next (if truthy y then match y with Some (VStr s) => Some s | _ => None end else None).

Section Handlers.

Context {rt : Runtime}.

(** The order of [.order('name')]: the collation of the store. *)
Variable collate : string -> string -> bool.
Variable env : surroundings.

(** [parseInt(v)] and [parseFloat(v)] *)
Definition parseInt (v : option value) : option Q := parseInt_string (ToString v).
Definition parseFloat (v : option value) : option Q := parseFloat_string (ToString v).

(** **** GET /medicines *)

Definition get_medicines (d : db) : db * response :=
  if negb (ready d)
  then (d, json_status
             {[ "medicines" := VArr [];
                "error" := VStr "Database not initialized with simplified schema. Please run the 002_simplified_schema.sql migration.";
                "dbStatus" := VStr "not_initialized" ]} 400)
  else
    let medicines :=
      merge_sort (fun a b => Is_true (collate (m_name a) (m_name b)))
        (List.filter m_active (meds d)) in
    (d, json {[ "medicines" := VArr (VObj ∘ transformedMedicine <$> medicines);
                "dbStatus" := VStr "ready" ]}).

(** **** POST /medicines *)

(** The [medicineData] of the handler; [exp_date] is still the value of
    [medicine.expiryDate || medicine.expiry_date || null]. *)
Record medicineData : Type := {
  d_name : string;
  d_cat : string;
  d_strength : option string;
  d_mfg : string;
  d_stock : Q;
  d_min_stock : Q;
  d_max_stock : Q;
  d_price : Q;
  d_exp_date : option value;
  d_batch : option string;
  d_location : option string;
}.

Definition bad_request (message : string) : response :=
  json_status {[ "error" := VStr message ]} 400.

Definition prepare (medicine : obj) : step medicineData :=
  short ← too_short (medicine !! "name");
  _ ← return_if short (bad_request "Medicine name must be at least 2 characters long");
  short ← too_short (medicine !! "category");
  _ ← return_if short (bad_request "Category must be at least 2 characters long");
  short ← too_short (medicine !! "manufacturer");
  _ ← return_if short (bad_request "Manufacturer must be at least 2 characters long");
  name ← trim_of (medicine !! "name");
  cat ← trim_of (medicine !! "category");
  strength ← trimmed_or_null (medicine !! "strength") None;
  mfg ← trim_of (medicine !! "manufacturer");
  batch ← trimmed_or_null (medicine !! "batchNumber") (medicine !! "batch_number");
  location ← trimmed_or_null (medicine !! "location") (medicine !! "storage_location");
  Next {| d_name := name; d_cat := cat; d_strength := strength; d_mfg := mfg;
          d_stock := or_num (parseInt (medicine !! "stock"))
                       (or_num (parseInt (medicine !! "current_stock")) 0);
          d_min_stock := or_num (parseInt (medicine !! "minStock"))
                           (or_num (parseInt (medicine !! "minimum_stock")) 10);
          d_max_stock := or_num (parseInt (medicine !! "maxStock"))
                           (or_num (parseInt (medicine !! "maximum_stock")) 100);
          d_price := or_num (parseFloat (medicine !! "price"))
                       (or_num (parseFloat (medicine !! "unit_price")) 0);
          d_exp_date := or_else (medicine !! "expiryDate") (medicine !! "expiry_date");
          d_batch := batch; d_location := location |}.

(** [.from('meds').insert([medicineData]).select().single()]: the row
    with its defaults, refused when [exp_date] is neither null nor a
    string, when [stock], [min_stock] or [max_stock] is not an integer,
    or when the key is taken.  The message of the error that refuses an
    [exp_date] repeats the value; the model takes it to hold none of the
    words of [isTableMissingError], so that the answer is then the 500
    of the [catch] block. *)
Definition insert_med (data : medicineData) (d : db) : db * (med + db_error) :=
  if negb (ready d) then (d, inr UndefinedTable)
  else
    let exp_date :=
      if truthy (d_exp_date data)
      then match d_exp_date data with Some (VStr s) => Some (Some s) | _ => None end
      else Some None in
    match exp_date, as_integer (d_stock data), as_integer (d_min_stock data),
          as_integer (d_max_stock data) with
    | Some exp_date, Some stock, Some min_stock, Some max_stock =>
        if existsb (fun m => String.eqb (m_id m) (gen_random_uuid env)) (meds d)
        then (d, inr Refused)
        else
          let row :=
            {| m_id_col := new_uuid env; m_name := d_name data; m_cat := d_cat data;
               m_strength := d_strength data; m_mfg := d_mfg data;
               m_stock_col := stock; m_min_stock_col := min_stock;
               m_max_stock_col := max_stock; m_price := d_price data;
               m_exp_date := exp_date; m_batch := d_batch data;
               m_location := d_location data; m_active := true;
               m_created := NOW env; m_updated := NOW env |} in
          (set_meds d (meds d ++ [row])%list, inl row)
    | _, _, _, _ => (d, inr Refused)
    end.

Definition post_medicines (medicine : obj) (d : db) : db * response :=
  let failure :=
    json_status {[ "error" := VStr not_initialized; "medicines" := VArr [] ]} 500 in
  match prepare medicine with
  | Reply r => (d, r)
  | Raise => (d, failure)
  | Next medicineData =>
      match insert_med medicineData d with
      | (d, inr error) =>
          if isTableMissingError error
          then (d, json_status
                     {[ "error" := VStr not_initialized; "medicines" := VArr [] ]} 400)
          else (d, failure)
      | (d, inl data) =>
          (d, json {[ "medicine" := VObj (transformedMedicine data) ]})
      end
  end.

(** **** DELETE /medicines/:id *)

Definition delete_medicine (id : string) (d : db) : db * response :=
  match update_error d id with
  | Some error =>
      if isTableMissingError error
      then (d, bad_request not_initialized)
      else (d, json_status {[ "error" := VStr not_initialized ]} 500)
  | None =>
      (update_meds (NOW env) (with_active false) id d,
       json {[ "success" := VBool true ]})
  end.

(** **** POST /medicines/:id/stock

    The handler also writes [updated: new Date().toISOString()]; the
    trigger replaces it by [NOW()].  The update is an error, which the
    handler throws, when the new stock is not an integer of the column
    ([if (updateError) throw updateError]). *)

Definition post_stock (id : string) (quantity : Q) (type : string) (d : db)
  : db * response :=
  let failure := json_status {[ "error" := VStr not_initialized ]} 500 in
  if falsy_num quantity || Qleb quantity 0 || negb (Number_isInteger quantity)
  then (d, bad_request "Quantity must be a positive integer")
  else if falsy_str type || negb (existsb (String.eqb type) ["add"; "subtract"])
  then (d, bad_request "Type must be 'add' or 'subtract'")
  else
    match select_med d id with
    | inr fetchError =>
        if isTableMissingError fetchError
        then (d, bad_request not_initialized)
        else (d, json_status {[ "error" := VStr "Medicine not found" ]} 404)
    | inl medicine =>
        let previousStock := m_stock medicine in
        let newStock :=
          if String.eqb type "add"
          then (previousStock + quantity)%Q
          else (previousStock - quantity)%Q in
        if Qltb newStock 0
        then (d, json_status
                   {[ "error" := VStr "Insufficient stock";
                      "details" :=
                        VStr ("Cannot reduce stock by " ++ Number_toString quantity
                              ++ ". Current stock: " ++ Number_toString previousStock) ]}
                   400)
        else if negb (int4 newStock)
        then (d, failure)
        else
          let d := update_meds (NOW env) (with_stock newStock) id d in
          match select_med d id with
          | inr updateError => (d, failure)
          | inl updatedMedicine =>
              let d :=
                log_stock_move d
                  {| v_med_id := id;
                     v_type := if String.eqb type "add" then "in" else "out";
                     v_qty_change := quantity;
                     v_old_stock := previousStock;
                     v_new_stock := newStock;
                     v_reason := if String.eqb type "add"
                                 then "Manual Addition" else "Manual Reduction";
                     v_ref_type := "adj";
                     v_ref_id := None |} in
              (d, json {[ "medicine" := VObj (transformedMedicine updatedMedicine) ]})
          end
    end.

(** The same handler on a body whose [quantity] is [null], which is how
    [JSON.stringify] writes [NaN]: [!quantity] holds. *)
Definition post_stock_null (d : db) : db * response :=
  (d, bad_request "Quantity must be a positive integer").

(** **** POST /sales *)

(** The body of the request as the handler reads it.  The page sends
    its [saleData]; the parameter of [createSale] is typed [any], and a
    body may come without [items] ([None]: a value that cannot be
    iterated), on which the loop of the handler throws. *)
Record sale_body : Type := {
  b_customerName : string;
  b_customerPhone : string;
  b_items : option (list SalesBilling.CartItem);
  b_total : Q;
  b_paymentMethod : string;
}.

Definition posted (sale : SalesBilling.saleData) : sale_body :=
  {| b_customerName := SalesBilling.customerName sale;
     b_customerPhone := SalesBilling.customerPhone sale;
     b_items := Some (SalesBilling.items sale);
     b_total := SalesBilling.total sale;
     b_paymentMethod := SalesBilling.paymentMethod sale |}.

(** One turn of [for (const item of sale.items)]: the sale item, then the
    stock of the medicine when it is found and stays non-negative.  An
    insert that a log table refuses is dropped by the handler; which
    inserts those are is not modelled.  The handler does not read the
    result of the update either: a new stock that is not an integer of
    the column is refused by the update, and by the insert into
    [stock_moves] as well, and the loop goes on. *)
Definition sell_item (saleId : string) (d : db) (item : SalesBilling.CartItem) : db :=
  let d :=
    log_sale_item d
      {| i_sale_id := saleId;
         i_med_id := SalesBilling.medicineId item;
         i_med_name := SalesBilling.name item;
         i_qty := SalesBilling.quantity item;
         i_price := SalesBilling.price item;
         i_total := (SalesBilling.quantity item * SalesBilling.price item)%Q |} in
  match select_med d (SalesBilling.medicineId item) with
  | inr medicineError => d
  | inl medicine =>
      let newStock := (m_stock medicine - SalesBilling.quantity item)%Q in
      if Qgeb newStock 0 && int4 newStock
      then
        let d :=
          update_meds (NOW env) (with_stock newStock) (SalesBilling.medicineId item) d in
        log_stock_move d
          {| v_med_id := SalesBilling.medicineId item;
             v_type := "out";
             v_qty_change := SalesBilling.quantity item;
             v_old_stock := m_stock medicine;
             v_new_stock := newStock;
             v_reason := "Sale " ++ saleNumber env;
             v_ref_type := "sale";
             v_ref_id := Some saleId |}
      else d
  end.

(** The sale is inserted first.  The loop over [sale.items] stands
    outside the [try] blocks of its body, so that a body without [items]
    ends in the [catch] of the handler, after the insert. *)
Definition post_sales (sale : sale_body) (d : db) : db * response :=
  let failure := json_status {[ "error" := VStr not_initialized ]} 500 in
  if negb (ready d) then (d, bad_request not_initialized)
  else if existsb
            (fun s => String.eqb (s_sale_no s) (saleNumber env)
                      || String.eqb (s_id s) (gen_random_uuid env))
            (sales d)
  then (d, failure)
  else
    let saleData :=
      {| s_id := gen_random_uuid env;
         s_sale_no := saleNumber env;
         s_cust_name := b_customerName sale;
         s_cust_phone := b_customerPhone sale;
         s_total := b_total sale;
         s_payment := if falsy_str (b_paymentMethod sale)
                      then "cash" else b_paymentMethod sale;
         s_sale_date := NOW env |} in
    let d := insert_sale d saleData in
    match b_items sale with
    | None => (d, failure)
    | Some items =>
    let d := fold_left (sell_item (s_id saleData)) items d in
    (d, json {[ "sale" :=
                  VObj (list_to_map
                    [("id", VStr (s_id saleData));
                     ("customerName", VStr (s_cust_name saleData));
                     ("customerPhone", VStr (s_cust_phone saleData));
                     ("total", VNum (s_total saleData));
                     ("paymentMethod", VStr (s_payment saleData));
                     ("timestamp", VStr (s_sale_date saleData));
                     ("saleNumber", VStr (s_sale_no saleData))]) ]})
    end.

End Handlers.

End Server.

(** ** The client in front of the server

    A call of a method of [PharmacyAPI] sends its request when the
    network is up; the handler of the route runs on the hosted store and
    its response is what [tryBackend] sees.  When the network is down the
    handler does not run and [fetch] rejects.  An id is a segment of the
    path of its request, and the handler is taken to read it as the
    method was given it: an id that is empty or that holds a character
    with a meaning of its own in a URL is outside the model. *)

Module System.

Import PharmacyAPI.

Record world : Type := {
  remote : Server.db;
  local : store;
}.

Inductive network : Type := Up | Down.

(** The reason phrase of a status code. *)
Definition statusText (status : nat) : string :=
  match status with
  | 200 => "OK"
  | 400 => "Bad Request"
  | 404 => "Not Found"
  | 500 => "Internal Server Error"
  | _ => ""
  end.

(** A route of the server, and a path that no route matches: the
    framework answers it [404 Not Found] in plain text. *)
Definition served (handler : Server.db -> Server.db * Server.response)
  (d : Server.db) : Server.db * fetched :=
  let '(d, r) := handler d in
  (d, Response (Server.status r) (statusText (Server.status r)) (Some (Server.body r))).

Definition no_route (d : Server.db) : Server.db * fetched :=
  (d, Response 404 (statusText 404) None).

Definition call (net : network) (route : Server.db -> Server.db * fetched)
  (method : outcome value -> store -> store * outcome value) (w : world)
  : world * outcome value :=
  let '(d, f) :=
    match net with
    | Up => route (remote w)
    | Down => (remote w, NetworkError "Failed to fetch")
    end in
  let '(l, out) := method (tryBackend f) (local w) in
  ({| remote := d; local := l |}, out).

Section Calls.

Context {rt : Runtime}.
Variable collate : string -> string -> bool.
Variable env : Server.surroundings.
Variable amb : ambient.
Variable net : network.

Definition getMedicines : world -> world * outcome value :=
  call net (served (Server.get_medicines collate)) PharmacyAPI.getMedicines.

Definition addMedicine (medicine : obj) : world -> world * outcome value :=
  call net (served (Server.post_medicines env (newMedicine amb medicine)))
    (fun remote => PharmacyAPI.addMedicine amb remote medicine).

Definition deleteMedicine (id : string) : world -> world * outcome value :=
  call net (served (Server.delete_medicine env id))
    (fun remote => PharmacyAPI.deleteMedicine remote id).

(** [JSON.stringify({ quantity, type })] writes a [NaN] as [null]. *)
Definition updateStock (id : string) (quantity : num) (type : string)
  : world -> world * outcome value :=
  call net
    (served match quantity with
            | Num q => Server.post_stock env id q type
            | NaN => Server.post_stock_null
            end)
    (fun remote => PharmacyAPI.updateStock amb remote id quantity type).

Definition createSale (sale : SalesBilling.saleData) : world -> world * outcome value :=
  call net (served (Server.post_sales env (Server.posted sale)))
    (fun remote => PharmacyAPI.createSale amb remote (SalesBilling.sale_object sale)).

(** [createSale] on a sale that has the properties of a [saleData] but
    [items]. *)
Definition sale_without_items (name phone : string) (total : Q) (method : string)
  : Server.sale_body :=
  {| Server.b_customerName := name; Server.b_customerPhone := phone;
     Server.b_items := None; Server.b_total := total;
     Server.b_paymentMethod := method |}.

Definition createSale_without_items (name phone : string) (total : Q) (method : string)
  : world -> world * outcome value :=
  call net (served (Server.post_sales env (sale_without_items name phone total method)))
    (fun remote =>
       PharmacyAPI.createSale amb remote
         (list_to_map
            [("customerName", VStr name); ("customerPhone", VStr phone);
             ("total", VNum total); ("paymentMethod", VStr method)])).

(** The server has no route for [PUT /prescriptions/:id/status] nor for
    [PUT /tickets/:id/status]. *)
Definition updatePrescriptionStatus (id status : string) : world -> world * outcome value :=
  call net no_route (fun remote => PharmacyAPI.updatePrescriptionStatus amb remote id status).

Definition updateTicketStatus (id status : string) : world -> world * outcome value :=
  call net no_route (fun remote => PharmacyAPI.updateTicketStatus amb remote id status).

End Calls.

End System.

(** ** Vocabulary of the properties *)

Module Terms.

(** No record of the array carries the id. *)
Definition absent (id : string) (arr : list obj) : bool :=
  forallb (fun item => negb (LocalStorageManager.has_id id item)) arr.

(** The record that [find] and [findIndex] reach under the id. *)
Definition entity (data : store) (key id : string) : option obj :=
  List.find (LocalStorageManager.has_id id) (LocalStorageManager.get data key).

(** The stock of a medicine: in the local store, of the record that
    [find] and [findIndex] reach under the id; in the hosted store, of the
    row that [.eq('id', id).single()] selects. *)
Definition local_stock (data : store) (id : string) : option value :=
  match List.find (LocalStorageManager.has_id id)
          (LocalStorageManager.get data "medicines") with
  | Some medicine => medicine !! "stock"
  | None => None
  end.

Definition remote_stock (d : Server.db) (id : string) : option Q :=
  match Server.select_med d id with
  | inl medicine => Some (Server.m_stock medicine)
  | inr _ => None
  end.

(** Two texts denote the same uuid, and the ids of a list denote
    different uuids, those that denote one. *)
Definition same_medicine (id id' : string) : bool :=
  match Server.uuid_in id, Server.uuid_in id' with
  | Some key, Some key' => String.eqb key key'
  | _, _ => false
  end.

Fixpoint different_medicines (ids : list string) : bool :=
  match ids with
  | [] => true
  | id :: rest =>
      forallb (fun id' => negb (same_medicine id id')) rest && different_medicines rest
  end.

(** Two rows of [meds] agree on every column but [active] and
    [updated]. *)
Definition same_but_active_updated (m m' : Server.med) : Prop :=
  Server.m_id m' = Server.m_id m /\ Server.m_name m' = Server.m_name m /\
  Server.m_cat m' = Server.m_cat m /\ Server.m_strength m' = Server.m_strength m /\
  Server.m_mfg m' = Server.m_mfg m /\ Server.m_stock m' = Server.m_stock m /\
  Server.m_min_stock m' = Server.m_min_stock m /\
  Server.m_max_stock m' = Server.m_max_stock m /\
  Server.m_price m' = Server.m_price m /\
  Server.m_exp_date m' = Server.m_exp_date m /\
  Server.m_batch m' = Server.m_batch m /\
  Server.m_location m' = Server.m_location m /\
  Server.m_created m' = Server.m_created m.

(** The medicines that a response of [GET /medicines] lists. *)
Definition listed (r : Server.response) : list value :=
  match PharmacyAPI.prop (Some (Server.body r)) "medicines" with
  | Some (VArr l) => l
  | _ => []
  end.

(** The operations that change a stock: a call of [updateStock] and a
    call of [createSale], each with the state of the network and with what
    the handler and the method read from their surroundings. *)
Inductive mutation : Type :=
  | StockUpdate (net : System.network) (env : Server.surroundings)
      (amb : PharmacyAPI.ambient) (id : string) (quantity : num) (type : string)
  | Sale (net : System.network) (env : Server.surroundings)
      (amb : PharmacyAPI.ambient) (sale : SalesBilling.saleData).

Definition mutate {rt : Runtime} (op : mutation) (w : System.world) : System.world :=
  match op with
  | StockUpdate net env amb id quantity type =>
      fst (System.updateStock env amb net id quantity type w)
  | Sale net env amb sale => fst (System.createSale env amb net sale w)
  end.

(** The quantity of the operation is a number: it is not [NaN]. *)
Definition finite (op : mutation) : bool :=
  match op with
  | StockUpdate _ _ _ _ (Num _) _ => true
  | StockUpdate _ _ _ _ NaN _ => false
  | Sale _ _ _ _ => true
  end.

(** The states after each operation of a sequence. *)
Fixpoint history {rt : Runtime} (ops : list mutation) (w : System.world)
  : list System.world :=
  match ops with
  | [] => []
  | op :: rest => mutate op w :: history rest (mutate op w)
  end.

(** Every medicine has a stock that is a number and is not negative: in
    the hosted store and in the local store. *)
Definition nonneg_record (medicine : obj) : bool :=
  match medicine !! "stock" with
  | Some (VNum s) => Qle_bool 0 s
  | _ => false
  end.

Definition remote_ok (d : Server.db) : bool :=
  forallb (fun m => Qle_bool 0 (Server.m_stock m)) (Server.meds d).

Definition local_ok (data : store) : bool :=
  forallb nonneg_record (LocalStorageManager.get data "medicines").

Definition stock_nonneg (w : System.world) : bool :=
  remote_ok (System.remote w) && local_ok (System.local w).

(** The visible fields of a medicine, and an entry that carries, under
    each of them, what the submitted medicine carries. *)
Definition visible : list string :=
  ["name"; "category"; "strength"; "manufacturer"; "stock"; "minStock";
   "maxStock"; "price"; "expiryDate"; "batchNumber"; "location"].

Definition agrees (submitted entry : obj) : Prop :=
  forall k, In k visible -> entry !! k = submitted !! k.

(** The medicines in the result of [getMedicines]. *)
Definition medicines_of (out : outcome value) : list value :=
  match out with
  | Returned v =>
      match PharmacyAPI.prop (Some v) "medicines" with
      | Some (VArr l) => l
      | _ => []
      end
  | Thrown _ => []
  end.

(** The object that a form submits for a field bag. *)
Definition medicine_object (data : Validator.MedicineData) : obj :=
  PharmacyAPI.with_prop "name" (VStr <$> Validator.md_name data)
    (PharmacyAPI.with_prop "category" (VStr <$> Validator.md_category data)
      (PharmacyAPI.with_prop "strength" (VStr <$> Validator.md_strength data)
        (PharmacyAPI.with_prop "manufacturer" (VStr <$> Validator.md_manufacturer data)
          (PharmacyAPI.with_prop "stock" (VNum <$> Validator.md_stock data)
            (PharmacyAPI.with_prop "minStock" (VNum <$> Validator.md_minStock data)
              (PharmacyAPI.with_prop "maxStock" (VNum <$> Validator.md_maxStock data)
                (PharmacyAPI.with_prop "price" (VNum <$> Validator.md_price data)
                  (PharmacyAPI.with_prop "expiryDate"
                     (VStr <$> Validator.md_expiryDate data)
                    (PharmacyAPI.with_prop "batchNumber"
                       (VStr <$> Validator.md_batchNumber data)
                      (PharmacyAPI.with_prop "location"
                         (VStr <$> Validator.md_location data) ∅)))))))))).

(** The values on which the fallbacks of the dashboard and of the
    reports throw: for [v && v.startsWith(today)] a truthy value that is
    not a string, for [v?.split('T')] a value that is there and is not a
    string, for [v?.toFixed(2)] a value that is there and is not a
    number. *)
Definition truthy_not_string (v : option value) : bool :=
  match v with
  | Some (VStr _) => false
  | _ => truthy v
  end.

Definition string_or_missing (v : option value) : bool :=
  match v with
  | None | Some VNull | Some (VStr _) => true
  | _ => false
  end.

Definition number_or_missing (v : option value) : bool :=
  match v with
  | None | Some VNull | Some (VNum _) | Some VNaN => true
  | _ => false
  end.

(** The call is an [updateStock] on an id that no medicine of the local
    store carries. *)
Definition unknown_medicine (r : PharmacyAPI.request) (data : store) : bool :=
  match r with
  | PharmacyAPI.UpdateStock id _ _ =>
      absent id (LocalStorageManager.get data "medicines")
  | _ => false
  end.

(** The calls whose fallback throws: [updateStock] on an unknown
    medicine, [verifyPrescription] without a verification, and the four
    fallbacks that call a method of a string or of a number on a field of
    a stored record, on a store that holds another value there
    ([getRecentActivity] reads the last five sales only). *)
Definition throws (r : PharmacyAPI.request) (data : store) : bool :=
  match r with
  | PharmacyAPI.UpdateStock _ _ _ => unknown_medicine r data
  | PharmacyAPI.VerifyPrescription _ verification => nullish verification
  | PharmacyAPI.GetDashboardStats =>
      existsb (fun sale => truthy_not_string (sale !! "timestamp"))
        (LocalStorageManager.get data "sales")
  | PharmacyAPI.GetRecentActivity =>
      existsb (fun sale => negb (number_or_missing (sale !! "total")))
        (PharmacyAPI.slice_last 5 (LocalStorageManager.get data "sales"))
  | PharmacyAPI.GetSalesReport _ _ =>
      existsb (fun sale => negb (string_or_missing (sale !! "timestamp")))
        (LocalStorageManager.get data "sales")
  | PharmacyAPI.GetPrescriptionReport _ _ =>
      existsb (fun p => negb (string_or_missing (p !! "createdAt")))
        (LocalStorageManager.get data "prescriptions")
  | _ => false
  end.

(** A positive integer among the numbers, and the test that the handler
    of [POST /medicines/:id/stock] makes of its quantity. *)
Definition positive_integer (q : Q) : Prop :=
  exists n : positive, (q == inject_Z (Zpos n))%Q.

Definition accepted_quantity (quantity : Q) : bool :=
  negb (falsy_num quantity || Qleb quantity 0 || negb (Number_isInteger quantity)).

End Terms.

(** ** Fixtures of the examples *)

Module Fixtures.

(** A runtime that agrees with ECMAScript on the decimal numerals of the
    integers, which is all that the examples read or print, and that
    knows no date. *)
Definition integer_of (q : Q) : string :=
  NilZero.string_of_int (Z.to_int (Qnum q / Zpos (Qden q))).

Definition numeral (s : string) : option Q :=
  match NilZero.int_of_string s with
  | Some i => Some (inject_Z (Z.of_int i))
  | None => None
  end.

Definition integers : Runtime := {|
  Number_toString := integer_of;
  Number_toFixed := fun q digits =>
    match digits with
    | O => integer_of q
    | _ => integer_of q ++ "." ++ String.concat "" (repeat "0" digits)
    end;
  String_toNumber := fun s => match s with EmptyString => Some 0%Q | _ => numeral s end;
  parseInt_string := numeral;
  parseFloat_string := numeral;
  Date_parse := fun _ => None;
|}.

Definition amb1 : PharmacyAPI.ambient :=
  {| PharmacyAPI.generateId := "id_1736330400000_k3x9q2m1z";
     PharmacyAPI.clock := fun _ => "2025-01-08T10:00:00.000Z" |}.

Definition amb2 : PharmacyAPI.ambient :=
  {| PharmacyAPI.generateId := "id_1736330460000_b7w4t8n5c";
     PharmacyAPI.clock := fun _ => "2025-01-08T10:01:00.000Z" |}.

Definition env1 : Server.surroundings :=
  {| Server.new_uuid :=
       {| Server.uuid_text := "5f0c9b1e-7a44-4c0e-9a55-0d2c1e6f3b10";
          Server.uuid_ok := eq_refl |};
     Server.NOW := "2025-01-08T10:00:00+00:00";
     Server.saleNumber := "WF-20250108-0042" |}.

(** The local store of a browser that holds nothing under the storage
    key: the sample data. *)
Definition sample : store :=
  LocalStorageManager.loadFromStorage None "2025-01-08T09:00:00.000Z".

(** An integer of a column. *)
Definition units (q : Q) (H : Server.int4 q = true) : Server.integer :=
  {| Server.int_value := q; Server.int_ok := H |}.

(** A hosted store with the first and the fourth row of the sample data
    of the migration. *)
Definition paracetamol : Server.med :=
  {| Server.m_id_col :=
       {| Server.uuid_text := "0b8f5a52-3d0e-4a63-8a7e-1c2d3e4f5a60";
          Server.uuid_ok := eq_refl |};
     Server.m_name := "Paracetamol"; Server.m_cat := "Pain Relief";
     Server.m_strength := Some "500mg"; Server.m_mfg := "PharmaCorp";
     Server.m_stock_col := units 150 eq_refl;
     Server.m_min_stock_col := units 50 eq_refl;
     Server.m_max_stock_col := units 300 eq_refl;
     Server.m_price := 599 # 100; Server.m_exp_date := Some "2025-12-15";
     Server.m_batch := Some "PC240815"; Server.m_location := Some "A1-S2";
     Server.m_active := true;
     Server.m_created := "2025-01-01T00:00:00+00:00";
     Server.m_updated := "2025-01-01T00:00:00+00:00" |}.

Definition aspirin : Server.med :=
  {| Server.m_id_col :=
       {| Server.uuid_text := "9d2e7c41-6b1f-4f0a-b3c8-7e5a4d3c2b19";
          Server.uuid_ok := eq_refl |};
     Server.m_name := "Aspirin"; Server.m_cat := "Pain Relief";
     Server.m_strength := Some "75mg"; Server.m_mfg := "HealthCare Plus";
     Server.m_stock_col := units 8 eq_refl;
     Server.m_min_stock_col := units 25 eq_refl;
     Server.m_max_stock_col := units 200 eq_refl;
     Server.m_price := 650 # 100; Server.m_exp_date := Some "2025-04-15";
     Server.m_batch := Some "HC240320"; Server.m_location := Some "A1-S3";
     Server.m_active := true;
     Server.m_created := "2025-01-01T00:00:00+00:00";
     Server.m_updated := "2025-01-01T00:00:00+00:00" |}.

Definition hosted : Server.db :=
  {| Server.ready := true; Server.meds := [paracetamol; aspirin];
     Server.sales := []; Server.sale_items := []; Server.stock_moves := [] |}.

Definition world1 : System.world :=
  {| System.remote := hosted; System.local := sample |}.

(** The cart of the scenario: two lines, of quantities 2 and 3 at the
    prices 5.00 and 10.00, on medicines of the local store and on
    medicines of the hosted store. *)
Definition line (id name : string) (price quantity stock : Q) : SalesBilling.CartItem :=
  {| SalesBilling.medicineId := id; SalesBilling.name := name;
     SalesBilling.price := price; SalesBilling.quantity := quantity;
     SalesBilling.stock := stock; SalesBilling.strength := None;
     SalesBilling.manufacturer := None |}.

Definition local_cart : list SalesBilling.CartItem :=
  [ line "med_001" "Paracetamol" 5 2 150; line "med_003" "Ibuprofen" 10 3 200 ].

Definition hosted_cart : list SalesBilling.CartItem :=
  [ line (Server.m_id paracetamol) "Paracetamol" 5 2 150;
    line (Server.m_id aspirin) "Aspirin" 10 3 8 ].

Definition sale_of (cart : list SalesBilling.CartItem) : SalesBilling.saleData :=
  SalesBilling.make_saleData "John Smith" "+1234567890" cart "cash".

(** The medicine of the scenario of the specification, with a price in
    whole units. *)
Definition submitted : Validator.MedicineData :=
  {| Validator.md_name := Some "Test"; Validator.md_category := Some "Pain Relief";
     Validator.md_strength := None; Validator.md_manufacturer := Some "Acme";
     Validator.md_stock := Some 10%Q; Validator.md_minStock := Some 5%Q;
     Validator.md_maxStock := Some 50%Q; Validator.md_price := Some 12%Q;
     Validator.md_expiryDate := None; Validator.md_batchNumber := None;
     Validator.md_location := None |}.

(** The same medicine with a space after its name. *)
Definition padded : Validator.MedicineData :=
  {| Validator.md_name := Some "Test "; Validator.md_category := Some "Pain Relief";
     Validator.md_strength := None; Validator.md_manufacturer := Some "Acme";
     Validator.md_stock := Some 10%Q; Validator.md_minStock := Some 5%Q;
     Validator.md_maxStock := Some 50%Q; Validator.md_price := Some 12%Q;
     Validator.md_expiryDate := None; Validator.md_batchNumber := None;
     Validator.md_location := None |}.

(** A collation: the order of the code units. *)
Definition by_code_units : string -> string -> bool := String.leb.

End Fixtures.

(** ** The language of a regular expression *)

Module Patterns.

(** The strings that a regular expression denotes. *)
Inductive matches : regex -> string -> Prop :=
  | matches_eps : matches Eps ""
  | matches_class p c : p c = true -> matches (Class p) (String c "")
  | matches_seq r1 r2 s1 s2 :
      matches r1 s1 -> matches r2 s2 -> matches (Seq r1 r2) (s1 ++ s2)
  | matches_alt_l r1 r2 s : matches r1 s -> matches (Alt r1 r2) s
  | matches_alt_r r1 r2 s : matches r2 s -> matches (Alt r1 r2) s
  | matches_star_nil r : matches (Star r) ""
  | matches_star_app r s1 s2 :
      matches r s1 -> matches (Star r) s2 -> matches (Star r) (s1 ++ s2).

(** Every code unit of the string is in the class. *)
Fixpoint every (p : ascii -> bool) (s : string) : bool :=
  match s with
  | EmptyString => true
  | String c r => p c && every p r
  end.

(** [[0-9]], [[1-9]] and a string that holds neither white space nor an
    at sign. *)
Definition digit (c : ascii) : bool := in_range "0" "9" c.
Definition leading_digit (c : ascii) : bool := in_range "1" "9" c.
Definition plain (s : string) : bool := every Validator.not_space_at s.

End Patterns.

(** ** utils/validation: the sanitizers of class Validator *)

Module Sanitizer.

(** The double quote. *)
Definition double_quote : ascii := ascii_of_nat 34.

(** The class of the four characters that [sanitizeString] removes:
    the two angle brackets and the two quotes. *)
Definition markup (c : ascii) : bool :=
  is_char "<" c || is_char ">" c || is_char "'" c || is_char double_quote c.

(** [sanitizeString]: the trimmed input without the characters of the
    class. *)
Definition sanitizeString (input : string) : string :=
  remove_class markup (trim input).

(** [s ? this.sanitizeString(s) : s] *)
Definition sanitized (s : option string) : option string :=
  match s with
  | Some t => if falsy_str t then Some t else Some (sanitizeString t)
  | None => None
  end.

Definition sanitizeMedicine (data : Validator.MedicineData) : Validator.MedicineData :=
  {| Validator.md_name := sanitized (Validator.md_name data);
     Validator.md_category := sanitized (Validator.md_category data);
     Validator.md_strength := sanitized (Validator.md_strength data);
     Validator.md_manufacturer := sanitized (Validator.md_manufacturer data);
     Validator.md_stock := Validator.md_stock data;
     Validator.md_minStock := Validator.md_minStock data;
     Validator.md_maxStock := Validator.md_maxStock data;
     Validator.md_price := Validator.md_price data;
     Validator.md_expiryDate := Validator.md_expiryDate data;
     Validator.md_batchNumber := sanitized (Validator.md_batchNumber data);
     Validator.md_location := sanitized (Validator.md_location data) |}.

(** A text without the four characters; a field that holds such a text
    when it holds one. *)
Definition clean (s : string) : bool := Patterns.every (fun c => negb (markup c)) s.

Definition clean_field (s : option string) : Prop :=
  match s with Some t => clean t = true | None => True end.

(** The text fields of a medicine. *)
Definition text_fields : list (Validator.MedicineData -> option string) :=
  [Validator.md_name; Validator.md_category; Validator.md_strength;
   Validator.md_manufacturer; Validator.md_batchNumber; Validator.md_location].

End Sanitizer.

(** ** What the validators ask of a field *)

Module Accepted.

(** A text that must be there with [n] characters between its white
    space, a text that may be missing or empty but not shorter, a count
    (an integer that is not negative) and an amount (a number that is not
    negative), each of the two when it is there. *)
Definition required_text (n : nat) (s : option string) : Prop :=
  exists t, s = Some t /\ (n <= String.length (trim t))%nat.

Definition optional_text (n : nat) (s : option string) : Prop :=
  forall t, s = Some t -> t = "" \/ (n <= String.length (trim t))%nat.

Definition count (x : option Q) : Prop :=
  forall q, x = Some q -> (0 <= q)%Q /\ exists z : Z, (q == inject_Z z)%Q.

Definition amount (x : option Q) : Prop :=
  forall q, x = Some q -> (0 <= q)%Q.

(** An optional phone number that [validatePhone] accepts. *)
Definition phone (s : option string) : Prop :=
  forall t, s = Some t -> t = "" \/ Validator.validatePhone t = true.

(** A line of a sale. *)
Definition line (item : Validator.SaleItem) : Prop :=
  Validator.si_medicineId item <> "" /\
  (2 <= String.length (trim (Validator.si_name item)))%nat /\
  Terms.positive_integer (Validator.si_quantity item) /\
  (0 < Validator.si_price item)%Q.

(** A date that may be missing or empty, but is otherwise one that
    [Date.parse] reads, and one after [now]. *)
Definition dated {rt : Runtime} (s : option string) : Prop :=
  forall d, s = Some d -> d = "" \/ exists t, Date_parse d = Some t.

Definition in_future {rt : Runtime} (now : Z) (s : option string) : Prop :=
  forall d, s = Some d -> d = "" \/ exists t, Date_parse d = Some t /\ (now < t)%Z.

(** An age: an integer from 0 to 150, when it is there. *)
Definition age (x : option Q) : Prop :=
  forall q, x = Some q ->
    (0 <= q)%Q /\ (q <= 150)%Q /\ exists z : Z, (q == inject_Z z)%Q.

(** One of the four ways to pay, when one is named. *)
Definition payment (s : option string) : Prop :=
  forall m, s = Some m -> m = "" \/ In m Validator.paymentMethods.

End Accepted.

(** ** The list of the local store that a call may write *)

Module Footprint.

Import PharmacyAPI.

Definition collection (r : request) : option string :=
  match r with
  | AddMedicine _ | UpdateMedicine _ _ | DeleteMedicine _ | UpdateStock _ _ _ =>
      Some "medicines"
  | CreateSale _ => Some "sales"
  | AddPrescription _ | UpdatePrescriptionStatus _ _ | VerifyPrescription _ _ =>
      Some "prescriptions"
  | AddEmployee _ => Some "employees"
  | CreateTicket _ | UpdateTicketStatus _ _ => Some "tickets"
  | _ => None
  end.

(** The calls that add a record, and the one that removes records. *)
Definition adds (r : request) : bool :=
  match r with
  | AddMedicine _ | CreateSale _ | AddPrescription _ | AddEmployee _
  | CreateTicket _ => true
  | _ => false
  end.

Definition removes (r : request) : bool :=
  match r with DeleteMedicine _ => true | _ => false end.

End Footprint.

(** ** The routes of the server *)

Module Routes.

Import Server.

(** **** GET /dashboard/alerts

    The handler reads only [data] of the query: when the tables are
    missing the query answers with its error and no data, nothing is
    thrown, and [medicines?.filter(...)?.map(...) || []] is the empty
    array. *)
Definition alert (med : med) : obj :=
  list_to_map
    [("id", VStr (m_id med)); ("name", VStr (m_name med));
     ("currentStock", VNum (m_stock med)); ("minStock", VNum (m_min_stock med));
     ("severity",
        VStr (if Qeqb (m_stock med) 0 then "critical"
              else if Qltb (m_stock med) 5 then "high" else "medium"))].

Definition low (med : med) : bool := Qleb (m_stock med) (m_min_stock med).

Definition get_alerts (d : db) : db * response :=
  let alerts :=
    if negb (ready d) then []
    else alert <$> List.filter low (List.filter m_active (meds d)) in
  (d, json {[ "alerts" := VArr (VObj <$> alerts) ]}).

(** The modelled routes, each with what the handler reads of the
    request. *)
Inductive route : Type :=
  | GET_medicines
  | POST_medicines (medicine : obj)
  | DELETE_medicine (id : string)
  | POST_stock (id : string) (quantity : Q) (type : string)
  | POST_sales (sale : sale_body)
  | GET_alerts.

Section Dispatch.

Context {rt : Runtime}.
Variable collate : string -> string -> bool.
Variable env : surroundings.

Definition handle (r : route) : db -> db * response :=
  match r with
  | GET_medicines => get_medicines collate
  | POST_medicines medicine => post_medicines env medicine
  | DELETE_medicine id => delete_medicine env id
  | POST_stock id quantity type => post_stock env id quantity type
  | POST_sales sale => post_sales env sale
  | GET_alerts => get_alerts
  end.

End Dispatch.

(** A request for [POST /sales] whose body has no [items]. *)
Definition without_items (r : route) : bool :=
  match r with
  | POST_sales sale =>
      match b_items sale with None => true | Some _ => false end
  | _ => false
  end.

(** The row that [POST /sales] inserts into [sales]. *)
Definition sale_row (env : surroundings) (sale : sale_body) : Server.sale :=
  {| s_id := gen_random_uuid env;
     s_sale_no := saleNumber env;
     s_cust_name := b_customerName sale;
     s_cust_phone := b_customerPhone sale;
     s_total := b_total sale;
     s_payment := if falsy_str (b_paymentMethod sale)
                  then "cash" else b_paymentMethod sale;
     s_sale_date := NOW env |}.

(** The sale number or the id of the new sale is taken. *)
Definition taken (env : surroundings) (d : db) : bool :=
  existsb (fun s => String.eqb (s_sale_no s) (saleNumber env)
                    || String.eqb (s_id s) (gen_random_uuid env))
    (sales d).

(** What [tryBackend] makes of a response of a handler. *)
Definition delivered (r : response) : outcome value :=
  PharmacyAPI.tryBackend
    (PharmacyAPI.Response (status r) (System.statusText (status r)) (Some (body r))).

(** The alerts that a response of [GET /dashboard/alerts] lists. *)
Definition alerts_of (r : response) : list value :=
  match PharmacyAPI.prop (Some (body r)) "alerts" with
  | Some (VArr l) => l
  | _ => []
  end.

(** The calls of the client that are modelled with their route: the
    method of [PharmacyAPI] that is called, the handler that answers the
    request, if the server has a route for it, and the call as a
    whole. *)
Inductive operation : Type :=
  | GetMedicines
  | AddMedicine (medicine : obj)
  | DeleteMedicine (id : string)
  | UpdateStock (id : string) (quantity : num) (type : string)
  | CreateSale (sale : SalesBilling.saleData)
  | CreateSaleWithoutItems (name phone : string) (total : Q) (method : string)
  | UpdatePrescriptionStatus (id status : string)
  | UpdateTicketStatus (id status : string).

Definition request_of (op : operation) : PharmacyAPI.request :=
  match op with
  | GetMedicines => PharmacyAPI.GetMedicines
  | AddMedicine medicine => PharmacyAPI.AddMedicine medicine
  | DeleteMedicine id => PharmacyAPI.DeleteMedicine id
  | UpdateStock id quantity type => PharmacyAPI.UpdateStock id quantity type
  | CreateSale sale => PharmacyAPI.CreateSale (SalesBilling.sale_object sale)
  | CreateSaleWithoutItems name phone total method =>
      PharmacyAPI.CreateSale
        (list_to_map
           [("customerName", VStr name); ("customerPhone", VStr phone);
            ("total", VNum total); ("paymentMethod", VStr method)])
  | UpdatePrescriptionStatus id status => PharmacyAPI.UpdatePrescriptionStatus id status
  | UpdateTicketStatus id status => PharmacyAPI.UpdateTicketStatus id status
  end.

Section Operations.

Context {rt : Runtime}.
Variable collate : string -> string -> bool.
Variable env : surroundings.
Variable amb : PharmacyAPI.ambient.

Definition answer (op : operation) (d : db) : option (db * response) :=
  match op with
  | GetMedicines => Some (handle collate env GET_medicines d)
  | AddMedicine medicine =>
      Some (handle collate env (POST_medicines (PharmacyAPI.newMedicine amb medicine)) d)
  | DeleteMedicine id => Some (handle collate env (DELETE_medicine id) d)
  | UpdateStock id (Num q) type => Some (handle collate env (POST_stock id q type) d)
  | UpdateStock id NaN type => Some (post_stock_null d)
  | CreateSale sale => Some (handle collate env (POST_sales (posted sale)) d)
  | CreateSaleWithoutItems name phone total method =>
      Some (handle collate env
              (POST_sales (System.sale_without_items name phone total method)) d)
  | UpdatePrescriptionStatus _ _ | UpdateTicketStatus _ _ => None
  end.

Definition run (net : System.network) (op : operation)
  : System.world -> System.world * outcome value :=
  match op with
  | GetMedicines => System.getMedicines collate net
  | AddMedicine medicine => System.addMedicine env amb net medicine
  | DeleteMedicine id => System.deleteMedicine env net id
  | UpdateStock id quantity type => System.updateStock env amb net id quantity type
  | CreateSale sale => System.createSale env amb net sale
  | CreateSaleWithoutItems name phone total method =>
      System.createSale_without_items env amb net name phone total method
  | UpdatePrescriptionStatus id status =>
      System.updatePrescriptionStatus amb net id status
  | UpdateTicketStatus id status => System.updateTicketStatus amb net id status
  end.

(** The fallback of the method of the call, after the exception with the
    message [msg]. *)
Definition fallen (op : operation) (msg : string) (w : System.world)
  : System.world * outcome value :=
  let '(l, out) := PharmacyAPI.perform amb (Thrown msg) (request_of op) (System.local w) in
  ({| System.remote := System.remote w; System.local := l |}, out).

End Operations.

End Routes.

(** ** The entries of the stock ledger *)

Module Ledger.

Import Server.

(** An entry of [stock_moves] whose new stock is not negative and is the
    old stock plus the change when its type is [in], minus the change
    when its type is [out]. *)
Definition consistent (v : stock_move) : bool :=
  Qleb 0 (v_new_stock v) &&
  (if String.eqb (v_type v) "in"
   then Qeqb (v_new_stock v) (v_old_stock v + v_qty_change v)
   else String.eqb (v_type v) "out"
        && Qeqb (v_new_stock v) (v_old_stock v - v_qty_change v)).

End Ledger.

(** ** components/SalesBilling: the cart *)

(** The medicines that the page lists, as the interface [Medicine]
    declares them. *)
Module Medicine.

Record Medicine : Type := {
  id : string;
  name : string;
  price : Q;
  stock : Q;
  strength : option string;
  manufacturer : option string;
  category : option string;
}.

End Medicine.

Module Cart.

Import SalesBilling.

(** [toast.error(msg)] and [toast.success(msg)] *)
Inductive toast : Type :=
  | toast_error (msg : string)
  | toast_success (msg : string).

(** [item.medicineId === id] *)
Definition is_line (id : string) (item : CartItem) : bool :=
  String.eqb (medicineId item) id.

(** [{ ...item, quantity: q }] *)
Definition with_quantity (q : Q) (item : CartItem) : CartItem :=
  {| medicineId := medicineId item; name := name item; price := price item;
     quantity := q; stock := stock item; strength := strength item;
     manufacturer := manufacturer item |}.

(** The handlers below are given the cart of the render in which they
    were made and answer with the cart that [setCart] is given (the same
    cart when they return before) and with the toast they show. *)
Definition addToCart (medicine : Medicine.Medicine) (cart : list CartItem)
  : list CartItem * toast :=
  if Qleb (Medicine.stock medicine) 0
  then (cart, toast_error "This medicine is out of stock")
  else
    match List.find (is_line (Medicine.id medicine)) cart with
    | Some existingItem =>
        if Qgeb (quantity existingItem) (Medicine.stock medicine)
        then (cart, toast_error "Cannot add more than available stock")
        else (List.map
                (fun item =>
                   if is_line (Medicine.id medicine) item
                   then with_quantity (quantity item + 1) item
                   else item)
                cart,
              toast_success (Medicine.name medicine ++ " added to cart"))
    | None =>
        ((cart ++ [ {| medicineId := Medicine.id medicine;
                       name := Medicine.name medicine;
                       price := Medicine.price medicine;
                       quantity := 1;
                       stock := Medicine.stock medicine;
                       strength := Medicine.strength medicine;
                       manufacturer := Medicine.manufacturer medicine |} ])%list,
         toast_success (Medicine.name medicine ++ " added to cart"))
    end.

Definition removeFromCart (medicineId : string) (cart : list CartItem) : list CartItem :=
  List.filter (fun item => negb (is_line medicineId item)) cart.

Definition updateQuantity (medicineId : string) (newQuantity : Q) (cart : list CartItem)
  : list CartItem * option toast :=
  if Qleb newQuantity 0 then (removeFromCart medicineId cart, None)
  else
    let item := List.find (is_line medicineId) cart in
    if match item with
       | Some item => Qltb (stock item) newQuantity
       | None => false
       end
    then (cart, Some (toast_error "Cannot exceed available stock"))
    else (List.map
            (fun item =>
               if is_line medicineId item then with_quantity newQuantity item else item)
            cart,
          None).

(** A cart with one line for a medicine at most and with quantities
    above zero; a cart whose quantities are whole and within the stock
    that each line remembers. *)
Definition tidy (cart : list CartItem) : Prop :=
  NoDup (medicineId <$> cart) /\ Forall (fun item => (0 < quantity item)%Q) cart.

Definition whole (q : Q) : Prop := exists z : Z, (q == inject_Z z)%Q.

Definition within_stock (cart : list CartItem) : Prop :=
  Forall (fun item => whole (quantity item) /\ (quantity item <= stock item)%Q) cart.

(** The amount of the lines on a medicine. *)
Definition amount_of (id : string) (cart : list CartItem) : Q :=
  calculateTotal (List.filter (is_line id) cart).

(** The numbers of the source are doubles, and [calculateTotal] rounds
    each product and each sum to a double.  On a cart whose prices and
    quantities are whole numbers that are not negative and whose total is
    [2^53] at most, every product and every partial sum is a whole number
    up to [2^53], which a double holds: the rational total of the model
    is then the total that the source computes.  On other carts it need
    not be ([0.1 + 0.2] is not the double [0.3]). *)
Definition exact (cart : list CartItem) : Prop :=
  Forall (fun item => whole (price item) /\ (0 <= price item)%Q /\
                      whole (quantity item) /\ (0 <= quantity item)%Q) cart /\
  (calculateTotal cart <= 9007199254740992)%Q.

End Cart.

(** ** components/SalesBilling: [processSale] *)

Module Checkout.

(** The state of the page as far as [processSale] reads and writes it.
    The flags [loading] and [processingPayment] end as they started and
    the list [medicines] is only displayed; they are left out. *)
Record page : Type := {
  cart : list SalesBilling.CartItem;
  customerInfo_name : string;
  customerInfo_phone : string;
  paymentMethod : string;
  currentReceipt : option obj;
  showReceipt : bool;
}.

(** The [saleData] of the page as [validateSale] reads it. *)
Definition sale_item (item : SalesBilling.CartItem) : Validator.SaleItem :=
  {| Validator.si_medicineId := SalesBilling.medicineId item;
     Validator.si_name := SalesBilling.name item;
     Validator.si_quantity := SalesBilling.quantity item;
     Validator.si_price := SalesBilling.price item |}.

Definition as_SaleData (sale : SalesBilling.saleData) : Validator.SaleData :=
  {| Validator.sd_customerName := Some (SalesBilling.customerName sale);
     Validator.sd_customerPhone := Some (SalesBilling.customerPhone sale);
     Validator.sd_items := Some (sale_item <$> SalesBilling.items sale);
     Validator.sd_total := Some (SalesBilling.total sale);
     Validator.sd_paymentMethod := Some (SalesBilling.paymentMethod sale) |}.

Definition saleData (p : page) : SalesBilling.saleData :=
  SalesBilling.make_saleData (customerInfo_name p) (customerInfo_phone p) (cart p)
    (paymentMethod p).

(** [s.slice(-8)] *)
Definition slice_8 (s : string) : string :=
  String.substring (String.length s - 8) 8 s.

Definition failed : Cart.toast :=
  Cart.toast_error "Failed to process sale. Please try again.".

Section ProcessSale.

(** [String.prototype.toUpperCase], and the texts of
    [new Date().toLocaleDateString()] and [new Date().toLocaleTimeString()]
    when the receipt is made. *)
Variable toUpperCase : string -> string.
Variables date time : string.

Variable collate : string -> string -> bool.
Variable env : Server.surroundings.
Variable amb : PharmacyAPI.ambient.
Variable net : System.network.

(** The receipt of [response.sale]; only a string has the [slice] and
    the [toUpperCase] that the receipt number asks of [response.sale.id]. *)
Definition receipt (sale : option value) : outcome obj :=
  match sale with
  | Some (VObj sale) =>
      match sale !! "id" with
      | Some (VStr id) =>
          Returned (spread sale
                      {[ "receiptNumber" := VStr (toUpperCase (slice_8 id));
                         "date" := VStr date; "time" := VStr time ]})
      | _ => Thrown "response.sale.id.slice(...).toUpperCase is not a function"
      end
  | _ => Thrown "Cannot read properties of undefined (reading 'slice')"
  end.

(** [processSale]: the page and the two stores after it, and the toast
    it shows.  [loadMedicines], which it starts after a sale, calls
    [getMedicines]. *)
Definition processSale (p : page) (w : System.world)
  : page * System.world * option Cart.toast :=
  if (List.length (cart p) =? 0)%nat
  then (p, w, Some (Cart.toast_error "Cart is empty"))
  else
    let validation := Validator.validateSale (as_SaleData (saleData p)) in
    if negb (Validator.isValid validation)
    then (p, w, Some (Cart.toast_error (default "" (head (Validator.errors validation)))))
    else
      let '(w, out) := System.createSale env amb net (saleData p) w in
      match out with
      | Thrown _ => (p, w, Some failed)
      | Returned response =>
          let sale := PharmacyAPI.prop (Some response) "sale" in
          if truthy sale
          then match receipt sale with
               | Thrown _ => (p, w, Some failed)
               | Returned r =>
                   ({| cart := []; customerInfo_name := ""; customerInfo_phone := "";
                       paymentMethod := "cash"; currentReceipt := Some r;
                       showReceipt := true |},
                    fst (System.getMedicines collate net w),
                    Some (Cart.toast_success "Sale completed successfully!"))
               end
          else (p, w, None)
      end.

End ProcessSale.

End Checkout.

(** * Properties *)

(** ** The embedding on the sample data *)

Section Samples.

Import Validator LocalStorageManager PharmacyAPI Terms.

Example trim_strips_both_ends : trim "  Amoxicillin 250mg " = "Amoxicillin 250mg".
Proof. reflexivity. Qed.

Example emails :
  List.map validateEmail
    ["joel.guedes@wellnessforever.com"; "a@b.c"; "a@b"; "a b@c.d"; "a@b@c.d"; "@b.c";
     "a@.c"; "a@b."; ""]
  = [true; true; false; false; false; false; false; false; false].
Proof. reflexivity. Qed.

Example phones :
  List.map validatePhone
    ["+91-9876543210"; "+1 (234) 567-890"; "0123456"; "12345678901234567"; "+"; "12a"]
  = [true; true; false; false; false; false].
Proof. reflexivity. Qed.

Example sample_medicine_is_valid :
  validateMedicine (rt := Fixtures.integers) 1736330400000 Fixtures.submitted
  = {| isValid := true; errors := [] |}.
Proof. reflexivity. Qed.

Example first_error_of_an_empty_prescription :
  errors (validatePrescription
            {| pd_patientName := Some "Jane Doe"; pd_patientAge := Some 35%Q;
               pd_doctorName := Some "Dr. Smith"; pd_medicines := Some [""] |})
  = ["Medicine 1 must be at least 2 characters long"].
Proof. reflexivity. Qed.

Example sample_stocks :
  List.map (local_stock Fixtures.sample) ["med_001"; "med_002"; "med_003"; "med_004"; "med_005"]
  = [Some (VNum 150); Some (VNum 25); Some (VNum 200); Some (VNum 8); Some (VNum 5)].
Proof. reflexivity. Qed.

(** A refused subtraction on a medicine of the hosted store reaches the
    fallback, which does not know the id. *)
Example refused_then_unknown :
  System.updateStock (rt := Fixtures.integers) Fixtures.env1 Fixtures.amb1 System.Up
    (Server.m_id Fixtures.aspirin) 10 "subtract" Fixtures.world1
  = (Fixtures.world1, Thrown "Medicine not found").
Proof. reflexivity. Qed.

Example dashboard_of_the_sample :
  (let out :=
     snd (getDashboardStats (rt := Fixtures.integers)
            {| generateId := "id_0"; clock := fun _ => "2025-01-08T12:00:00.000Z" |}
            (Thrown "Failed to fetch") Fixtures.sample) in
   match out with
   | Returned v =>
       List.map (prop (prop (Some v) "stats"))
         ["totalMedicines"; "todaySales"; "todayRevenue"; "lowStockAlerts";
          "pendingPrescriptions"]
   | Thrown _ => []
   end)
  = [Some (VNum 5); Some (VNum 1); Some (VNum (1198 # 100)); Some (VNum 3); Some (VNum 1)].
Proof. vm_compute. reflexivity. Qed.

End Samples.

(** ** The local store *)

Section LocalStore.

Import LocalStorageManager.

Lemma findIndex_None (p : obj -> bool) (l : list obj) :
  findIndex p l = None <-> forallb (fun item => negb (p item)) l = true.
Proof.
  induction l as [|x l IH]; simpl; [tauto|].
  destruct (p x); simpl; [split; discriminate|].
  rewrite <- IH. destruct (findIndex p l); simpl; split; congruence.
Qed.

Lemma findIndex_Some (p : obj -> bool) (l : list obj) (i : nat) :
  findIndex p l = Some i ->
  exists x, l !! i = Some x /\ p x = true /\ List.find p l = Some x
            /\ forallb (fun item => negb (p item)) (take i l) = true.
Proof.
  revert i. induction l as [|x l IH]; simpl; intros i H; [discriminate|].
  destruct (p x) eqn:Hp.
  - injection H as <-. exists x. simpl. auto.
  - destruct (findIndex p l) as [j|]; [|discriminate].
    injection H as <-. destruct (IH j eq_refl) as (y & Hy & Hpy & Hf & Ht).
    exists y. simpl. rewrite Hp. auto.
Qed.

Lemma find_findIndex (p : obj -> bool) (l : list obj) (x : obj) :
  List.find p l = Some x -> exists i, findIndex p l = Some i /\ l !! i = Some x.
Proof.
  induction l as [|y l IH]; simpl; [discriminate|].
  destruct (p y).
  - intros [= <-]. exists O. auto.
  - intros H. destruct (IH H) as (i & -> & Hi). exists (S i). auto.
Qed.

Lemma find_None_findIndex (p : obj -> bool) (l : list obj) :
  List.find p l = None -> findIndex p l = None.
Proof.
  induction l as [|y l IH]; simpl; [reflexivity|].
  destruct (p y); [discriminate|]. intros H. now rewrite (IH H).
Qed.

Lemma find_insert (p : obj -> bool) (l : list obj) (i : nat) (x' : obj) :
  findIndex p l = Some i -> p x' = true -> List.find p (<[i := x']> l) = Some x'.
Proof.
  revert i. induction l as [|y l IH]; simpl; intros i H Hp; [discriminate|].
  destruct (p y) eqn:Hy.
  - injection H as <-. simpl. now rewrite Hp.
  - destruct (findIndex p l) as [j|]; [|discriminate].
    injection H as <-. simpl. rewrite Hy. now apply IH.
Qed.

Lemma has_id_spread (id : string) (old updates : obj) :
  updates !! "id" = None -> has_id id (spread old updates) = has_id id old.
Proof.
  intros H. unfold has_id, spread. now rewrite lookup_union_r.
Qed.

Lemma get_lookup (data : store) (key : string) (arr : list obj) :
  data !! key = Some arr -> get data key = arr.
Proof. unfold get. now intros ->. Qed.

Lemma get_insert_eq (data : store) (key : string) (arr : list obj) :
  get (<[key := arr]> data) key = arr.
Proof. unfold get. now rewrite lookup_insert_eq. Qed.

Lemma get_insert_ne (data : store) (key key' : string) (arr : list obj) :
  key <> key' -> get (<[key := arr]> data) key' = get data key'.
Proof. intros H. unfold get. now rewrite lookup_insert_ne. Qed.

(** [update] on an id that no record of the array carries. *)
Lemma update_absent (data : store) (key id : string) (updates : obj) :
  forallb (fun item => negb (has_id id item)) (get data key) = true ->
  update data key id updates = (data, None).
Proof.
  unfold update, get. destruct (data !! key) as [arr|]; simpl; [|reflexivity].
  intros H. apply findIndex_None in H. now rewrite H.
Qed.

(** [update] on the id of a record: the first record that carries it is
    replaced by its spread with the updates. *)
Lemma update_present (data : store) (key id : string) (updates old : obj) :
  List.find (has_id id) (get data key) = Some old ->
  exists arr i,
    data !! key = Some arr /\ findIndex (has_id id) arr = Some i /\
    arr !! i = Some old /\
    update data key id updates
    = (<[key := <[i := spread old updates]> arr]> data, Some (spread old updates)).
Proof.
  unfold update, get. destruct (data !! key) as [arr|]; simpl; [|discriminate].
  intros H. destruct (find_findIndex _ _ _ H) as (i & Hi & Hx).
  exists arr, i. rewrite Hi, Hx. auto.
Qed.

Lemma update_find (data data' : store) (key id : string) (updates old : obj)
  (r : option obj) :
  List.find (has_id id) (get data key) = Some old ->
  updates !! "id" = None ->
  update data key id updates = (data', r) ->
  r = Some (spread old updates) /\
  List.find (has_id id) (get data' key) = Some (spread old updates).
Proof.
  intros Hf Hu Hup.
  destruct (update_present data key id updates old Hf) as (arr & i & Hk & Hi & Hx & E).
  rewrite E in Hup. injection Hup as <- <-. split; [reflexivity|].
  rewrite get_insert_eq. apply find_insert; [assumption|].
  rewrite has_id_spread by assumption.
  destruct (findIndex_Some _ _ _ Hi) as (y & Hy & Hp & _). congruence.
Qed.

End LocalStore.

(** ** Updates of an id that the local store does not hold *)

Section UnknownId.

Import LocalStorageManager PharmacyAPI Terms.
Context {rt : Runtime}.

(** C9. For every entity key and every id that no record under the key
    carries, [LocalStorageManager.update] returns [null] and leaves the
    store as it is; on the fallback path [updateMedicine],
    [updatePrescriptionStatus] and [updateTicketStatus] then return
    [{ entity: null }] and throw nothing, whatever their other
    arguments.  [verifyPrescription] does so when its [verification] is
    neither [null] nor [undefined]; when it is, the method throws the
    [TypeError] of [verification.approved] out of its [catch] block,
    and the store stays as it is. *)
Theorem update_of_unknown_id_is_null (amb : ambient) (data : store) (id e : string) :
  (forall key updates,
     absent id (get data key) = true ->
     update data key id updates = (data, None)) /\
  (absent id (get data "medicines") = true ->
   forall updates,
     updateMedicine amb (Thrown e) id updates data
     = (data, Returned (result "medicine" VNull))) /\
  (absent id (get data "prescriptions") = true ->
   forall status verification,
     updatePrescriptionStatus amb (Thrown e) id status data
     = (data, Returned (result "prescription" VNull)) /\
     (nullish verification = false ->
      verifyPrescription amb (Thrown e) id verification data
      = (data, Returned (result "prescription" VNull))) /\
     (nullish verification = true ->
      exists message,
        verifyPrescription amb (Thrown e) id verification data
        = (data, Thrown message))) /\
  (absent id (get data "tickets") = true ->
   forall status,
     updateTicketStatus amb (Thrown e) id status data
     = (data, Returned (result "ticket" VNull))).
Proof.
  assert (U : forall key updates,
             absent id (get data key) = true ->
             update data key id updates = (data, None)).
  { intros key updates H. now apply update_absent. }
  split; [exact U|].
  unfold updateMedicine, updatePrescriptionStatus, verifyPrescription,
    updateTicketStatus, try_catch.
  split; [intros; rewrite U by assumption; reflexivity|].
  split; [|intros; rewrite U by assumption; reflexivity].
  intros H status verification.
  split; [rewrite U by assumption; reflexivity|].
  split; intros Hn.
  - destruct verification as [[]|]; try discriminate Hn;
      rewrite U by assumption; reflexivity.
  - destruct verification as [[]|]; try discriminate Hn; eauto.
Qed.

End UnknownId.

Section UnknownIdExample.

Import LocalStorageManager PharmacyAPI Terms.

(** C9, as the specification has it, fails: on the fallback path
    [verifyPrescription] with an id that the store does not hold and with
    [null] for its verification throws to its caller. *)
Lemma verify_counterexample :
  absent "presc_404" (get Fixtures.sample "prescriptions") = true /\
  verifyPrescription Fixtures.amb1 (Thrown "Failed to fetch") "presc_404" (Some VNull)
    Fixtures.sample
  = (Fixtures.sample, Thrown "Cannot read properties of null (reading 'approved')").
Proof. split; reflexivity. Qed.

Lemma update_of_unknown_id_is_null_witness :
  absent "presc_404" (get Fixtures.sample "prescriptions") = true /\
  update Fixtures.sample "prescriptions" "presc_404" {[ "status" := VStr "verified" ]}
  = (Fixtures.sample, None) /\
  updatePrescriptionStatus Fixtures.amb1 (Thrown "HTTP 404: Not Found")
    "presc_404" "verified" Fixtures.sample
  = (Fixtures.sample, Returned (result "prescription" VNull)) /\
  verifyPrescription Fixtures.amb1 (Thrown "HTTP 404: Not Found") "presc_404"
    (Some (VObj {[ "approved" := VBool true ]})) Fixtures.sample
  = (Fixtures.sample, Returned (result "prescription" VNull)).
Proof.
  assert (H : absent "presc_404" (get Fixtures.sample "prescriptions") = true)
    by reflexivity.
  destruct (update_of_unknown_id_is_null Fixtures.amb1
              Fixtures.sample "presc_404" "HTTP 404: Not Found") as (U & _ & P & _).
  split; [exact H|]. split; [exact (U _ _ H)|].
  destruct (P H "verified" (Some (VObj {[ "approved" := VBool true ]})))
    as (S & V & _).
  split; [exact S|]. exact (V eq_refl).
Defined.

End UnknownIdExample.

(** ** The stock update: the fallback of the client *)

Section StockFallback.

Import LocalStorageManager PharmacyAPI Terms.
Context {rt : Runtime}.

Lemma local_stock_find (data : store) (id : string) (v : value) :
  local_stock data id = Some v ->
  exists medicine,
    List.find (has_id id) (get data "medicines") = Some medicine /\
    medicine !! "stock" = Some v.
Proof.
  unfold local_stock.
  destruct (List.find (has_id id) (get data "medicines")) as [m|]; [|discriminate].
  intros H. now exists m.
Qed.

(** The fallback of [updateStock] on a medicine whose stock is the number
    [s]: whatever the quantity and the type, the stock becomes
    [Math.max(0, s + quantity)] for the type ['add'] and
    [Math.max(0, s - quantity)] for any other type. *)
Lemma updateStock_fallback (amb : ambient) (e id type : string) (quantity s : Q)
  (data : store) :
  local_stock data id = Some (VNum s) ->
  let newStock := if String.eqb type "add" then (s + quantity)%Q else (s - quantity)%Q in
  exists data' medicine',
    updateStock amb (Thrown e) id quantity type data
    = (data', Returned (result "medicine" (VObj medicine'))) /\
    local_stock data' id = Some (VNum (Qmax 0 newStock)).
Proof.
  intros Hs newStock.
  destruct (local_stock_find _ _ _ Hs) as (m & Hf & Hm).
  unfold updateStock, try_catch. rewrite Hf, Hm.
  set (updates := {[ "stock" := _; "updatedAt" := _ ]} : obj).
  destruct (update data "medicines" id updates) as [data' r] eqn:E.
  assert (Hid : updates !! "id" = None) by (subst updates; reflexivity).
  destruct (update_find _ _ _ _ _ _ _ Hf Hid E) as [-> Hf'].
  exists data', (spread m updates). split; [reflexivity|].
  unfold local_stock. rewrite Hf'. unfold spread.
  erewrite lookup_union_Some_l; [reflexivity|].
  subst updates newStock. rewrite lookup_insert_eq.
  destruct (String.eqb type "add"); reflexivity.
Qed.

End StockFallback.

(** ** The stock update: the handler of the server *)

Section StockHandler.

Import Server Terms.
Context {rt : Runtime}.
Variable env : surroundings.

Lemma Qltb_true (x y : Q) : Qltb x y = true <-> (x < y)%Q.
Proof.
  unfold Qltb. rewrite negb_true_iff, <- not_true_iff_false, Qle_bool_iff.
  split; [apply Qnot_le_lt | apply Qlt_not_le].
Qed.

Lemma Qltb_false (x y : Q) : Qltb x y = false <-> (y <= x)%Q.
Proof. unfold Qltb. now rewrite negb_false_iff, Qle_bool_iff. Qed.

Lemma eq_id_change (g : med -> med) (id : string) (x : med) :
  m_id (g x) = m_id x -> eq_id id (g x) = eq_id id x.
Proof. unfold eq_id. now intros ->. Qed.

Lemma filter_map_id (g : med -> med) (id : string) (l : list med) :
  (forall x, m_id (g x) = m_id x) ->
  List.filter (eq_id id) (List.map g l) = List.map g (List.filter (eq_id id) l).
Proof.
  intros Hg. induction l as [|x l IH]; simpl; [reflexivity|].
  rewrite (eq_id_change g id x (Hg x)). destruct (eq_id id x); simpl; now rewrite IH.
Qed.

(** A text compares equal to the id of a row when it denotes the uuid of
    the row. *)
Lemma eq_id_true (id : string) (m : med) :
  eq_id id m = true <-> uuid_in id = Some (m_id m).
Proof.
  unfold eq_id. destruct (uuid_in id) as [key|]; [|split; discriminate].
  rewrite String.eqb_eq. split; [now intros -> | now intros [= ->]].
Qed.

Lemma select_med_filter (d : db) (id : string) (m : med) :
  select_med d id = inl m <->
  ready d = true /\ List.filter (eq_id id) (meds d) = [m].
Proof.
  unfold select_med. destruct (ready d); simpl; [|split; [discriminate | now intros []]].
  destruct (uuid_in id) as [key|] eqn:Hu.
  - destruct (List.filter _ (meds d)) as [|x [|y l]];
      split; try discriminate; try (now intros [_ [=]]).
    + now intros [= ->].
    + now intros [_ [= ->]].
  - split; [discriminate|]. intros [_ H].
    assert (Hin : In m (List.filter (eq_id id) (meds d))) by (rewrite H; now left).
    apply filter_In in Hin as [_ Hin]. apply eq_id_true in Hin. congruence.
Qed.

Lemma select_med_id (d : db) (id : string) (m : med) :
  select_med d id = inl m ->
  uuid_in id = Some (m_id m) /\ ready d = true /\ In m (meds d).
Proof.
  intros H. apply select_med_filter in H as [Hr H].
  assert (Hin : In m (List.filter (eq_id id) (meds d))) by (rewrite H; now left).
  apply filter_In in Hin as [Hin Hid]. apply eq_id_true in Hid. auto.
Qed.

(** The row that [.eq('id', id).single()] selects after an update under
    the same id: the changed row, with the timestamp of the trigger. *)
Lemma select_med_update (now id : string) (change : med -> med) (d : db) (m : med) :
  (forall x, m_id (change x) = m_id x) ->
  select_med d id = inl m ->
  select_med (update_meds now change id d) id = inl (touch now (change m)).
Proof.
  intros Hc Hs. destruct (select_med_id _ _ _ Hs) as (Hid & _ & _).
  apply select_med_filter in Hs as [Hr Hs]. apply select_med_filter.
  split; [exact Hr|]. unfold update_meds. simpl.
  rewrite filter_map_id.
  - rewrite Hs. simpl. apply eq_id_true in Hid. now rewrite Hid.
  - intros x. destruct (eq_id id x); [|reflexivity]. exact (Hc x).
Qed.

(** An update under an id that denotes another uuid leaves the selected
    row alone. *)
Lemma select_med_update_ne (now id id' : string) (change : med -> med) (d : db) :
  (forall x, m_id (change x) = m_id x) ->
  uuid_in id <> uuid_in id' ->
  select_med (update_meds now change id d) id' = select_med d id'.
Proof.
  intros Hc Hne. unfold select_med, update_meds. simpl.
  replace (List.filter (eq_id id')
             (List.map (fun m => if eq_id id m then touch now (change m) else m) (meds d)))
    with (List.filter (eq_id id') (meds d)); [reflexivity|].
  induction (meds d) as [|x l IH]; simpl; [reflexivity|].
  destruct (eq_id id x) eqn:E; simpl.
  - rewrite (eq_id_change (fun m => touch now (change m)) id' x (Hc x)).
    replace (eq_id id' x) with false; [exact IH|].
    symmetry. apply not_true_iff_false. intros E'.
    apply eq_id_true in E, E'. congruence.
  - destruct (eq_id id' x); now rewrite IH.
Qed.

Lemma as_integer_value (q : Q) (i : integer) : as_integer q = Some i -> int_value i = q.
Proof.
  unfold as_integer. destruct (bool_dec (int4 q) true); [|discriminate].
  now intros [= <-].
Qed.

(** The columns of a row after [{ stock: q }]. *)
Lemma with_stock_id (q : Q) (m : med) : m_id (with_stock q m) = m_id m.
Proof. unfold with_stock. now destruct (as_integer q). Qed.

Lemma with_stock_stock (q : Q) (m : med) :
  int4 q = true -> m_stock (with_stock q m) = q.
Proof.
  intros H. unfold with_stock, as_integer.
  destruct (bool_dec (int4 q) true) as [H'|H']; [reflexivity | contradiction].
Qed.

Lemma with_stock_refused (q : Q) (m : med) : int4 q = false -> with_stock q m = m.
Proof.
  intros H. unfold with_stock, as_integer.
  destruct (bool_dec (int4 q) true) as [H'|H']; [congruence | reflexivity].
Qed.

Lemma accepted_quantity_true (q : Q) :
  accepted_quantity q = true ->
  (falsy_num q || Qleb q 0 || negb (Number_isInteger q)) = false /\ (0 < q)%Q.
Proof.
  unfold accepted_quantity. rewrite negb_true_iff. intros H. split; [exact H|].
  apply orb_false_iff in H as [H _]. apply orb_false_iff in H as [_ H].
  unfold Qleb in H. apply Qnot_le_lt. intros C.
  apply Qle_bool_iff in C. congruence.
Qed.

Lemma Number_isInteger_spec (q : Q) :
  Number_isInteger q = true <-> exists z : Z, (q == inject_Z z)%Q.
Proof.
  unfold Number_isInteger. rewrite Pos.eqb_eq. split.
  - intros H. exists (Qnum (Qred q)). rewrite <- (Qred_correct q) at 1.
    destruct (Qred q) as [n d]. simpl in *. subst d. reflexivity.
  - intros [z Hz]. apply Qred_complete in Hz. rewrite Hz.
    rewrite Qcanon.Qred_identity; [reflexivity|]. simpl. apply Z.gcd_1_r.
Qed.

(** The test of the handler accepts the positive integers and nothing
    else. *)
Lemma accepted_quantity_spec (q : Q) :
  accepted_quantity q = true <-> positive_integer q.
Proof.
  unfold accepted_quantity, positive_integer, falsy_num, Qleb.
  rewrite negb_true_iff, !orb_false_iff, negb_false_iff, Number_isInteger_spec.
  rewrite <- !not_true_iff_false, Qeq_bool_iff, Qle_bool_iff.
  split.
  - intros [[Hne Hle] [z Hz]].
    assert (Hpos : (0 < z)%Z).
    { apply Qnot_le_lt in Hle. rewrite Hz in Hle.
      unfold Qlt, inject_Z in Hle. simpl in Hle. lia. }
    destruct z as [|n|n]; try lia. now exists n.
  - intros [n Hn]. split; [split|].
    + rewrite Hn. intros H. unfold Qeq, inject_Z in H. simpl in H. lia.
    + rewrite Hn. intros H. unfold Qle, inject_Z in H. simpl in H. lia.
    + now exists (Zpos n).
Qed.

Lemma rejected_quantity_spec (q : Q) :
  accepted_quantity q = false <-> ~ positive_integer q.
Proof.
  rewrite <- accepted_quantity_spec. symmetry. apply not_true_iff_false.
Qed.

(** The integers of the column. *)
Lemma int4_spec (q : Q) :
  int4 q = true <->
  (exists z : Z, (q == inject_Z z)%Q) /\ (-2147483648 <= q)%Q /\ (q <= 2147483647)%Q.
Proof.
  unfold int4. rewrite !andb_true_iff, Number_isInteger_spec, !Qle_bool_iff. tauto.
Qed.

Lemma stock_int4 (m : med) : int4 (m_stock m) = true.
Proof. exact (int_ok (m_stock_col m)). Qed.

(** What is left of a stock after a positive integer that it holds is
    again an integer of the column. *)
Lemma int4_difference (s q : Q) :
  int4 s = true -> accepted_quantity q = true -> (q <= s)%Q -> int4 (s - q) = true.
Proof.
  intros Hs Hq Hle. apply int4_spec in Hs as ([a Ha] & Hlo & Hhi).
  pose proof (accepted_quantity_true q Hq) as [_ Hpos].
  apply accepted_quantity_spec in Hq as [n Hn].
  apply int4_spec. split; [|split; lra].
  exists (a - Zpos n)%Z. rewrite Ha, Hn. unfold Zminus.
  rewrite inject_Z_plus, inject_Z_opp. reflexivity.
Qed.

(** A quantity that is not a positive integer is refused before the
    store is read. *)
Lemma post_stock_validates (id type : string) (quantity : Q) (d : db) :
  accepted_quantity quantity = false ->
  post_stock env id quantity type d
  = (d, bad_request "Quantity must be a positive integer").
Proof.
  unfold accepted_quantity, post_stock. rewrite negb_false_iff. now intros ->.
Qed.

Lemma post_stock_validates_type (id type : string) (quantity : Q) (d : db) :
  accepted_quantity quantity = true ->
  type <> "add" -> type <> "subtract" ->
  post_stock env id quantity type d
  = (d, bad_request "Type must be 'add' or 'subtract'").
Proof.
  intros Hq Ha Hs. apply accepted_quantity_true in Hq as [Hq _].
  unfold post_stock. rewrite Hq. simpl.
  apply String.eqb_neq in Ha, Hs. rewrite Ha, Hs. simpl.
  now rewrite orb_true_r.
Qed.

(** [POST /medicines/:id/stock] with the type ['subtract'] on a row that
    holds less than the quantity. *)
Lemma post_stock_insufficient (id : string) (quantity s : Q) (d : db) :
  accepted_quantity quantity = true ->
  remote_stock d id = Some s ->
  (s < quantity)%Q ->
  post_stock env id quantity "subtract" d
  = (d, json_status
          {[ "error" := VStr "Insufficient stock";
             "details" :=
               VStr ("Cannot reduce stock by " ++ Number_toString quantity
                     ++ ". Current stock: " ++ Number_toString s) ]} 400).
Proof.
  intros Hq Hs Hlt. apply accepted_quantity_true in Hq as [Hq _].
  unfold remote_stock in Hs. unfold post_stock. rewrite Hq. simpl.
  destruct (select_med d id) as [m|]; [|discriminate]. injection Hs as <-.
  replace (Qltb (m_stock m - quantity) 0) with true; [reflexivity|].
  symmetry. apply Qltb_true. lra.
Qed.

(** ... and on a row that holds at least the quantity. *)
Lemma post_stock_reduces (id : string) (quantity s : Q) (d : db) :
  accepted_quantity quantity = true ->
  remote_stock d id = Some s ->
  (quantity <= s)%Q ->
  exists d' r,
    post_stock env id quantity "subtract" d = (d', r) /\
    status r = 200%nat /\
    remote_stock d' id = Some (s - quantity)%Q.
Proof.
  intros Hq Hs Hle. apply accepted_quantity_true in Hq as [Hq _].
  unfold remote_stock in Hs. unfold post_stock. rewrite Hq. simpl.
  destruct (select_med d id) as [m|] eqn:Hsel; [|discriminate]. injection Hs as <-.
  replace (Qltb (m_stock m - quantity) 0) with false
    by (symmetry; apply Qltb_false; lra).
  assert (Hint : int4 (m_stock m - quantity) = true).
  { apply int4_difference; [apply stock_int4 | | exact Hle].
    unfold accepted_quantity. now rewrite Hq. }
  rewrite Hint. cbn [negb].
  rewrite (select_med_update _ _ _ _ m) by (apply with_stock_id || exact Hsel).
  eexists _, _. split; [reflexivity|]. split; [reflexivity|].
  unfold remote_stock.
  change (select_med (log_stock_move ?x ?v) id) with (select_med x id).
  rewrite (select_med_update _ _ _ _ m) by (apply with_stock_id || exact Hsel).
  f_equal. exact (with_stock_stock _ m Hint).
Qed.

End StockHandler.

(** ** The stock after [updateStock(id, q, 'subtract')] *)

Section Subtract.

Import Server LocalStorageManager PharmacyAPI Terms.
Context {rt : Runtime}.

(** C1. For a positive integer [q], the handler of
    [POST /medicines/:id/stock] answers ['subtract'] on a medicine of
    stock [s] with the status 400 and the error "Insufficient stock",
    leaving the store as it is, when [q > s], and otherwise sets the
    stock to [s - q], which is [max(0, s - q)]; the fallback of the
    client sets the stock to [max(0, s - q)] in either case and reports
    no error. *)
Theorem stock_after_subtract (env : surroundings) (amb : ambient) (id : string)
  (q : Q) :
  positive_integer q ->
  (forall d s,
     remote_stock d id = Some s ->
     ((s < q)%Q ->
      exists r,
        post_stock env id q "subtract" d = (d, r) /\
        status r = 400%nat /\
        prop (Some (body r)) "error" = Some (VStr "Insufficient stock")) /\
     ((q <= s)%Q ->
      exists d' r,
        post_stock env id q "subtract" d = (d', r) /\
        status r = 200%nat /\
        remote_stock d' id = Some (s - q)%Q /\
        (s - q == Qmax 0 (s - q))%Q)) /\
  (forall data s e,
     local_stock data id = Some (VNum s) ->
     exists data' medicine',
       updateStock amb (Thrown e) id q "subtract" data
       = (data', Returned (result "medicine" (VObj medicine'))) /\
       local_stock data' id = Some (VNum (Qmax 0 (s - q)))).
Proof.
  intros Hq. apply accepted_quantity_spec in Hq. split.
  - intros d s Hs. split; intros Hc.
    + rewrite (post_stock_insufficient env id q s d Hq Hs Hc).
      eexists. split; [reflexivity|]. split; reflexivity.
    + destruct (post_stock_reduces env id q s d Hq Hs Hc) as (d' & r & E & Hst & Hs').
      exists d', r. repeat split; try assumption.
      symmetry. apply Q.max_r. lra.
  - intros data s e Hs.
    exact (updateStock_fallback amb e id "subtract" q s data Hs).
Qed.

End Subtract.

Section SubtractExample.

Import Server LocalStorageManager PharmacyAPI Terms.

Lemma stock_after_subtract_witness :
  positive_integer 10 /\
  remote_stock Fixtures.hosted (m_id Fixtures.aspirin) = Some 8%Q /\
  local_stock Fixtures.sample "med_004" = Some (VNum 8) /\
  (exists r,
     post_stock (rt := Fixtures.integers) Fixtures.env1
       (m_id Fixtures.aspirin) 10 "subtract" Fixtures.hosted
     = (Fixtures.hosted, r) /\ status r = 400%nat) /\
  (exists data' medicine',
     updateStock (rt := Fixtures.integers) Fixtures.amb1 (Thrown "Failed to fetch")
       "med_004" 10 "subtract" Fixtures.sample
     = (data', Returned (result "medicine" (VObj medicine'))) /\
     local_stock data' "med_004" = Some (VNum (Qmax 0 (8 - 10)))).
Proof.
  assert (Hq : positive_integer 10) by (now exists 10%positive).
  assert (Hr : remote_stock Fixtures.hosted (m_id Fixtures.aspirin) = Some 8%Q)
    by reflexivity.
  assert (Hl : local_stock Fixtures.sample "med_004" = Some (VNum 8)) by reflexivity.
  repeat split; try assumption.
  - destruct (stock_after_subtract (rt := Fixtures.integers) Fixtures.env1 Fixtures.amb1
                (m_id Fixtures.aspirin) 10 Hq) as [R _].
    destruct (R Fixtures.hosted 8%Q Hr) as [R1 _].
    destruct R1 as (r & E & Hst & _); [reflexivity|].
    exists r. split; assumption.
  - destruct (stock_after_subtract (rt := Fixtures.integers) Fixtures.env1 Fixtures.amb1
                "med_004" 10 Hq) as [_ L].
    exact (L Fixtures.sample 8%Q "Failed to fetch" Hl).
Defined.

End SubtractExample.

(** ** The validation of the stock update lives in the handler only *)

Section Unvalidated.

Import Server LocalStorageManager PharmacyAPI Terms.
Context {rt : Runtime}.

Lemma tryBackend_bad_request (message : string) :
  message <> "" ->
  tryBackend (Response 400 (System.statusText 400) (Some (body (bad_request message))))
  = Thrown message.
Proof.
  intros H. unfold tryBackend, bad_request, json_status, prop, or_else. simpl.
  rewrite lookup_singleton_eq. simpl.
  destruct message; [congruence | reflexivity].
Qed.

(** C10. A quantity that is not a positive integer, and a type that is
    neither ['add'] nor ['subtract'], are refused by the handler of
    [POST /medicines/:id/stock] with the status 400.  The fallback of
    [updateStock] checks neither: for every quantity [q] it sets the
    stock [s] of the medicine to [max(0, s + q)] for ['add'] and to
    [max(0, s - q)] for ['subtract'], so that a negative [q] passed with
    ['subtract'] increases the stock; a quantity that the handler refused
    is applied in this way by the very call that was refused. *)
Theorem fallback_applies_any_quantity (env : surroundings) (amb : ambient)
  (id : string) (q : Q) :
  (forall d type,
     ~ positive_integer q ->
     post_stock env id q type d
     = (d, bad_request "Quantity must be a positive integer")) /\
  (forall d type,
     positive_integer q -> type <> "add" -> type <> "subtract" ->
     post_stock env id q type d
     = (d, bad_request "Type must be 'add' or 'subtract'")) /\
  (forall data s e,
     local_stock data id = Some (VNum s) ->
     (exists data' medicine',
        updateStock amb (Thrown e) id q "add" data
        = (data', Returned (result "medicine" (VObj medicine'))) /\
        local_stock data' id = Some (VNum (Qmax 0 (s + q)))) /\
     (exists data' medicine',
        updateStock amb (Thrown e) id q "subtract" data
        = (data', Returned (result "medicine" (VObj medicine'))) /\
        local_stock data' id = Some (VNum (Qmax 0 (s - q)))) /\
     ((q < 0)%Q -> (s < Qmax 0 (s - q))%Q)) /\
  (forall w s type,
     ~ positive_integer q ->
     local_stock (System.local w) id = Some (VNum s) ->
     exists w' medicine',
       System.updateStock env amb System.Up id q type w
       = (w', Returned (result "medicine" (VObj medicine'))) /\
       System.remote w' = System.remote w /\
       local_stock (System.local w') id
       = Some (VNum (Qmax 0 (if String.eqb type "add" then s + q else s - q)))).
Proof.
  split; [intros d type H; apply post_stock_validates;
          now apply rejected_quantity_spec|].
  split; [intros d type H; apply post_stock_validates_type;
          now apply accepted_quantity_spec|].
  split.
  - intros data s e Hs. split; [|split].
    + exact (updateStock_fallback amb e id "add" q s data Hs).
    + exact (updateStock_fallback amb e id "subtract" q s data Hs).
    + intros Hq. pose proof (Q.le_max_r 0 (s - q)). lra.
  - intros w s type Hq Hs. apply rejected_quantity_spec in Hq.
    unfold System.updateStock, System.call, System.served.
    rewrite (post_stock_validates env id type q (System.remote w) Hq).
    cbv beta iota zeta.
    change (status (bad_request ?m)) with 400%nat.
    rewrite tryBackend_bad_request by discriminate.
    destruct (updateStock_fallback amb "Quantity must be a positive integer"
                id type q s (System.local w) Hs) as (data' & m' & E & Hl).
    rewrite E. exists {| System.remote := System.remote w; System.local := data' |}, m'.
    repeat split. exact Hl.
Qed.

End Unvalidated.

Section UnvalidatedExample.

Import Server LocalStorageManager PharmacyAPI Terms.

Lemma fallback_applies_any_quantity_witness :
  ~ positive_integer (-5) /\
  local_stock Fixtures.sample "med_004" = Some (VNum 8) /\
  exists w' medicine',
    System.updateStock (rt := Fixtures.integers) Fixtures.env1 Fixtures.amb1
      System.Up "med_004" (-5) "subtract" Fixtures.world1
    = (w', Returned (result "medicine" (VObj medicine'))) /\
    System.remote w' = Fixtures.hosted /\
    local_stock (System.local w') "med_004" = Some (VNum (Qmax 0 (8 - -5))).
Proof.
  assert (Hq : ~ positive_integer (-5)) by (now apply rejected_quantity_spec).
  assert (Hl : local_stock Fixtures.sample "med_004" = Some (VNum 8)) by reflexivity.
  split; [exact Hq|]. split; [exact Hl|].
  destruct (fallback_applies_any_quantity (rt := Fixtures.integers)
              Fixtures.env1 Fixtures.amb1 "med_004" (-5)) as (_ & _ & _ & S).
  exact (S Fixtures.world1 8%Q "subtract" Hq Hl).
Defined.

End UnvalidatedExample.

(** ** The validators *)

Section Validators.

Import Validator.

Lemma push_if_keeps (c : bool) (msg : string) (errors : list string) :
  errors <> [] -> push_if c msg errors <> [].
Proof.
  unfold push_if. destruct c; [|auto]. intros _ H.
  apply app_eq_nil in H as [_ H]. discriminate.
Qed.

Lemma push_if_true (msg : string) (errors : list string) :
  push_if true msg errors <> [].
Proof.
  unfold push_if. intros H. apply app_eq_nil in H as [_ H]. discriminate.
Qed.

Lemma each_medicine_keeps (l : list string) (index : nat) (errors : list string) :
  errors <> [] -> each_medicine index l errors <> [].
Proof.
  revert index errors. induction l as [|m l IH]; simpl; intros index errors H; [exact H|].
  apply IH. now apply push_if_keeps.
Qed.

Lemma invalid_of_errors (errors : list string) :
  errors <> [] -> (List.length errors =? 0)%nat = false.
Proof. destruct errors; [congruence | reflexivity]. Qed.

Ltac keep_errors :=
  repeat first
    [ solve [apply push_if_true] | apply push_if_keeps | apply each_medicine_keeps ].

(** C6. [validateMedicine] rejects every field bag whose [minStock] is at
    least its [maxStock]; [validatePrescription] rejects every field bag
    whose list of medicines is empty (or missing); [validateEmployee]
    rejects every field bag whose email does not match the email pattern
    (or is missing). *)
Theorem validators_reject :
  (forall (rt : Runtime) (now : Z) (data : MedicineData) (lo hi : Q),
     md_minStock data = Some lo -> md_maxStock data = Some hi -> (lo >= hi)%Q ->
     isValid (validateMedicine now data) = false) /\
  (forall (data : PrescriptionData),
     pd_medicines data = Some [] \/ pd_medicines data = None ->
     isValid (validatePrescription data) = false) /\
  (forall (rt : Runtime) (data : EmployeeData),
     (forall email, ed_email data = Some email -> validateEmail email = false) ->
     isValid (validateEmployee data) = false).
Proof.
  split; [|split].
  - intros rt now data lo hi Hlo Hhi Hge.
    cbv [validateMedicine isValid]. apply invalid_of_errors.
    rewrite Hlo, Hhi.
    replace (Qgeb lo hi) with true
      by (symmetry; unfold Qgeb; now apply Qle_bool_iff).
    keep_errors.
  - intros data H.
    cbv [validatePrescription isValid]. apply invalid_of_errors.
    destruct H as [-> | ->]; simpl List.length; simpl Nat.eqb; keep_errors.
  - intros rt data H.
    cbv [validateEmployee isValid]. apply invalid_of_errors.
    destruct (ed_email data) as [email|]; [|keep_errors].
    rewrite (H email eq_refl), orb_true_r. keep_errors.
Qed.

End Validators.

Section ValidatorsExample.

Import Validator.

Lemma validators_reject_witness :
  isValid (validateMedicine (rt := Fixtures.integers) 1736330400000
             {| md_name := Some "Test"; md_category := Some "Pain Relief";
                md_strength := None; md_manufacturer := Some "Acme";
                md_stock := Some 10%Q; md_minStock := Some 50%Q;
                md_maxStock := Some 50%Q; md_price := Some (999 # 100);
                md_expiryDate := None; md_batchNumber := None;
                md_location := None |}) = false /\
  isValid (validatePrescription
             {| pd_patientName := Some "Jane Doe"; pd_patientAge := Some 35%Q;
                pd_doctorName := Some "Dr. Smith"; pd_medicines := Some [] |}) = false /\
  isValid (validateEmployee (rt := Fixtures.integers)
             {| ed_name := Some "Sneha Joshi";
                ed_email := Some "sneha.joshi@wellnessforever";
                ed_phone := None; ed_role := Some "Cashier";
                ed_department := Some "Pharmacy"; ed_salary := None;
                ed_hireDate := None |}) = false.
Proof.
  destruct validators_reject as (M & P & E).
  split; [|split].
  - apply (M Fixtures.integers _ _ 50%Q 50%Q); [reflexivity | reflexivity |].
    apply Qle_refl.
  - apply P. left. reflexivity.
  - apply E. intros email [= <-]. reflexivity.
Defined.

End ValidatorsExample.

(** ** Updating a status twice *)

Section StatusTwice.

Import LocalStorageManager PharmacyAPI Terms.

Lemma findIndex_insert (p : obj -> bool) (l : list obj) (i : nat) (x' : obj) :
  findIndex p l = Some i -> p x' = true -> findIndex p (<[i := x']> l) = Some i.
Proof.
  revert i. induction l as [|y l IH]; simpl; intros i H Hp; [discriminate|].
  destruct (p y) eqn:Hy.
  - injection H as <-. simpl. now rewrite Hp.
  - destruct (findIndex p l) as [j|] eqn:Hj; [|discriminate].
    injection H as <-. simpl. rewrite Hy. now rewrite (IH j eq_refl Hp).
Qed.

(** Two updates of the same record are one update by the spread of the
    two sets of updates. *)
Lemma update_update (data : store) (key id : string) (u1 u2 : obj) :
  u1 !! "id" = None ->
  update (fst (update data key id u1)) key id u2
  = update data key id (spread u1 u2).
Proof.
  intros Hid.
  destruct (List.find (has_id id) (get data key)) as [old|] eqn:Hf.
  - destruct (update_present data key id u1 old Hf) as (arr & i & Hk & Hi & Hx & E).
    rewrite E. simpl.
    unfold update at 1. rewrite lookup_insert_eq.
    assert (Hp : has_id id (spread old u1) = true).
    { rewrite has_id_spread by assumption.
      destruct (findIndex_Some _ _ _ Hi) as (y & Hy & Hp & _). congruence. }
    rewrite (findIndex_insert _ _ _ _ Hi Hp).
    rewrite list_lookup_insert_eq by (now apply lookup_lt_Some in Hx).
    simpl. rewrite insert_insert_eq, list_insert_insert_eq.
    unfold update. rewrite Hk, Hi, Hx. simpl.
    unfold spread. now rewrite (assoc_L (∪)).
  - assert (Ha : forallb (fun item => negb (has_id id item)) (get data key) = true).
    { apply findIndex_None. now apply find_None_findIndex. }
    rewrite (update_absent data key id u1 Ha). simpl.
    now rewrite !(update_absent data key id) by assumption.
Qed.

Lemma update_length (data : store) (key id key' : string) (u : obj) :
  List.length (get (fst (update data key id u)) key') = List.length (get data key').
Proof.
  unfold update. destruct (data !! key) as [arr|] eqn:Hk; [|reflexivity].
  destruct (findIndex (has_id id) arr) as [i|]; [|reflexivity]. simpl.
  destruct (decide (key = key')) as [<-|Hne].
  - rewrite get_insert_eq, (get_lookup _ _ _ Hk). apply length_insert.
  - now rewrite get_insert_ne.
Qed.

Lemma status_then_timestamp (s t1 t2 : string) :
  spread ({[ "status" := VStr s; "updatedAt" := VStr t1 ]} : obj)
    {[ "updatedAt" := VStr t2 ]}
  = ({[ "status" := VStr s; "updatedAt" := VStr t2 ]} : obj).
Proof.
  unfold spread. apply map_eq. intros k.
  rewrite lookup_union.
  destruct (decide (k = "status")) as [->|H1]; [reflexivity|].
  destruct (decide (k = "updatedAt")) as [->|H2]; [reflexivity|].
  rewrite !lookup_insert_ne, !lookup_singleton_ne by congruence. reflexivity.
Qed.

Lemma status_twice (s t1 t2 : string) :
  spread ({[ "status" := VStr s; "updatedAt" := VStr t1 ]} : obj)
    {[ "status" := VStr s; "updatedAt" := VStr t2 ]}
  = ({[ "status" := VStr s; "updatedAt" := VStr t2 ]} : obj).
Proof.
  unfold spread. apply map_eq. intros k.
  rewrite lookup_union.
  destruct (decide (k = "status")) as [->|H1]; [reflexivity|].
  destruct (decide (k = "updatedAt")) as [->|H2]; [reflexivity|].
  rewrite !lookup_insert_ne, !lookup_singleton_ne by congruence. reflexivity.
Qed.

(** What two status updates in a row leave in the array [key]: the same
    as the first of them followed by a write of [updatedAt] alone; the
    entity, when there is one, carries the status. *)
Lemma status_update_twice (data : store) (key id s t1 t2 : string) :
  let u1 : obj := {[ "status" := VStr s; "updatedAt" := VStr t1 ]} in
  let u2 : obj := {[ "status" := VStr s; "updatedAt" := VStr t2 ]} in
  let d1 := fst (update data key id u1) in
  update d1 key id u2 = update d1 key id {[ "updatedAt" := VStr t2 ]} /\
  (t2 = t1 -> fst (update d1 key id u2) = d1) /\
  (forall key', List.length (get (fst (update d1 key id u2)) key')
                = List.length (get d1 key')) /\
  (forall entity,
     List.find (has_id id) (get data key) = Some entity ->
     exists entity',
       snd (update d1 key id u2) = Some entity' /\
       List.find (has_id id) (get (fst (update d1 key id u2)) key) = Some entity' /\
       entity' !! "status" = Some (VStr s) /\
       entity' !! "updatedAt" = Some (VStr t2)).
Proof.
  intros u1 u2 d1. subst d1.
  assert (Hid1 : u1 !! "id" = None) by reflexivity.
  assert (E2 : update (fst (update data key id u1)) key id u2 = update data key id u2).
  { rewrite update_update by assumption. subst u1 u2. now rewrite status_twice. }
  split; [|split; [|split]].
  - rewrite E2, update_update by assumption.
    subst u1 u2. now rewrite status_then_timestamp.
  - intros ->. now rewrite E2.
  - intros key'. apply update_length.
  - intros entity Hf. rewrite E2.
    destruct (update data key id u2) as [d2 r2] eqn:E.
    assert (Hid2 : u2 !! "id" = None) by reflexivity.
    destruct (update_find _ _ _ _ _ _ _ Hf Hid2 E) as [-> Hf2].
    exists (spread entity u2). simpl.
    split; [reflexivity|]. split; [assumption|].
    split; unfold spread; apply lookup_union_Some_l; reflexivity.
Qed.

End StatusTwice.

Section StatusTwiceSystem.

Import LocalStorageManager PharmacyAPI Terms.

(** A call on a path that the server does not route reaches the
    fallback, whatever the network does. *)
Lemma call_no_route (net : System.network)
  (method : outcome value -> store -> store * outcome value) (w : System.world) :
  exists e,
    System.call net System.no_route method w
    = ({| System.remote := System.remote w;
          System.local := fst (method (Thrown e) (System.local w)) |},
       snd (method (Thrown e) (System.local w))).
Proof.
  destruct net; unfold System.call, System.no_route; simpl.
  - exists "HTTP 404: Not Found".
    now destruct (method _ (System.local w)).
  - exists "Failed to fetch".
    now destruct (method _ (System.local w)).
Qed.

Lemma twice_no_route (net1 net2 : System.network)
  (m1 m2 : outcome value -> store -> store * outcome value) (w : System.world) :
  exists e1 e2,
    fst (System.call net1 System.no_route m1 w)
    = {| System.remote := System.remote w;
         System.local := fst (m1 (Thrown e1) (System.local w)) |} /\
    System.call net2 System.no_route m2 (fst (System.call net1 System.no_route m1 w))
    = ({| System.remote := System.remote w;
          System.local :=
            fst (m2 (Thrown e2) (fst (m1 (Thrown e1) (System.local w)))) |},
       snd (m2 (Thrown e2) (fst (m1 (Thrown e1) (System.local w))))).
Proof.
  destruct (call_no_route net1 m1 w) as [e1 E1]. exists e1.
  rewrite E1. simpl fst.
  destruct (call_no_route net2 m2
              {| System.remote := System.remote w;
                 System.local := fst (m1 (Thrown e1) (System.local w)) |})
    as [e2 E2].
  exists e2. split; [reflexivity|]. exact E2.
Qed.

(** Two status updates in a row through any of the two methods. *)
Lemma status_twice_through (key field id status t1 t2 e1 e2 : string) (data : store) :
  let method t remote :=
    try_catch remote (fun data =>
      let '(data, item) :=
        update data key id {[ "status" := VStr status; "updatedAt" := VStr t ]} in
      (data, Returned (result field (or_null item)))) in
  let d1 := fst (method t1 (Thrown e1) data) in
  let second := method t2 (Thrown e2) d1 in
  fst second = fst (update d1 key id {[ "updatedAt" := VStr t2 ]}) /\
  (t2 = t1 -> fst second = d1) /\
  (forall key', List.length (get (fst second) key') = List.length (get d1 key')) /\
  (forall e, entity data key id = Some e ->
     exists e',
       snd second = Returned (result field (VObj e')) /\
       entity (fst second) key id = Some e' /\
       e' !! "status" = Some (VStr status)).
Proof.
  intros method d1 second. subst second d1 method. unfold try_catch.
  destruct (status_update_twice data key id status t1 t2) as (A & B & C & D).
  cbv zeta in A, B, C, D.
  destruct (update data key id _) as [d1 r1] eqn:E1. simpl fst in *.
  destruct (update d1 key id {[ "status" := VStr status; "updatedAt" := VStr t2 ]})
    as [d2 r2] eqn:E2.
  simpl fst in *. simpl snd in *.
  split; [now rewrite <- A|]. split; [exact B|]. split; [exact C|].
  intros e He. destruct (D e He) as (e' & -> & Hf & Hs & _).
  exists e'. auto.
Qed.

(** C7, as the code has it. Two calls of [updatePrescriptionStatus] (of
    [updateTicketStatus]) with the same id and the same status, under any
    state of the network: the hosted store is not touched; the local
    store after the second call is the local store after the first with
    [updatedAt] of the entity written again, so every array keeps its
    length and the stores are equal when both calls read the same time;
    the entity, when the store holds it, carries the status and is what
    the second call returns. *)
Theorem status_update_twice_rewrites_updatedAt
  (net1 net2 : System.network) (amb1 amb2 : ambient) (id status : string)
  (w : System.world) :
  (let first := System.updatePrescriptionStatus amb1 net1 id status w in
   let second := System.updatePrescriptionStatus amb2 net2 id status (fst first) in
   System.remote (fst second) = System.remote w /\
   System.local (fst second)
   = fst (update (System.local (fst first)) "prescriptions" id
            {[ "updatedAt" := VStr (clock amb2 0) ]}) /\
   (clock amb2 0 = clock amb1 0 -> fst second = fst first) /\
   (forall key, List.length (get (System.local (fst second)) key)
                = List.length (get (System.local (fst first)) key)) /\
   (forall e, entity (System.local w) "prescriptions" id = Some e ->
      exists e',
        snd second = Returned (result "prescription" (VObj e')) /\
        entity (System.local (fst second)) "prescriptions" id = Some e' /\
        e' !! "status" = Some (VStr status))) /\
  (let first := System.updateTicketStatus amb1 net1 id status w in
   let second := System.updateTicketStatus amb2 net2 id status (fst first) in
   System.remote (fst second) = System.remote w /\
   System.local (fst second)
   = fst (update (System.local (fst first)) "tickets" id
            {[ "updatedAt" := VStr (clock amb2 0) ]}) /\
   (clock amb2 0 = clock amb1 0 -> fst second = fst first) /\
   (forall key, List.length (get (System.local (fst second)) key)
                = List.length (get (System.local (fst first)) key)) /\
   (forall e, entity (System.local w) "tickets" id = Some e ->
      exists e',
        snd second = Returned (result "ticket" (VObj e')) /\
        entity (System.local (fst second)) "tickets" id = Some e' /\
        e' !! "status" = Some (VStr status))).
Proof.
  split; cbv zeta.
  - unfold System.updatePrescriptionStatus.
    destruct (twice_no_route net1 net2
                (fun remote => updatePrescriptionStatus amb1 remote id status)
                (fun remote => updatePrescriptionStatus amb2 remote id status) w)
      as (e1 & e2 & H1 & H2).
    rewrite H2, H1. simpl fst. simpl snd. simpl System.local. simpl System.remote.
    destruct (status_twice_through "prescriptions" "prescription" id status
                (clock amb1 0) (clock amb2 0) e1 e2 (System.local w))
      as (A & B & C & D).
    split; [reflexivity|]. split; [exact A|].
    split; [intros H; f_equal; exact (B H)|]. split; [exact C|exact D].
  - unfold System.updateTicketStatus.
    destruct (twice_no_route net1 net2
                (fun remote => updateTicketStatus amb1 remote id status)
                (fun remote => updateTicketStatus amb2 remote id status) w)
      as (e1 & e2 & H1 & H2).
    rewrite H2, H1. simpl fst. simpl snd. simpl System.local. simpl System.remote.
    destruct (status_twice_through "tickets" "ticket" id status
                (clock amb1 0) (clock amb2 0) e1 e2 (System.local w))
      as (A & B & C & D).
    split; [reflexivity|]. split; [exact A|].
    split; [intros H; f_equal; exact (B H)|]. split; [exact C|exact D].
Qed.

(** C7, as the specification has it, fails: the second call changes the
    store that the first call left. *)
Lemma status_update_twice_counterexample :
  let first :=
    System.updatePrescriptionStatus Fixtures.amb1 System.Up "presc_001" "verified"
      Fixtures.world1 in
  let second :=
    System.updatePrescriptionStatus Fixtures.amb2 System.Up "presc_001" "verified"
      (fst first) in
  (e ← entity (System.local (fst first)) "prescriptions" "presc_001"; e !! "updatedAt")
  = Some (VStr "2025-01-08T10:00:00.000Z") /\
  (e ← entity (System.local (fst second)) "prescriptions" "presc_001"; e !! "updatedAt")
  = Some (VStr "2025-01-08T10:01:00.000Z") /\
  fst second <> fst first.
Proof.
  cbv zeta. split; [vm_compute; reflexivity|]. split; [vm_compute; reflexivity|].
  intros H.
  apply (f_equal (fun w =>
           e ← entity (System.local w) "prescriptions" "presc_001"; e !! "updatedAt")) in H.
  vm_compute in H. discriminate.
Qed.

Lemma status_update_twice_witness :
  let first :=
    System.updatePrescriptionStatus Fixtures.amb1 System.Up "presc_001" "verified"
      Fixtures.world1 in
  let second :=
    System.updatePrescriptionStatus Fixtures.amb2 System.Down "presc_001" "verified"
      (fst first) in
  (exists e, entity Fixtures.sample "prescriptions" "presc_001" = Some e) /\
  exists e',
    snd second = Returned (result "prescription" (VObj e')) /\
    entity (System.local (fst second)) "prescriptions" "presc_001" = Some e' /\
    e' !! "status" = Some (VStr "verified").
Proof.
  cbv zeta.
  destruct (entity Fixtures.sample "prescriptions" "presc_001") as [e|] eqn:He;
    [|vm_compute in He; discriminate].
  split; [now exists e|].
  destruct (status_update_twice_rewrites_updatedAt System.Up System.Down
              Fixtures.amb1 Fixtures.amb2 "presc_001" "verified" Fixtures.world1)
    as [(_ & _ & _ & _ & P) _].
  exact (P e He).
Defined.

End StatusTwiceSystem.

(** ** Deleting a medicine *)

Section Deletion.

Import Server LocalStorageManager PharmacyAPI Terms.
Context {rt : Runtime}.
Variable collate : string -> string -> bool.
Variable env : surroundings.

Lemma update_meds_lookup (now id : string) (change : med -> med) (d : db) (i : nat) :
  meds (update_meds now change id d) !! i
  = (fun m => if eq_id id m then touch now (change m) else m) <$> meds d !! i.
Proof. unfold update_meds. simpl. apply list_lookup_fmap. Qed.

Lemma transformedMedicine_id (m : med) :
  transformedMedicine m !! "id" = Some (VStr (m_id m)).
Proof. reflexivity. Qed.

(** What [GET /medicines] lists: the transformed rows that are active. *)
Lemma listed_get_medicines (d : db) (v : value) :
  v ∈ listed (snd (get_medicines collate d)) ->
  exists m, v = VObj (transformedMedicine m) /\ In m (meds d) /\ m_active m = true.
Proof.
  unfold get_medicines, listed. destruct (ready d); simpl.
  - rewrite lookup_insert_eq. intros H.
    apply list_elem_of_fmap in H as (m & -> & Hm).
    rewrite merge_sort_Permutation in Hm.
    apply list_elem_of_In, filter_In in Hm as [Hin Hact].
    exists m. auto.
  - rewrite lookup_insert_eq. intros H. apply elem_of_nil in H. contradiction.
Qed.

Lemma get_medicines_lists (d : db) (m : med) :
  ready d = true -> In m (meds d) -> m_active m = true ->
  VObj (transformedMedicine m) ∈ listed (snd (get_medicines collate d)).
Proof.
  intros Hr Hin Hact. unfold get_medicines, listed. rewrite Hr. simpl.
  rewrite lookup_insert_eq.
  apply (list_elem_of_fmap_2 (VObj ∘ transformedMedicine)).
  rewrite merge_sort_Permutation.
  apply list_elem_of_In, filter_In. auto.
Qed.

(** C8, as the code has it.  [DELETE /medicines/:id] on the tables of
    the simplified schema, with an id that is the text of a uuid, answers
    200 and keeps every row: the rows under the uuid get [active = false]
    and, by the trigger [meds_updated], a new value of [updated]; every
    other column of theirs and every other row stay as they are, and no
    later [GET /medicines] lists a medicine under the uuid.  With an id
    that is not the text of a uuid, as the ids of the local store are, the
    query is an error and the store stays as it is: the handler answers
    500, or 400 when the id, which the message of the error repeats,
    holds one of the words that [isTableMissingError] looks for; without
    the tables it answers 400.  [tryBackend] throws on each of these
    answers, and the fallback of [deleteMedicine], after any failure,
    removes from the array of medicines the records that carry the id and
    nothing else. *)
Theorem delete_is_soft_remotely_and_hard_locally (id : string) :
  (forall d key,
     ready d = true ->
     uuid_in id = Some key ->
     let d' := fst (delete_medicine env id d) in
     status (snd (delete_medicine env id d)) = 200%nat /\
     List.length (meds d') = List.length (meds d) /\
     (forall i m,
        meds d !! i = Some m ->
        exists m',
          meds d' !! i = Some m' /\
          same_but_active_updated m m' /\
          (m_id m = key -> m_active m' = false /\ m_updated m' = NOW env) /\
          (m_id m <> key -> m' = m)) /\
     (forall entry,
        VObj entry ∈ listed (snd (get_medicines collate d')) ->
        entry !! "id" <> Some (VStr key))) /\
  (forall d,
     ready d = true ->
     uuid_in id = None ->
     delete_medicine env id d
     = (d, json_status {[ "error" := VStr not_initialized ]}
             (if includes "relation" id || includes "does not exist" id
                 || includes "table" id
              then 400 else 500)) /\
     Routes.delivered (snd (delete_medicine env id d)) = Thrown not_initialized) /\
  (forall d,
     ready d = false ->
     delete_medicine env id d = (d, bad_request not_initialized) /\
     Routes.delivered (snd (delete_medicine env id d)) = Thrown not_initialized) /\
  (forall data e,
     let data' := fst (deleteMedicine (Thrown e) id data) in
     snd (deleteMedicine (Thrown e) id data) = Returned success /\
     get data' "medicines"
     = List.filter (fun item => negb (has_id id item)) (get data "medicines") /\
     absent id (get data' "medicines") = true /\
     (forall key, key <> "medicines" -> data' !! key = data !! key)).
Proof.
  split; [|split; [|split]].
  - intros d key Hr Hu d'. subst d'. unfold delete_medicine, update_error.
    rewrite Hr, Hu. simpl negb. cbv iota.
    simpl fst. simpl snd.
    split; [reflexivity|].
    split; [unfold update_meds; simpl; apply length_map|].
    split.
    + intros i m Hm. rewrite update_meds_lookup, Hm. simpl.
      destruct (eq_id id m) eqn:E.
      * eexists. split; [reflexivity|].
        split; [unfold same_but_active_updated; simpl; tauto|].
        split; [intros _; split; reflexivity|].
        apply eq_id_true in E. congruence.
      * exists m. split; [reflexivity|].
        split; [unfold same_but_active_updated; tauto|].
        split; [|reflexivity]. intros Hk.
        assert (E' : eq_id id m = true) by (apply eq_id_true; congruence).
        congruence.
    + intros entry H Hid.
      apply listed_get_medicines in H as (m & Hv & Hin & Hact).
      injection Hv as ->. rewrite transformedMedicine_id in Hid.
      injection Hid as Hid.
      unfold update_meds in Hin. simpl in Hin.
      apply in_map_iff in Hin as (m0 & Hm0 & _).
      destruct (eq_id id m0) eqn:E.
      * subst m. simpl in Hact. discriminate.
      * subst m.
        assert (E' : eq_id id m0 = true) by (apply eq_id_true; congruence).
        congruence.
  - intros d Hr Hu. unfold delete_medicine, update_error. rewrite Hr, Hu.
    cbn [negb isTableMissingError].
    destruct (includes "relation" id || includes "does not exist" id
              || includes "table" id); split; reflexivity.
  - intros d Hr. unfold delete_medicine, update_error. rewrite Hr.
    split; reflexivity.
  - intros data e data'. subst data'. unfold deleteMedicine, try_catch. simpl fst. simpl snd.
    split; [reflexivity|].
    assert (G : get (fst (delete data "medicines" id)) "medicines"
                = List.filter (fun item => negb (has_id id item)) (get data "medicines")).
    { unfold delete, get. destruct (data !! "medicines") as [arr|] eqn:E; simpl.
      - now rewrite lookup_insert_eq.
      - now rewrite E. }
    split; [exact G|]. split.
    + rewrite G. unfold absent. apply forallb_forall.
      intros x Hx. now apply filter_In in Hx as [_ Hx].
    + intros key Hk. unfold delete.
      destruct (data !! "medicines"); simpl; [|reflexivity].
      now rewrite lookup_insert_ne by congruence.
Qed.

End Deletion.

Section DeletionExample.

Import Server LocalStorageManager PharmacyAPI Terms.

(** C8, as the specification has it, fails on the hosted store.  The
    row under the id of a medicine of the hosted store is not the old row
    with [active] cleared, for its [updated] has moved; and with the id
    of a medicine of the local store the handler answers 500 and clears
    no flag, while the method removes the record from the local store. *)
Lemma delete_counterexample :
  (let d' := fst (delete_medicine Fixtures.env1 (m_id Fixtures.paracetamol) Fixtures.hosted) in
   exists m',
     select_med d' (m_id Fixtures.paracetamol) = inl m' /\
     m_updated Fixtures.paracetamol = "2025-01-01T00:00:00+00:00" /\
     m_updated m' = "2025-01-08T10:00:00+00:00" /\
     m' <> with_active false Fixtures.paracetamol) /\
  (let r := snd (delete_medicine Fixtures.env1 "med_001" Fixtures.hosted) in
   fst (delete_medicine Fixtures.env1 "med_001" Fixtures.hosted) = Fixtures.hosted /\
   status r = 500%nat /\
   local_stock Fixtures.sample "med_001" = Some (VNum 150) /\
   local_stock (fst (deleteMedicine (Routes.delivered r) "med_001" Fixtures.sample))
     "med_001" = None).
Proof.
  split.
  - cbv zeta. eexists. split; [vm_compute; reflexivity|].
    split; [reflexivity|]. split; [reflexivity|].
    intros H. apply (f_equal m_updated) in H. vm_compute in H. discriminate.
  - cbv zeta. split; [reflexivity|]. split; [reflexivity|].
    split; [reflexivity|]. vm_compute. reflexivity.
Qed.

Lemma delete_is_soft_remotely_and_hard_locally_witness :
  ready Fixtures.hosted = true /\
  uuid_in (m_id Fixtures.paracetamol) = Some (m_id Fixtures.paracetamol) /\
  uuid_in "med_001" = None /\
  meds Fixtures.hosted !! 0%nat = Some Fixtures.paracetamol /\
  (exists m',
     meds (fst (delete_medicine Fixtures.env1 (m_id Fixtures.paracetamol) Fixtures.hosted))
       !! 0%nat = Some m' /\
     same_but_active_updated Fixtures.paracetamol m' /\
     m_active m' = false /\ m_updated m' = NOW Fixtures.env1) /\
  delete_medicine Fixtures.env1 "med_001" Fixtures.hosted
  = (Fixtures.hosted, json_status {[ "error" := VStr not_initialized ]} 500).
Proof.
  split; [reflexivity|]. split; [reflexivity|]. split; [reflexivity|].
  split; [reflexivity|]. split.
  - destruct (delete_is_soft_remotely_and_hard_locally (fun _ _ => true) Fixtures.env1
                (m_id Fixtures.paracetamol)) as [R _].
    destruct (R Fixtures.hosted (m_id Fixtures.paracetamol) eq_refl eq_refl)
      as (_ & _ & Rows & _).
    destruct (Rows 0%nat Fixtures.paracetamol eq_refl) as (m' & Hm & Hs & Hid & _).
    exists m'. destruct (Hid eq_refl) as [Ha Hu]. auto.
  - destruct (delete_is_soft_remotely_and_hard_locally (fun _ _ => true) Fixtures.env1
                "med_001") as (_ & R & _).
    exact (proj1 (R Fixtures.hosted eq_refl eq_refl)).
Defined.

End DeletionExample.

(** ** The stock never goes below zero *)

Section NonNegative.

Import Server LocalStorageManager PharmacyAPI Terms.
Context {rt : Runtime}.

Lemma update_meds_ok (now id : string) (q : Q) (d : db) :
  remote_ok d = true -> (0 <= q)%Q ->
  remote_ok (update_meds now (with_stock q) id d) = true.
Proof.
  unfold remote_ok, update_meds. simpl. intros H Hq.
  rewrite forallb_forall in *. intros m Hm.
  apply in_map_iff in Hm as (m0 & <- & Hm0).
  destruct (eq_id id m0); [|auto].
  change (m_stock (touch now ?x)) with (m_stock x).
  destruct (int4 q) eqn:Hi.
  - rewrite with_stock_stock by exact Hi. now apply Qle_bool_iff.
  - rewrite with_stock_refused by exact Hi. auto.
Qed.

Lemma post_stock_ok (env : surroundings) (id type : string) (quantity : Q) (d : db) :
  remote_ok d = true ->
  remote_ok (fst (post_stock env id quantity type d)) = true.
Proof.
  intros H. unfold post_stock.
  destruct (falsy_num quantity || Qleb quantity 0 || negb (Number_isInteger quantity));
    [exact H|].
  destruct (falsy_str type || negb (existsb (String.eqb type) ["add"; "subtract"]));
    [exact H|].
  destruct (select_med d id) as [m|err];
    [|destruct (isTableMissingError err); exact H].
  set (newStock := if String.eqb type "add" then _ else _).
  destruct (Qltb newStock 0) eqn:E; [exact H|].
  apply Qltb_false in E.
  destruct (negb (int4 newStock)); [exact H|].
  destruct (select_med (update_meds _ _ _ _) id); simpl; now apply update_meds_ok.
Qed.

Lemma sell_item_ok (env : surroundings) (saleId : string) (d : db)
  (item : SalesBilling.CartItem) :
  remote_ok d = true -> remote_ok (sell_item env saleId d item) = true.
Proof.
  intros H. unfold sell_item.
  change (select_med (log_sale_item d ?i) ?id) with (select_med d id).
  destruct (select_med d _) as [m|err]; [|exact H].
  destruct (Qgeb _ 0 && int4 _) eqn:E; [|exact H].
  apply andb_true_iff in E as [E _].
  unfold Qgeb in E. apply Qle_bool_iff in E.
  now apply (update_meds_ok _ _ _ (log_sale_item d _)).
Qed.

Lemma post_sales_ok (env : surroundings) (sale : sale_body) (d : db) :
  remote_ok d = true -> remote_ok (fst (post_sales env sale d)) = true.
Proof.
  intros H. unfold post_sales.
  destruct (negb (ready d)); [exact H|].
  destruct (existsb _ (sales d)); [exact H|]. simpl.
  set (d0 := insert_sale d _).
  assert (H0 : remote_ok d0 = true) by exact H.
  clearbody d0. destruct (b_items sale) as [items|]; [|exact H0]. revert d0 H0.
  induction items as [|item items IH]; intros d0 H0; simpl; [exact H0|].
  apply IH. now apply sell_item_ok.
Qed.

Lemma forallb_insert (P : obj -> bool) (l : list obj) (i : nat) (x : obj) :
  forallb P l = true -> P x = true -> forallb P (<[i := x]> l) = true.
Proof.
  revert i. induction l as [|y l IH]; intros i H Hx; [exact H|].
  simpl in H. apply andb_true_iff in H as [Hy Hl].
  destruct i; simpl; rewrite ?Hx, ?Hy; simpl; auto.
Qed.

Lemma updateStock_ok (amb : ambient) (remote : outcome value) (id type : string)
  (quantity : Q) (data : store) :
  local_ok data = true ->
  local_ok (fst (updateStock amb remote id quantity type data)) = true.
Proof.
  intros H. unfold updateStock, try_catch.
  destruct remote as [v|e]; [exact H|].
  destruct (List.find (has_id id) (get data "medicines")) as [m|] eqn:Hf; [|exact H].
  change (num_value (Num quantity)) with (VNum quantity).
  destruct (update_present data "medicines" id
              {[ "stock" :=
                   Math_max (Some (VNum 0))
                     (Some (if String.eqb type "add"
                            then js_add (m !! "stock") (Some (VNum quantity))
                            else js_sub (m !! "stock") (Some (VNum quantity))));
                 "updatedAt" := VStr (clock amb 0) ]} m Hf)
    as (arr & i & Hk & Hi & Hx & E).
  rewrite E. simpl. unfold local_ok in *. rewrite get_insert_eq.
  rewrite (get_lookup _ _ _ Hk) in H.
  apply forallb_insert; [exact H|].
  assert (Hm : nonneg_record m = true).
  { rewrite forallb_forall in H. apply H. apply list_elem_of_In.
    now apply list_elem_of_lookup_2 in Hx. }
  unfold nonneg_record in *. unfold spread.
  erewrite lookup_union_Some_l by apply lookup_insert_eq.
  destruct (m !! "stock") as [[| | s | | | |]|]; try discriminate.
  destruct (String.eqb type "add"); simpl; apply Qle_bool_iff, Q.le_max_l.
Qed.

Lemma createSale_ok (amb : ambient) (remote : outcome value) (sale : obj) (data : store) :
  local_ok data = true ->
  local_ok (fst (createSale amb remote sale data)) = true.
Proof.
  intros H. unfold createSale, try_catch.
  destruct remote as [v|e]; [exact H|]. simpl.
  unfold local_ok. now rewrite get_insert_ne by discriminate.
Qed.

Lemma mutate_ok (op : mutation) (w : System.world) :
  finite op = true ->
  stock_nonneg w = true -> stock_nonneg (mutate op w) = true.
Proof.
  unfold stock_nonneg. intros Hfin H. apply andb_true_iff in H as [Hr Hl].
  destruct op as [net env amb id [quantity|] type | net env amb sale];
    try discriminate Hfin; simpl;
    unfold System.updateStock, System.createSale, System.call, System.served.
  - destruct net.
    + pose proof (post_stock_ok env id type quantity _ Hr) as Hr'.
      destruct (post_stock env id quantity type (System.remote w)) as [d r].
      set (out := tryBackend _).
      pose proof (updateStock_ok amb out id type quantity _ Hl) as Hl'.
      destruct (updateStock amb out id quantity type (System.local w)) as [l o].
      simpl in *. apply andb_true_iff. split; assumption.
    + set (out := tryBackend _).
      pose proof (updateStock_ok amb out id type quantity _ Hl) as Hl'.
      destruct (updateStock amb out id quantity type (System.local w)) as [l o].
      simpl in *. apply andb_true_iff. split; assumption.
  - destruct net.
    + pose proof (post_sales_ok env (posted sale) _ Hr) as Hr'.
      destruct (post_sales env (posted sale) (System.remote w)) as [d r].
      set (out := tryBackend _).
      pose proof (createSale_ok amb out (SalesBilling.sale_object sale) _ Hl) as Hl'.
      destruct (createSale amb out _ (System.local w)) as [l o].
      simpl in *. apply andb_true_iff. split; assumption.
    + set (out := tryBackend _).
      pose proof (createSale_ok amb out (SalesBilling.sale_object sale) _ Hl) as Hl'.
      destruct (createSale amb out _ (System.local w)) as [l o].
      simpl in *. apply andb_true_iff. split; assumption.
Qed.

(** [updateStock] with the quantity [NaN], on either state of the
    network: the handler refuses the [null] that the body carries, and the
    fallback writes [NaN] as the stock of the medicine. *)
Lemma updateStock_NaN (net : System.network) (env : surroundings) (amb : ambient)
  (id type : string) (w : System.world) (s : Q) :
  local_stock (System.local w) id = Some (VNum s) ->
  local_stock (System.local (fst (System.updateStock env amb net id NaN type w))) id
  = Some VNaN.
Proof.
  intros Hs. destruct (local_stock_find _ _ _ Hs) as (m & Hf & Hm).
  assert (F : forall e,
            local_stock (fst (updateStock amb (Thrown e) id NaN type (System.local w))) id
            = Some VNaN).
  { intros e. unfold updateStock, try_catch. rewrite Hf, Hm.
    set (updates := {[ "stock" := _; "updatedAt" := _ ]} : obj).
    destruct (update (System.local w) "medicines" id updates) as [data' r] eqn:E.
    assert (Hid : updates !! "id" = None) by (subst updates; reflexivity).
    destruct (update_find _ _ _ _ _ _ _ Hf Hid E) as [-> Hf'].
    simpl. unfold local_stock. rewrite Hf'. unfold spread.
    erewrite lookup_union_Some_l; [reflexivity|].
    subst updates. rewrite lookup_insert_eq.
    destruct (String.eqb type "add"); reflexivity. }
  unfold System.updateStock, System.call, System.served.
  destruct net.
  - unfold post_stock_null. cbv beta iota zeta.
    change (status (bad_request ?m)) with 400%nat.
    rewrite tryBackend_bad_request by discriminate.
    specialize (F "Quantity must be a positive integer").
    destruct (updateStock amb _ id NaN type (System.local w)) as [l o]. exact F.
  - cbv beta iota zeta. set (out := tryBackend _).
    assert (Ho : out = Thrown "Failed to fetch") by reflexivity.
    rewrite Ho. specialize (F "Failed to fetch").
    destruct (updateStock amb _ id NaN type (System.local w)) as [l o]. exact F.
Qed.

(** C5, as the code has it.  From a state in which every medicine,
    hosted or local, has a stock that is not negative, every sequence of
    stock updates and sales whose quantities are numbers, whichever of
    them reach the handlers and whichever fall back, passes only through
    such states.  A stock update with the quantity [NaN] on a medicine of
    the local store leaves that medicine with the stock [NaN], on either
    state of the network and for either type: its stock is then not a
    number that is greater than or equal to zero. *)
Theorem stock_stays_nonnegative (ops : list mutation) (w : System.world) :
  (forallb finite ops = true ->
   stock_nonneg w = true ->
   forallb stock_nonneg (history ops w) = true) /\
  (forall net env amb id type s,
     local_stock (System.local w) id = Some (VNum s) ->
     local_stock (System.local (mutate (StockUpdate net env amb id NaN type) w)) id
     = Some VNaN).
Proof.
  split.
  - revert w. induction ops as [|op ops IH]; intros w Hf H; simpl; [reflexivity|].
    simpl in Hf. apply andb_true_iff in Hf as [Hop Hf].
    apply andb_true_iff. split.
    + now apply mutate_ok.
    + apply IH; [exact Hf|]. now apply mutate_ok.
  - intros net env amb id type s Hs. now apply (updateStock_NaN net env amb id type w s).
Qed.

End NonNegative.

Section NonNegativeExample.

Import Terms.

(** C5, as the specification has it, fails: with the network down, a
    stock update with the quantity [NaN] leaves a medicine of the local
    store with a stock that is not a number. *)
Lemma stock_counterexample :
  stock_nonneg Fixtures.world1 = true /\
  local_stock Fixtures.sample "med_004" = Some (VNum 8) /\
  (let w := mutate (rt := Fixtures.integers)
              (StockUpdate System.Down Fixtures.env1 Fixtures.amb1 "med_004" NaN "add")
              Fixtures.world1 in
   local_stock (System.local w) "med_004" = Some VNaN /\
   stock_nonneg w = false).
Proof.
  split; [vm_compute; reflexivity|]. split; [reflexivity|].
  cbv zeta. split; vm_compute; reflexivity.
Qed.

Lemma stock_stays_nonnegative_witness :
  stock_nonneg Fixtures.world1 = true /\
  forallb finite
    [ StockUpdate System.Up Fixtures.env1 Fixtures.amb1
        (Server.m_id Fixtures.aspirin) 10 "subtract";
      StockUpdate System.Down Fixtures.env1 Fixtures.amb1 "med_004" 10 "subtract";
      Sale System.Up Fixtures.env1 Fixtures.amb2 (Fixtures.sale_of Fixtures.hosted_cart);
      StockUpdate System.Up Fixtures.env1 Fixtures.amb2
        (Server.m_id Fixtures.aspirin) (-3) "add" ] = true /\
  forallb stock_nonneg
    (history (rt := Fixtures.integers)
       [ StockUpdate System.Up Fixtures.env1 Fixtures.amb1
           (Server.m_id Fixtures.aspirin) 10 "subtract";
         StockUpdate System.Down Fixtures.env1 Fixtures.amb1 "med_004" 10 "subtract";
         Sale System.Up Fixtures.env1 Fixtures.amb2 (Fixtures.sale_of Fixtures.hosted_cart);
         StockUpdate System.Up Fixtures.env1 Fixtures.amb2
           (Server.m_id Fixtures.aspirin) (-3) "add" ]
       Fixtures.world1) = true.
Proof.
  assert (H : stock_nonneg Fixtures.world1 = true) by (vm_compute; reflexivity).
  split; [exact H|]. split; [reflexivity|].
  refine (proj1 (stock_stays_nonnegative (rt := Fixtures.integers) _ Fixtures.world1) _ H).
  reflexivity.
Defined.

End NonNegativeExample.

(** ** A sale and the stock *)

Section SaleStock.

Import Server LocalStorageManager PharmacyAPI Terms.

(** The fallback of [createSale] appends the sale to the array of sales
    and touches no other array: the medicines keep their stock. *)
Lemma createSale_fallback_frame (amb : ambient) (e : string) (sale : obj)
  (data : store) (key : string) :
  key <> "sales" ->
  get (fst (createSale amb (Thrown e) sale data)) key = get data key.
Proof.
  intros H. unfold createSale, try_catch, add. simpl.
  now rewrite get_insert_ne by congruence.
Qed.

Lemma createSale_fallback_keeps_stock (amb : ambient) (e : string) (sale : obj)
  (data : store) (id : string) :
  local_stock (fst (createSale amb (Thrown e) sale data)) id = local_stock data id.
Proof.
  unfold local_stock. now rewrite createSale_fallback_frame by discriminate.
Qed.

(** C2 on the code. The total of the cart of the scenario is 40.  When
    the sale reaches the handler, the stock of each medicine of the cart
    goes down by the quantity of its line (150 to 148 and 8 to 5).  When
    the sale falls back to the local store, the stock of each medicine of
    the cart stays what it was (150 and 200): the fallback of [createSale]
    only records the sale. *)
Theorem sale_of_two_lines :
  SalesBilling.calculateTotal Fixtures.local_cart = 40%Q /\
  SalesBilling.calculateTotal Fixtures.hosted_cart = 40%Q /\
  (let served :=
     System.createSale Fixtures.env1 Fixtures.amb1 System.Up
       (Fixtures.sale_of Fixtures.hosted_cart) Fixtures.world1 in
   remote_stock Fixtures.hosted (m_id Fixtures.paracetamol) = Some 150%Q /\
   remote_stock Fixtures.hosted (m_id Fixtures.aspirin) = Some 8%Q /\
   remote_stock (System.remote (fst served)) (m_id Fixtures.paracetamol)
   = Some (150 - 2)%Q /\
   remote_stock (System.remote (fst served)) (m_id Fixtures.aspirin)
   = Some (8 - 3)%Q) /\
  (let fallen :=
     System.createSale Fixtures.env1 Fixtures.amb1 System.Down
       (Fixtures.sale_of Fixtures.local_cart) Fixtures.world1 in
   local_stock Fixtures.sample "med_001" = Some (VNum 150) /\
   local_stock Fixtures.sample "med_003" = Some (VNum 200) /\
   (exists sale, snd fallen = Returned (result "sale" (VObj sale))) /\
   local_stock (System.local (fst fallen)) "med_001" = Some (VNum 150) /\
   local_stock (System.local (fst fallen)) "med_003" = Some (VNum 200)).
Proof.
  split; [reflexivity|]. split; [reflexivity|]. split.
  - cbv zeta. repeat split; vm_compute; reflexivity.
  - cbv zeta. split; [reflexivity|]. split; [reflexivity|].
    split; [eexists; reflexivity|].
    split; vm_compute; reflexivity.
Qed.

End SaleStock.

(** ** Adding a medicine, then listing the medicines *)

Section RoundTrip.

Import Server LocalStorageManager PharmacyAPI Terms.
Context {rt : Runtime}.
Variable collate : string -> string -> bool.
Variable env : surroundings.
Variable amb : ambient.

Lemma newMedicine_lookup (medicine : obj) (k : string) :
  k <> "id" -> k <> "createdAt" -> k <> "updatedAt" ->
  newMedicine amb medicine !! k = medicine !! k.
Proof.
  intros H1 H2 H3. unfold newMedicine, spread.
  rewrite lookup_union_r
    by (rewrite lookup_insert_ne, lookup_singleton_ne by congruence; reflexivity).
  rewrite lookup_union. rewrite lookup_singleton_ne by congruence.
  now destruct (medicine !! k).
Qed.

Lemma newMedicine_agrees (medicine : obj) : agrees medicine (newMedicine amb medicine).
Proof.
  intros k Hk. apply newMedicine_lookup;
    intros ->; simpl in Hk; intuition discriminate.
Qed.

(** The round trip through the local store. *)
Lemma round_trip_fallback (e1 e2 : string) (medicine : obj) (data : store) :
  let data' := fst (addMedicine amb (Thrown e1) medicine data) in
  snd (addMedicine amb (Thrown e1) medicine data)
  = Returned (result "medicine" (VObj (newMedicine amb medicine))) /\
  VObj (newMedicine amb medicine) ∈ medicines_of (snd (getMedicines (Thrown e2) data')).
Proof.
  unfold addMedicine, getMedicines, try_catch, add, medicines_of, result, prop. simpl.
  split; [reflexivity|].
  rewrite lookup_singleton_eq, get_insert_eq. unfold records.
  apply list_elem_of_fmap_2. apply elem_of_app. right. apply list_elem_of_singleton.
  reflexivity.
Qed.

(** [prepare] on a medicine that passes the checks of the handler. *)
Lemma prepare_next (medicine : obj) (data : medicineData) (n c m : string) :
  medicine !! "name" = Some (VStr n) ->
  medicine !! "category" = Some (VStr c) ->
  medicine !! "manufacturer" = Some (VStr m) ->
  prepare medicine = Next data ->
  d_name data = trim n /\ d_cat data = trim c /\ d_mfg data = trim m.
Proof.
  intros Hn Hc Hm. unfold prepare. rewrite Hn, Hc, Hm.
  unfold too_short, trim_of, return_if. simpl.
  destruct (negb (falsy_str n)); simpl; [|discriminate].
  destruct (String.length (trim n) <? 2)%nat; simpl; [discriminate|].
  destruct (negb (falsy_str c)); simpl; [|discriminate].
  destruct (String.length (trim c) <? 2)%nat; simpl; [discriminate|].
  destruct (negb (falsy_str m)); simpl; [|discriminate].
  destruct (String.length (trim m) <? 2)%nat; simpl; [discriminate|].
  destruct (trimmed_or_null (medicine !! "strength") None); simpl; try discriminate.
  destruct (trimmed_or_null (medicine !! "batchNumber") _); simpl; try discriminate.
  destruct (trimmed_or_null (medicine !! "location") _); simpl; try discriminate.
  intros [= <-]. simpl. auto.
Qed.

(** [POST /medicines] answered 200: the row it inserted. *)
Lemma post_medicines_ok (medicine : obj) (d : db) (n c m : string) :
  medicine !! "name" = Some (VStr n) ->
  medicine !! "category" = Some (VStr c) ->
  medicine !! "manufacturer" = Some (VStr m) ->
  status (snd (post_medicines env medicine d)) = 200%nat ->
  exists row,
    ready (fst (post_medicines env medicine d)) = true /\
    In row (meds (fst (post_medicines env medicine d))) /\
    snd (post_medicines env medicine d)
    = json {[ "medicine" := VObj (transformedMedicine row) ]} /\
    m_id row = gen_random_uuid env /\ m_active row = true /\
    m_name row = trim n /\ m_cat row = trim c /\ m_mfg row = trim m.
Proof.
  intros Hn Hc Hm. unfold post_medicines.
  destruct (prepare medicine) as [data| r |] eqn:Hp; simpl.
  - destruct (prepare_next medicine data n c m Hn Hc Hm Hp) as (Dn & Dc & Dm).
    unfold insert_med.
    destruct (ready d) eqn:Hr; simpl; [|discriminate].
    destruct (if truthy (d_exp_date data) then _ else _) as [exp_date|];
      destruct (as_integer (d_stock data)) as [stock|];
      destruct (as_integer (d_min_stock data)) as [min_stock|];
      destruct (as_integer (d_max_stock data)) as [max_stock|];
      simpl; try discriminate.
    destruct (existsb _ (meds d)); simpl; [discriminate|].
    intros _. eexists. split; [exact Hr|]. split; [apply in_app_iff; right; now left|].
    split; [reflexivity|]. simpl. auto.
  - unfold prepare in Hp. rewrite Hn, Hc, Hm in Hp.
    unfold too_short, trim_of, return_if in Hp. simpl in Hp.
    repeat match type of Hp with
           | context [negb (falsy_str ?s)] => destruct (negb (falsy_str s)); simpl in Hp
           | context [(?a <? 2)%nat] => destruct (a <? 2)%nat; simpl in Hp
           | context [trimmed_or_null ?a ?b] =>
               destruct (trimmed_or_null a b) as [?|?|] eqn:?; simpl in Hp
           end;
      try discriminate; try (injection Hp as <-; simpl; discriminate).
    all: unfold trimmed_or_null, trim_opt in *;
      repeat match goal with
             | H : context [match ?x with _ => _ end] |- _ =>
                 destruct x; simpl in H; try discriminate
             end.
  - discriminate.
Qed.

Lemma tryBackend_ok (r : response) :
  status r = 200%nat ->
  tryBackend (Response (status r) (System.statusText (status r)) (Some (body r)))
  = Returned (body r).
Proof. intros ->. reflexivity. Qed.

(** [getMedicines] served by the handler. *)
Lemma getMedicines_served (w : System.world) :
  ready (System.remote w) = true ->
  medicines_of (snd (System.getMedicines collate System.Up w))
  = listed (snd (get_medicines collate (System.remote w))).
Proof.
  intros Hr. unfold System.getMedicines, System.call, System.served, get_medicines.
  rewrite Hr. simpl. reflexivity.
Qed.

(** [addMedicine] served by the handler with the status 200. *)
Lemma addMedicine_served (medicine : obj) (w : System.world) :
  status (snd (post_medicines env (newMedicine amb medicine) (System.remote w))) = 200%nat ->
  System.addMedicine env amb System.Up medicine w
  = ({| System.remote :=
          fst (post_medicines env (newMedicine amb medicine) (System.remote w));
        System.local := System.local w |},
     Returned (body (snd (post_medicines env (newMedicine amb medicine)
                            (System.remote w))))).
Proof.
  intros H. unfold System.addMedicine, System.call, System.served.
  destruct (post_medicines env (newMedicine amb medicine) (System.remote w)) as [d r].
  simpl in *. rewrite tryBackend_ok by assumption. reflexivity.
Qed.

(** C4, as the code has it. When [addMedicine] and the [getMedicines]
    that follows it both fall back to the local store, the list holds an
    entry that carries, under every visible field, what was submitted,
    whatever was submitted.  When both are served by the handlers, the
    list holds the entry of the inserted row, whose name, category and
    manufacturer are the submitted strings trimmed. *)
Theorem round_trip_by_path (medicine : obj) :
  (forall data e1 e2,
     let data' := fst (addMedicine amb (Thrown e1) medicine data) in
     exists entry,
       VObj entry ∈ medicines_of (snd (getMedicines (Thrown e2) data')) /\
       agrees medicine entry) /\
  (forall w n c m,
     medicine !! "name" = Some (VStr n) ->
     medicine !! "category" = Some (VStr c) ->
     medicine !! "manufacturer" = Some (VStr m) ->
     status (snd (post_medicines env (newMedicine amb medicine) (System.remote w)))
     = 200%nat ->
     let w' := fst (System.addMedicine env amb System.Up medicine w) in
     exists entry,
       VObj entry ∈ medicines_of (snd (System.getMedicines collate System.Up w')) /\
       entry !! "id" = Some (VStr (gen_random_uuid env)) /\
       entry !! "name" = Some (VStr (trim n)) /\
       entry !! "category" = Some (VStr (trim c)) /\
       entry !! "manufacturer" = Some (VStr (trim m))).
Proof.
  split.
  - intros data e1 e2 data'. exists (newMedicine amb medicine).
    split; [apply round_trip_fallback | apply newMedicine_agrees].
  - intros w n c m Hn Hc Hm Hst w'. subst w'.
    rewrite addMedicine_served by assumption. simpl fst.
    rewrite <- (newMedicine_lookup medicine "name") in Hn by discriminate.
    rewrite <- (newMedicine_lookup medicine "category") in Hc by discriminate.
    rewrite <- (newMedicine_lookup medicine "manufacturer") in Hm by discriminate.
    destruct (post_medicines_ok _ _ n c m Hn Hc Hm Hst)
      as (row & Hr & Hin & _ & Hid & Hact & Dn & Dc & Dm).
    exists (transformedMedicine row).
    rewrite getMedicines_served by exact Hr. simpl System.remote.
    split; [now apply get_medicines_lists|].
    rewrite <- Hid, <- Dn, <- Dc, <- Dm. repeat split; reflexivity.
Qed.

End RoundTrip.

Section RoundTripExample.

Import Server LocalStorageManager PharmacyAPI Terms.

(** C4, as the specification has it, fails on the served path, for a
    medicine that the validator accepts: no entry of the list carries the
    submitted stock under [stock]; and, when the submitted name ends with
    a space, none carries the submitted name. *)
Lemma round_trip_counterexample :
  Validator.isValid
    (Validator.validateMedicine (rt := Fixtures.integers) 1736330400000
       Fixtures.submitted) = true /\
  Validator.isValid
    (Validator.validateMedicine (rt := Fixtures.integers) 1736330400000
       Fixtures.padded) = true /\
  (let medicine := medicine_object Fixtures.submitted in
   let added :=
     System.addMedicine (rt := Fixtures.integers) Fixtures.env1 Fixtures.amb1 System.Up
       medicine Fixtures.world1 in
   (exists v, snd added = Returned v) /\
   medicine !! "stock" = Some (VNum 10) /\
   ~ exists entry,
       VObj entry
       ∈ medicines_of (snd (System.getMedicines Fixtures.by_code_units System.Up
                              (fst added))) /\
       agrees medicine entry) /\
  (let medicine := medicine_object Fixtures.padded in
   let added :=
     System.addMedicine (rt := Fixtures.integers) Fixtures.env1 Fixtures.amb1 System.Up
       medicine Fixtures.world1 in
   (exists v, snd added = Returned v) /\
   medicine !! "name" = Some (VStr "Test ") /\
   ~ exists entry,
       VObj entry
       ∈ medicines_of (snd (System.getMedicines Fixtures.by_code_units System.Up
                              (fst added))) /\
       agrees medicine entry).
Proof.
  split; [vm_compute; reflexivity|]. split; [vm_compute; reflexivity|].
  split; cbv zeta.
  - split; [eexists; vm_compute; reflexivity|]. split; [reflexivity|].
    intros (entry & Hin & Hag).
    rewrite getMedicines_served in Hin by (vm_compute; reflexivity).
    apply listed_get_medicines in Hin as (m & Hv & _). injection Hv as ->.
    specialize (Hag "stock"). simpl in Hag.
    assert (H : transformedMedicine m !! "stock"
                = medicine_object Fixtures.submitted !! "stock") by (apply Hag; tauto).
    vm_compute in H. discriminate.
  - split; [eexists; vm_compute; reflexivity|]. split; [reflexivity|].
    intros (entry & Hin & Hag).
    rewrite getMedicines_served in Hin by (vm_compute; reflexivity).
    apply listed_get_medicines in Hin as (m & Hv & Hm & _). injection Hv as ->.
    assert (H : transformedMedicine m !! "name"
                = medicine_object Fixtures.padded !! "name")
      by (apply Hag; simpl; tauto).
    rewrite addMedicine_served in Hm by (vm_compute; reflexivity).
    vm_compute in Hm.
    destruct Hm as [<-|[<-|[<-|[]]]]; vm_compute in H; discriminate.
Qed.

Lemma round_trip_by_path_witness :
  let medicine := medicine_object Fixtures.padded in
  medicine !! "name" = Some (VStr "Test ") /\
  medicine !! "category" = Some (VStr "Pain Relief") /\
  medicine !! "manufacturer" = Some (VStr "Acme") /\
  status (snd (post_medicines (rt := Fixtures.integers) Fixtures.env1
                 (newMedicine Fixtures.amb1 medicine) Fixtures.hosted)) = 200%nat /\
  exists entry,
    VObj entry
    ∈ medicines_of
        (snd (System.getMedicines Fixtures.by_code_units System.Up
                (fst (System.addMedicine (rt := Fixtures.integers) Fixtures.env1
                        Fixtures.amb1 System.Up medicine Fixtures.world1)))) /\
    entry !! "id" = Some (VStr (gen_random_uuid Fixtures.env1)) /\
    entry !! "name" = Some (VStr (trim "Test ")) /\
    entry !! "category" = Some (VStr (trim "Pain Relief")) /\
    entry !! "manufacturer" = Some (VStr (trim "Acme")).
Proof.
  cbv zeta.
  assert (Hn : medicine_object Fixtures.padded !! "name" = Some (VStr "Test "))
    by reflexivity.
  assert (Hc : medicine_object Fixtures.padded !! "category" = Some (VStr "Pain Relief"))
    by reflexivity.
  assert (Hm : medicine_object Fixtures.padded !! "manufacturer" = Some (VStr "Acme"))
    by reflexivity.
  assert (Hs : status (snd (post_medicines (rt := Fixtures.integers) Fixtures.env1
                              (newMedicine Fixtures.amb1
                                 (medicine_object Fixtures.padded))
                              Fixtures.hosted)) = 200%nat)
    by (vm_compute; reflexivity).
  repeat (split; [assumption|]).
  destruct (round_trip_by_path (rt := Fixtures.integers) Fixtures.by_code_units
              Fixtures.env1 Fixtures.amb1 (medicine_object Fixtures.padded)) as [_ R].
  exact (R Fixtures.world1 "Test " "Pain Relief" "Acme" Hn Hc Hm Hs).
Defined.

End RoundTripExample.

(** ** What a method does when the remote call fails *)

Section Fallbacks.

Import LocalStorageManager PharmacyAPI Terms.
Context {rt : Runtime}.
Variable amb : ambient.

Lemma filterM_returns {A : Type} (p : A -> outcome bool) (l : list A) :
  (forall x, In x l -> exists b, p x = Returned b) ->
  exists l', filterM p l = Returned l'.
Proof.
  induction l as [|x l IH]; intros H; simpl; [now eexists|].
  destruct (H x (or_introl eq_refl)) as [b ->]. simpl.
  destruct IH as [l' ->]; [intros y Hy; apply H; now right|]. simpl. now eexists.
Qed.

Lemma mapM_returns {A B : Type} (f : A -> outcome B) (l : list A) :
  (forall x, In x l -> exists y, f x = Returned y) ->
  exists l', mapM f l = Returned l'.
Proof.
  induction l as [|x l IH]; intros H; simpl; [now eexists|].
  destruct (H x (or_introl eq_refl)) as [y ->]. simpl.
  destruct IH as [l' ->]; [intros z Hz; apply H; now right|]. simpl. now eexists.
Qed.

Lemma filterM_throws {A : Type} (p : A -> outcome bool) (bad : A -> bool) (l : list A) :
  (forall x, bad x = true -> exists e, p x = Thrown e) ->
  existsb bad l = true -> exists e, filterM p l = Thrown e.
Proof.
  intros Hbad. induction l as [|x l IH]; simpl; [discriminate|].
  intros H. destruct (p x) as [b|e] eqn:E; simpl; [|now eexists].
  destruct (bad x) eqn:Hx.
  - destruct (Hbad x Hx) as [e' He]. congruence.
  - destruct (IH H) as [e' ->]. simpl. now eexists.
Qed.

Lemma mapM_throws {A B : Type} (f : A -> outcome B) (bad : A -> bool) (l : list A) :
  (forall x, bad x = true -> exists e, f x = Thrown e) ->
  existsb bad l = true -> exists e, mapM f l = Thrown e.
Proof.
  intros Hbad. induction l as [|x l IH]; simpl; [discriminate|].
  intros H. destruct (f x) as [b|e] eqn:E; simpl; [|now eexists].
  destruct (bad x) eqn:Hx.
  - destruct (Hbad x Hx) as [e' He]. congruence.
  - destruct (IH H) as [e' ->]. simpl. now eexists.
Qed.

Lemma existsb_false {A : Type} (bad : A -> bool) (l : list A) (x : A) :
  existsb bad l = false -> In x l -> bad x = false.
Proof.
  intros H Hin. apply not_true_iff_false. intros Hx.
  assert (E : existsb bad l = true) by (apply existsb_exists; eauto). congruence.
Qed.

Lemma startsWith_today_returns (today : string) (sale : obj) :
  truthy_not_string (sale !! "timestamp") = false ->
  exists b, startsWith_today today sale = Returned b.
Proof.
  unfold startsWith_today, truthy_not_string.
  destruct (sale !! "timestamp") as [[| | | | | |]|]; simpl; try discriminate;
    try (intros ->); try (intros _); now eexists.
Qed.

Lemma startsWith_today_throws (today : string) (sale : obj) :
  truthy_not_string (sale !! "timestamp") = true ->
  exists e, startsWith_today today sale = Thrown e.
Proof.
  unfold startsWith_today, truthy_not_string.
  destruct (sale !! "timestamp") as [[| | | | | |]|]; simpl; try discriminate;
    try (intros ->); try (intros _); now eexists.
Qed.

Lemma sale_activity_returns (sale : obj) :
  negb (number_or_missing (sale !! "total")) = false ->
  exists a, sale_activity sale = Returned a.
Proof.
  unfold sale_activity, toFixed_2.
  destruct (sale !! "total") as [[| | | | | |]|]; simpl; try discriminate;
    intros _; now eexists.
Qed.

Lemma sale_activity_throws (sale : obj) :
  negb (number_or_missing (sale !! "total")) = true ->
  exists e, sale_activity sale = Thrown e.
Proof.
  unfold sale_activity, toFixed_2.
  destruct (sale !! "total") as [[| | | | | |]|]; simpl; try discriminate;
    intros _; now eexists.
Qed.

Lemma in_period_returns (startDate endDate : string) (v : option value) :
  negb (string_or_missing v) = false ->
  exists b, in_period startDate endDate v = Returned b.
Proof.
  unfold in_period, day_of.
  destruct v as [[| | | | | |]|]; simpl; try discriminate; intros _; now eexists.
Qed.

Lemma in_period_throws (startDate endDate : string) (v : option value) :
  negb (string_or_missing v) = true ->
  exists e, in_period startDate endDate v = Thrown e.
Proof.
  unfold in_period, day_of.
  destruct v as [[| | | | | |]|]; simpl; try discriminate; intros _; now eexists.
Qed.

Lemma absent_find (id : string) (l : list obj) :
  absent id l = true <-> List.find (has_id id) l = None.
Proof.
  unfold absent. induction l as [|x l IH]; simpl; [tauto|].
  destruct (has_id id x); simpl; [split; discriminate | exact IH].
Qed.

Ltac unfold_methods :=
  unfold getMedicines, addMedicine, updateMedicine, deleteMedicine, updateStock,
    getSales, createSale, getSaleById, getPrescriptions, addPrescription,
    updatePrescriptionStatus, verifyPrescription, getEmployees, addEmployee,
    clockIn, clockOut, getTimeEntries, getTickets, createTicket,
    updateTicketStatus, getDashboardStats, getRecentActivity, getLowStockAlerts,
    getSalesReport, getInventoryReport, getEmployeeReport, getPrescriptionReport,
    try_catch, add.

(** C3, as the code has it.  When the remote call has failed, a call of
    a method returns a result and throws nothing, with these exceptions,
    in each of which the method throws out of its [catch] block and
    leaves the store as it is: [updateStock] on an id that no medicine of
    the local store carries, which throws "Medicine not found";
    [verifyPrescription] with a verification that is [null] or
    [undefined]; [getDashboardStats] on a store with a sale whose
    timestamp is truthy and not a string; [getRecentActivity] on a store
    one of whose last five sales has a total that is there and is not a
    number; [getSalesReport] and [getPrescriptionReport] on a store with
    a sale whose timestamp, or a prescription whose [createdAt], is there
    and is not a string. *)
Theorem fallback_returns_or_throws (e : string) (r : request) (data : store) :
  (throws r data = false ->
   exists data' v, perform amb (Thrown e) r data = (data', Returned v)) /\
  (throws r data = true ->
   exists message, perform amb (Thrown e) r data = (data, Thrown message)) /\
  (unknown_medicine r data = true ->
   perform amb (Thrown e) r data = (data, Thrown "Medicine not found")).
Proof.
  split; [|split]; intros Hu.
  - destruct r; simpl in *; unfold_methods;
      try (repeat match goal with
                  | |- context [update ?d ?k ?i ?u] => destruct (update d k i u)
                  end;
           now eexists _, _).
    + apply not_true_iff_false in Hu. rewrite absent_find in Hu.
      destruct (List.find (has_id id) (get data "medicines")); [|congruence].
      destruct (update data "medicines" id _). now eexists _, _.
    + destruct verification as [[| | | | | |]|]; try discriminate Hu;
        destruct (update data "prescriptions" id _); now eexists _, _.
    + destruct (filterM_returns (startsWith_today (before_T (clock amb 0)))
                  (get data "sales")) as [l ->]; [|now eexists _, _].
      intros sale Hin. apply startsWith_today_returns.
      exact (existsb_false _ _ sale Hu Hin).
    + destruct (mapM_returns sale_activity (slice_last 5 (get data "sales")))
        as [l ->]; [|now eexists _, _].
      intros sale Hin. apply sale_activity_returns.
      exact (existsb_false _ _ sale Hu Hin).
    + destruct (filterM_returns
                  (fun sale => in_period startDate endDate (sale !! "timestamp"))
                  (get data "sales")) as [l ->]; [|now eexists _, _].
      intros sale Hin. apply in_period_returns.
      exact (existsb_false _ _ sale Hu Hin).
    + destruct (filterM_returns
                  (fun p => in_period startDate endDate (p !! "createdAt"))
                  (get data "prescriptions")) as [l ->]; [|now eexists _, _].
      intros p Hin. apply in_period_returns.
      exact (existsb_false _ _ p Hu Hin).
  - destruct r; simpl in Hu; try discriminate Hu; simpl; unfold_methods.
    + apply absent_find in Hu. rewrite Hu. now eexists.
    + destruct verification as [[| | | | | |]|]; try discriminate Hu; now eexists.
    + destruct (filterM_throws (startsWith_today (before_T (clock amb 0))) _
                  (get data "sales") (startsWith_today_throws _) Hu) as [e' ->].
      now eexists.
    + destruct (mapM_throws sale_activity _ (slice_last 5 (get data "sales"))
                  sale_activity_throws Hu) as [e' ->].
      now eexists.
    + destruct (filterM_throws
                  (fun sale => in_period startDate endDate (sale !! "timestamp")) _
                  (get data "sales")
                  (fun sale => in_period_throws startDate endDate (sale !! "timestamp"))
                  Hu) as [e' ->].
      now eexists.
    + destruct (filterM_throws
                  (fun p => in_period startDate endDate (p !! "createdAt")) _
                  (get data "prescriptions")
                  (fun p => in_period_throws startDate endDate (p !! "createdAt"))
                  Hu) as [e' ->].
      now eexists.
  - destruct r; simpl in Hu; try discriminate Hu. simpl. unfold_methods.
    apply absent_find in Hu. now rewrite Hu.
Qed.

End Fallbacks.

Section FallbacksExample.

Import LocalStorageManager PharmacyAPI Terms.

(** C3, as the specification has it, fails: with the network down,
    [updateStock] on the id of a medicine that only the hosted store
    holds throws to its caller. *)
Lemma fallback_counterexample :
  Server.select_med Fixtures.hosted (Server.m_id Fixtures.paracetamol)
  = inl Fixtures.paracetamol /\
  positive_integer 1 /\
  System.updateStock (rt := Fixtures.integers) Fixtures.env1 Fixtures.amb1 System.Down
    (Server.m_id Fixtures.paracetamol) 1 "subtract" Fixtures.world1
  = (Fixtures.world1, Thrown "Medicine not found").
Proof.
  split; [reflexivity|]. split; [now exists 1%positive|]. reflexivity.
Qed.

(** A store on which [getRecentActivity] throws is one that the client
    can write: the fallback of [createSale] records the sale it is given,
    whose [total] may be a string. *)
Example recorded_total_throws :
  let data :=
    fst (createSale Fixtures.amb1 (Thrown "Failed to fetch")
           {[ "total" := VStr "12.50" ]} Fixtures.sample) in
  throws GetRecentActivity Fixtures.sample = false /\
  throws GetRecentActivity data = true /\
  perform (rt := Fixtures.integers) Fixtures.amb1 (Thrown "Failed to fetch")
    GetRecentActivity data
  = (data, Thrown "sale.total?.toFixed is not a function").
Proof. cbv zeta. repeat split; vm_compute; reflexivity. Qed.

Lemma fallback_returns_or_throws_witness :
  throws (UpdateStock "med_004" 10 "subtract") Fixtures.sample = false /\
  throws (UpdateStock "med_404" 10 "subtract") Fixtures.sample = true /\
  throws (VerifyPrescription "presc_001" None) Fixtures.sample = true /\
  throws GetDashboardStats Fixtures.sample = false /\
  (exists data' v,
     perform (rt := Fixtures.integers) Fixtures.amb1 (Thrown "Failed to fetch")
       (UpdateStock "med_004" 10 "subtract") Fixtures.sample
     = (data', Returned v)) /\
  perform (rt := Fixtures.integers) Fixtures.amb1 (Thrown "Failed to fetch")
    (UpdateStock "med_404" 10 "subtract") Fixtures.sample
  = (Fixtures.sample, Thrown "Medicine not found") /\
  (exists message,
     perform (rt := Fixtures.integers) Fixtures.amb1 (Thrown "Failed to fetch")
       (VerifyPrescription "presc_001" None) Fixtures.sample
     = (Fixtures.sample, Thrown message)) /\
  (exists data' v,
     perform (rt := Fixtures.integers) Fixtures.amb1 (Thrown "Failed to fetch")
       GetDashboardStats Fixtures.sample
     = (data', Returned v)).
Proof.
  split; [reflexivity|]. split; [reflexivity|]. split; [reflexivity|].
  split; [vm_compute; reflexivity|].
  split; [|split; [|split]].
  - apply (fallback_returns_or_throws (rt := Fixtures.integers)
             Fixtures.amb1 "Failed to fetch" (UpdateStock "med_004" 10 "subtract")
             Fixtures.sample). reflexivity.
  - apply (fallback_returns_or_throws (rt := Fixtures.integers)
             Fixtures.amb1 "Failed to fetch" (UpdateStock "med_404" 10 "subtract")
             Fixtures.sample). reflexivity.
  - apply (fallback_returns_or_throws (rt := Fixtures.integers)
             Fixtures.amb1 "Failed to fetch" (VerifyPrescription "presc_001" None)
             Fixtures.sample). reflexivity.
  - apply (fallback_returns_or_throws (rt := Fixtures.integers)
             Fixtures.amb1 "Failed to fetch" GetDashboardStats
             Fixtures.sample). vm_compute. reflexivity.
Defined.

End FallbacksExample.

(** ** The regular expressions of the validators *)

Section Expressions.

Import Patterns Validator.

Lemma append_cons (c : ascii) (s1 s2 : string) :
  String c s1 ++ s2 = String c (s1 ++ s2).
Proof. reflexivity. Qed.

Lemma append_nil_l (s : string) : "" ++ s = s.
Proof. reflexivity. Qed.

Lemma append_nil_r (s : string) : s ++ "" = s.
Proof.
  induction s as [|c s IH]; [reflexivity|]. now rewrite append_cons, IH.
Qed.

Lemma append_assoc (s1 s2 s3 : string) : (s1 ++ s2) ++ s3 = s1 ++ (s2 ++ s3).
Proof.
  induction s1 as [|c s1 IH]; [reflexivity|]. now rewrite !append_cons, IH.
Qed.

Lemma append_eq_nil (s1 s2 : string) : s1 ++ s2 = "" -> s1 = "" /\ s2 = "".
Proof.
  destruct s1; [rewrite append_nil_l; auto | rewrite append_cons; discriminate].
Qed.

Lemma matches_void_inv (s : string) : ~ matches Void s.
Proof. intros H. inversion H. Qed.

Lemma matches_eps_inv (s : string) : matches Eps s -> s = "".
Proof. intros H. now inversion H. Qed.

Lemma matches_class_inv (p : ascii -> bool) (s : string) :
  matches (Class p) s -> exists c, s = String c "" /\ p c = true.
Proof. intros H. inversion H; subst. eauto. Qed.

Lemma matches_seq_inv (r1 r2 : regex) (s : string) :
  matches (Seq r1 r2) s ->
  exists s1 s2, s = s1 ++ s2 /\ matches r1 s1 /\ matches r2 s2.
Proof. intros H. inversion H; subst. eauto. Qed.

Lemma matches_alt_inv (r1 r2 : regex) (s : string) :
  matches (Alt r1 r2) s -> matches r1 s \/ matches r2 s.
Proof. intros H. inversion H; subst; auto. Qed.

Lemma nullable_matches (r : regex) : nullable r = true <-> matches r "".
Proof.
  induction r as [| | p | r1 IH1 r2 IH2 | r1 IH1 r2 IH2 | r IH]; simpl.
  - split; [discriminate | intros H; now apply matches_void_inv in H].
  - split; [intros _; constructor | reflexivity].
  - split; [discriminate|].
    intros H. apply matches_class_inv in H as (c & E & _). discriminate.
  - rewrite andb_true_iff, IH1, IH2. split.
    + intros [H1 H2]. exact (matches_seq _ _ "" "" H1 H2).
    + intros H. apply matches_seq_inv in H as (s1 & s2 & E & H1 & H2).
      symmetry in E. apply append_eq_nil in E as [-> ->]. auto.
  - rewrite orb_true_iff, IH1, IH2. split.
    + intros [H|H]; [now apply matches_alt_l | now apply matches_alt_r].
    + apply matches_alt_inv.
  - split; [intros _; constructor | reflexivity].
Qed.

(** A string of the iteration that starts with [c] starts with a string
    of the body that starts with [c]. *)
Lemma matches_star_cons (r : regex) (c : ascii) (s : string) :
  matches (Star r) (String c s) ->
  exists s1 s2, s = s1 ++ s2 /\ matches r (String c s1) /\ matches (Star r) s2.
Proof.
  intros H. remember (Star r) as r' eqn:Er. remember (String c s) as t eqn:Et.
  revert c s Et.
  induction H as [| | | | | |r0 s1 s2 H1 _ H2 IH2]; intros c0 s0 Et; try discriminate.
  injection Er as ->.
  destruct s1 as [|c1 s1].
  - rewrite append_nil_l in Et. apply IH2; [reflexivity | exact Et].
  - rewrite append_cons in Et. injection Et as <- <-. exists s1, s2. auto.
Qed.

Lemma matches_seq_cons (r1 r2 : regex) (c : ascii) (s : string) :
  matches (Seq r1 r2) (String c s) ->
  (exists s1 s2, s = s1 ++ s2 /\ matches r1 (String c s1) /\ matches r2 s2) \/
  (matches r1 "" /\ matches r2 (String c s)).
Proof.
  intros H. apply matches_seq_inv in H as (s1 & s2 & E & H1 & H2).
  destruct s1 as [|c1 s1].
  - rewrite append_nil_l in E. right. subst. auto.
  - rewrite append_cons in E. injection E as -> ->. left. exists s1, s2. auto.
Qed.

Lemma deriv_matches (r : regex) (c : ascii) (s : string) :
  matches (deriv c r) s <-> matches r (String c s).
Proof.
  revert s. induction r as [| | p | r1 IH1 r2 IH2 | r1 IH1 r2 IH2 | r IH]; intros s; simpl.
  - split; intros H; now apply matches_void_inv in H.
  - split; intros H; [now apply matches_void_inv in H|].
    apply matches_eps_inv in H. discriminate.
  - destruct (p c) eqn:Hp; split; intros H.
    + apply matches_eps_inv in H as ->. now constructor.
    + apply matches_class_inv in H as (c' & [= <- ->] & _). constructor.
    + now apply matches_void_inv in H.
    + apply matches_class_inv in H as (c' & [= <- ->] & Hc). congruence.
  - destruct (nullable r1) eqn:Hn.
    + split; intros H.
      * apply matches_alt_inv in H as [H|H].
        -- apply matches_seq_inv in H as (s1 & s2 & -> & H1 & H2).
           apply IH1 in H1. exact (matches_seq r1 r2 (String c s1) s2 H1 H2).
        -- apply IH2 in H. apply nullable_matches in Hn.
           exact (matches_seq r1 r2 "" (String c s) Hn H).
      * apply matches_seq_cons in H as [(s1 & s2 & -> & H1 & H2) | [H1 H2]].
        -- apply matches_alt_l. apply matches_seq; [now apply IH1 | exact H2].
        -- apply matches_alt_r. now apply IH2.
    + split; intros H.
      * apply matches_seq_inv in H as (s1 & s2 & -> & H1 & H2).
        apply IH1 in H1. exact (matches_seq r1 r2 (String c s1) s2 H1 H2).
      * apply matches_seq_cons in H as [(s1 & s2 & -> & H1 & H2) | [H1 H2]].
        -- apply matches_seq; [now apply IH1 | exact H2].
        -- apply nullable_matches in H1. congruence.
  - split; intros H; apply matches_alt_inv in H as [H|H];
      first [ apply matches_alt_l; now apply IH1 | apply matches_alt_r; now apply IH2 ].
  - split; intros H.
    + apply matches_seq_inv in H as (s1 & s2 & -> & H1 & H2).
      apply IH in H1. exact (matches_star_app r (String c s1) s2 H1 H2).
    + apply matches_star_cons in H as (s1 & s2 & -> & H1 & H2).
      apply matches_seq; [now apply IH | exact H2].
Qed.

(** [test] decides the language of the expression. *)
Lemma test_matches (r : regex) (s : string) : test r s = true <-> matches r s.
Proof.
  revert r. induction s as [|c s IH]; intros r; simpl.
  - apply nullable_matches.
  - rewrite IH. apply deriv_matches.
Qed.

Lemma matches_star_class (p : ascii -> bool) (s : string) :
  matches (Star (Class p)) s <-> every p s = true.
Proof.
  split.
  - induction s as [|c s IH]; intros H; [reflexivity|].
    apply matches_star_cons in H as (s1 & s2 & -> & H1 & H2).
    apply matches_class_inv in H1 as (c' & [= <- ->] & Hc).
    rewrite append_nil_l in *. simpl. rewrite Hc. now apply IH.
  - induction s as [|c s IH]; intros H; [constructor|].
    simpl in H. apply andb_true_iff in H as [Hc Hs].
    exact (matches_star_app (Class p) (String c "") s (matches_class p c Hc) (IH Hs)).
Qed.

Lemma matches_plus_class (p : ascii -> bool) (s : string) :
  matches (Plus (Class p)) s <-> s <> "" /\ every p s = true.
Proof.
  unfold Plus. split.
  - intros H. apply matches_seq_inv in H as (s1 & s2 & -> & H1 & H2).
    apply matches_class_inv in H1 as (c & -> & Hc).
    apply matches_star_class in H2.
    rewrite append_cons, append_nil_l. simpl. rewrite Hc, H2. split; [discriminate|reflexivity].
  - intros [Hne H]. destruct s as [|c s]; [congruence|].
    simpl in H. apply andb_true_iff in H as [Hc Hs].
    apply (matches_seq (Class p) (Star (Class p)) (String c "") s);
      [now constructor | now apply matches_star_class].
Qed.

Lemma matches_upto_class (n : nat) (p : ascii -> bool) (s : string) :
  matches (UpTo n (Class p)) s <-> every p s = true /\ (String.length s <= n)%nat.
Proof.
  revert s. induction n as [|n IH]; intros s; simpl.
  - split.
    + intros H. apply matches_eps_inv in H as ->. split; [reflexivity | simpl; lia].
    + intros [_ H]. destruct s; [constructor | simpl in H; lia].
  - unfold Opt. split.
    + intros H. apply matches_alt_inv in H as [H|H].
      * apply matches_eps_inv in H as ->. split; [reflexivity | simpl; lia].
      * apply matches_seq_inv in H as (s1 & s2 & -> & H1 & H2).
        apply matches_class_inv in H1 as (c & -> & Hc).
        apply IH in H2 as [H2 Hl].
        rewrite append_cons, append_nil_l. simpl. rewrite Hc, H2. split; [reflexivity|lia].
    + intros [H Hl]. destruct s as [|c s]; [apply matches_alt_l; constructor|].
      simpl in H, Hl. apply andb_true_iff in H as [Hc Hs].
      apply matches_alt_r.
      apply (matches_seq (Class p) (UpTo n (Class p)) (String c "") s);
        [now constructor | apply IH; split; [assumption | lia]].
Qed.

Lemma matches_char (a : ascii) (s : string) :
  matches (Class (is_char a)) s <-> s = String a "".
Proof.
  split.
  - intros H. apply matches_class_inv in H as (c & -> & Hc).
    unfold is_char in Hc. apply Ascii.eqb_eq in Hc. now subst.
  - intros ->. constructor. unfold is_char. apply Ascii.eqb_refl.
Qed.

(** X1. [validateEmail] accepts the strings [a@b.c] in which [a], [b] and
    [c] are not empty and hold no white space and no at sign, and no
    other string. *)
Theorem validateEmail_shape (email : string) :
  validateEmail email = true <->
  exists a b c,
    email = a ++ "@" ++ b ++ "." ++ c /\
    a <> "" /\ b <> "" /\ c <> "" /\
    plain a = true /\ plain b = true /\ plain c = true.
Proof.
  unfold validateEmail, emailRegex, plain. rewrite test_matches. split.
  - intros H.
    apply matches_seq_inv in H as (a & t1 & -> & Ha & H).
    apply matches_seq_inv in H as (at_ & t2 & -> & Hat & H).
    apply matches_seq_inv in H as (b & t3 & -> & Hb & H).
    apply matches_seq_inv in H as (dot & c & -> & Hdot & Hc).
    apply matches_char in Hat as ->. apply matches_char in Hdot as ->.
    apply matches_plus_class in Ha as [Ha1 Ha2].
    apply matches_plus_class in Hb as [Hb1 Hb2].
    apply matches_plus_class in Hc as [Hc1 Hc2].
    exists a, b, c. auto 10.
  - intros (a & b & c & -> & Ha & Hb & Hc & Pa & Pb & Pc).
    apply matches_seq; [now apply matches_plus_class|].
    apply (matches_seq _ _ "@"); [now apply matches_char|].
    apply matches_seq; [now apply matches_plus_class|].
    apply (matches_seq _ _ "."); [now apply matches_char|].
    now apply matches_plus_class.
Qed.

(** X2. [validatePhone] accepts a string when what is left of it without
    white space, dashes and parentheses is an optional plus sign, a digit
    from 1 to 9 and at most fifteen digits, and in no other case. *)
Theorem validatePhone_shape (phone : string) :
  validatePhone phone = true <->
  exists sign d rest,
    remove_class phone_noise phone = sign ++ String d rest /\
    (sign = "" \/ sign = "+") /\
    leading_digit d = true /\ every digit rest = true /\
    (String.length rest <= 15)%nat.
Proof.
  unfold validatePhone, phoneRegex. rewrite test_matches.
  generalize (remove_class phone_noise phone). intros s. split.
  - intros H.
    apply matches_seq_inv in H as (sign & t & -> & Hs & H).
    apply matches_seq_inv in H as (d & rest & -> & Hd & Hr).
    apply matches_class_inv in Hd as (c & -> & Hc).
    apply matches_upto_class in Hr as [Hr Hl].
    exists sign, c, rest. rewrite append_cons, append_nil_l.
    split; [reflexivity|]. split; [|auto].
    apply matches_alt_inv in Hs as [Hs|Hs].
    + left. now apply matches_eps_inv.
    + right. now apply matches_char.
  - intros (sign & d & rest & -> & Hs & Hd & Hr & Hl).
    apply matches_seq.
    + destruct Hs as [-> | ->];
        [apply matches_alt_l; constructor | apply matches_alt_r; now apply matches_char].
    + apply (matches_seq _ _ (String d "") rest);
        [now constructor | now apply matches_upto_class].
Qed.

End Expressions.

(** ** What the validators accept *)

Section Acceptance.

Import Validator Accepted Patterns.

Lemma push_if_nil (c : bool) (msg : string) (errors : list string) :
  push_if c msg errors = [] <-> c = false /\ errors = [].
Proof.
  unfold push_if. destruct c.
  - split; [|intros [H _]; discriminate].
    intros H. apply app_eq_nil in H as [_ H]. discriminate.
  - tauto.
Qed.

Lemma valid_iff_no_error (errors : list string) :
  (List.length errors =? 0)%nat = true <-> errors = [].
Proof. destruct errors; simpl; split; (reflexivity || discriminate). Qed.

Lemma missing_or_short_false (n : nat) (s : option string) :
  (1 <= n)%nat -> missing_or_short n s = false <-> required_text n s.
Proof.
  intros Hn. unfold missing_or_short, required_text. destruct s as [t|].
  - rewrite orb_false_iff, Nat.ltb_ge. split.
    + intros [_ H]. now exists t.
    + intros (t' & [= <-] & H). split; [|exact H].
      destruct t; [simpl in H; lia | reflexivity].
  - split; [discriminate | intros (t & H & _); discriminate].
Qed.

Lemma present_and_short_false (n : nat) (s : option string) :
  present_and_short n s = false <-> optional_text n s.
Proof.
  unfold present_and_short, optional_text. destruct s as [t|].
  - rewrite andb_false_iff, negb_false_iff, Nat.ltb_ge. split.
    + intros [H|H] t' [= <-]; [left; now destruct t | now right].
    + intros H. destruct (H t eq_refl) as [->|H']; [now left | now right].
  - split; [intros _ t H; discriminate | reflexivity].
Qed.

Lemma Qltb_zero_false (q : Q) : Qltb q 0 = false <-> (0 <= q)%Q.
Proof. unfold Qltb. now rewrite negb_false_iff, Qle_bool_iff. Qed.

Lemma bad_count_false (x : option Q) : bad_count x = false <-> Accepted.count x.
Proof.
  unfold bad_count, Accepted.count. destruct x as [q|].
  - rewrite orb_false_iff, negb_false_iff, Qltb_zero_false, Number_isInteger_spec.
    split; [intros H q' [= <-]; exact H | intros H; exact (H q eq_refl)].
  - split; [intros _ q H; discriminate | reflexivity].
Qed.

Lemma bad_amount_false (x : option Q) : bad_amount x = false <-> amount x.
Proof.
  unfold bad_amount, amount. destruct x as [q|].
  - rewrite Qltb_zero_false.
    split; [intros H q' [= <-]; exact H | intros H; exact (H q eq_refl)].
  - split; [intros _ q H; discriminate | reflexivity].
Qed.

Lemma phone_check_false (s : option string) :
  match s with
  | None => false
  | Some p => negb (falsy_str p) && negb (validatePhone p)
  end = false <-> Accepted.phone s.
Proof.
  unfold Accepted.phone. destruct s as [p|].
  - rewrite andb_false_iff, !negb_false_iff. split.
    + intros [H|H] t [= <-]; [left; now destruct p | now right].
    + intros H. destruct (H p eq_refl) as [->|H']; [now left | now right].
  - split; [intros _ t H; discriminate | reflexivity].
Qed.

Lemma payment_check_false (s : option string) :
  match s with
  | None => false
  | Some m => negb (falsy_str m) && negb (existsb (String.eqb m) paymentMethods)
  end = false <-> payment s.
Proof.
  unfold payment. destruct s as [m|].
  - rewrite andb_false_iff, !negb_false_iff. split.
    + intros [H|H] t [= <-]; [left; now destruct m|right].
      apply existsb_exists in H as (x & Hx & Heq).
      apply String.eqb_eq in Heq. now subst.
    + intros H. destruct (H m eq_refl) as [->|H']; [now left | right].
      apply existsb_exists. exists m. split; [exact H' | apply String.eqb_refl].
  - split; [intros _ t H; discriminate | reflexivity].
Qed.

Lemma item_checks_false (item : SaleItem) :
  falsy_str (si_medicineId item) = false /\
  (falsy_str (si_name item) || (String.length (trim (si_name item)) <? 2)%nat) = false /\
  (falsy_num (si_quantity item) || Qleb (si_quantity item) 0
   || negb (Number_isInteger (si_quantity item))) = false /\
  (falsy_num (si_price item) || Qleb (si_price item) 0) = false
  <-> line item.
Proof.
  unfold line.
  assert (Hid : falsy_str (si_medicineId item) = false <-> si_medicineId item <> "").
  { destruct (si_medicineId item); simpl; split; congruence. }
  assert (Hname : (falsy_str (si_name item)
                   || (String.length (trim (si_name item)) <? 2)%nat) = false
                  <-> (2 <= String.length (trim (si_name item)))%nat).
  { rewrite orb_false_iff, Nat.ltb_ge. split; [tauto|].
    intros H. split; [|exact H]. destruct (si_name item); [simpl in H; lia | reflexivity]. }
  assert (Hqty : (falsy_num (si_quantity item) || Qleb (si_quantity item) 0
                  || negb (Number_isInteger (si_quantity item))) = false
                 <-> Terms.positive_integer (si_quantity item)).
  { rewrite <- accepted_quantity_spec. unfold Terms.accepted_quantity.
    now rewrite negb_true_iff. }
  assert (Hprice : (falsy_num (si_price item) || Qleb (si_price item) 0) = false
                   <-> (0 < si_price item)%Q).
  { unfold falsy_num, Qleb. rewrite orb_false_iff, <- !not_true_iff_false.
    rewrite Qeq_bool_iff, Qle_bool_iff. split.
    - intros [_ H]. now apply Qnot_le_lt.
    - intros H. split; intros H'; [rewrite H' in H|]; lra. }
  rewrite Hid, Hname, Hqty, Hprice. tauto.
Qed.

Lemma each_item_nil (l : list SaleItem) (index : nat) (errors : list string) :
  each_item index l errors = [] <-> errors = [] /\ Forall line l.
Proof.
  revert index errors. induction l as [|item rest IH]; intros index errors.
  - simpl. split; [intros ->; split; [reflexivity | constructor] | tauto].
  - cbn [each_item]. cbv zeta. rewrite IH, !push_if_nil, Forall_cons.
    rewrite <- item_checks_false. tauto.
Qed.

(** X3. The sales that [validateSale] accepts: a customer name and a phone
    that may be missing; at least one line, each with a medicine, a name,
    a quantity that is a positive integer and a price above zero; a total
    that is not negative and one of the four ways to pay. *)
Theorem validateSale_accepts (data : SaleData) :
  isValid (validateSale data) = true <->
  optional_text 2 (sd_customerName data) /\
  Accepted.phone (sd_customerPhone data) /\
  (exists items, sd_items data = Some items /\ items <> [] /\ Forall line items) /\
  amount (sd_total data) /\
  payment (sd_paymentMethod data).
Proof.
  unfold validateSale. cbn [isValid]. rewrite valid_iff_no_error.
  rewrite !push_if_nil, payment_check_false, bad_amount_false.
  rewrite <- present_and_short_false, <- phone_check_false.
  destruct (sd_items data) as [items|].
  - rewrite each_item_nil, !push_if_nil, Nat.eqb_neq. split.
    + intros (Hp & Ha & (Hn & Hph & Hs & _) & Hl). repeat split; try assumption.
      exists items. repeat split; [|exact Hl]. intros ->. now apply Hn.
    + intros (Hs & Hph & (items' & [= <-] & Hn & Hl) & Ha & Hp).
      repeat split; try assumption. destruct items; [congruence | discriminate].
  - rewrite !push_if_nil. split.
    + intros (_ & _ & H & _). discriminate.
    + intros (_ & _ & (items & H & _) & _). discriminate.
Qed.

Lemma each_medicine_nil (l : list string) (index : nat) (errors : list string) :
  each_medicine index l errors = [] <->
  errors = [] /\ Forall (fun m => (2 <= String.length (trim m))%nat) l.
Proof.
  revert index errors. induction l as [|m rest IH]; intros index errors.
  - simpl. split; [intros ->; split; [reflexivity | constructor] | tauto].
  - cbn [each_medicine]. rewrite IH, push_if_nil, Forall_cons.
    rewrite orb_false_iff, Nat.ltb_ge. split.
    + tauto.
    + intros (-> & H & Hr). repeat split; try assumption.
      destruct m; [simpl in H; lia | reflexivity].
Qed.

Lemma age_check_false (x : option Q) :
  match x with
  | None => false
  | Some a => Qltb a 0 || Qltb 150 a || negb (Number_isInteger a)
  end = false <-> age x.
Proof.
  unfold age. destruct x as [q|].
  - rewrite !orb_false_iff, negb_false_iff, Qltb_zero_false, Number_isInteger_spec.
    assert (H150 : Qltb 150 q = false <-> (q <= 150)%Q).
    { unfold Qltb. now rewrite negb_false_iff, Qle_bool_iff. }
    rewrite H150. split.
    + intros [[H1 H2] H3] q' [= <-]. tauto.
    + intros H. destruct (H q eq_refl) as (H1 & H2 & H3). tauto.
  - split; [intros _ q H; discriminate | reflexivity].
Qed.

(** X4. The prescriptions that [validatePrescription] accepts: a patient and
    a doctor named with two characters at least, an age from 0 to 150 if
    there is one, and at least one medicine, each named with two
    characters at least. *)
Theorem validatePrescription_accepts (data : PrescriptionData) :
  isValid (validatePrescription data) = true <->
  required_text 2 (pd_patientName data) /\
  required_text 2 (pd_doctorName data) /\
  age (pd_patientAge data) /\
  exists l, pd_medicines data = Some l /\ l <> [] /\
            Forall (fun m => (2 <= String.length (trim m))%nat) l.
Proof.
  unfold validatePrescription. cbn [isValid]. rewrite valid_iff_no_error.
  rewrite <- age_check_false, <- !missing_or_short_false by lia.
  destruct (pd_medicines data) as [l|].
  - rewrite each_medicine_nil, !push_if_nil, Nat.eqb_neq. split.
    + intros ((Hn & Ha & Hd & Hp & _) & Hl). repeat split; try assumption.
      exists l. repeat split; [|exact Hl]. intros ->. now apply Hn.
    + intros (Hp & Hd & Ha & (l' & [= <-] & Hn & Hl)).
      repeat split; try assumption. destruct l; [congruence | discriminate].
  - rewrite !push_if_nil. split.
    + intros (H & _). discriminate.
    + intros (_ & _ & _ & (l & H & _)). discriminate.
Qed.

End Acceptance.

Section AcceptanceWithDates.

Context {rt : Runtime}.

Import Validator Accepted Patterns.

Lemma present_and_undated_false (s : option string) :
  present_and_undated s = false <-> dated s.
Proof.
  unfold present_and_undated, dated, validateDate. destruct s as [d|].
  - rewrite andb_false_iff, !negb_false_iff. split.
    + intros [H|H] d' [= <-]; [left; now destruct d | right].
      destruct (Date_parse d) as [t|]; [now exists t | discriminate].
    + intros H. destruct (H d eq_refl) as [->|[t ->]]; [now left | now right].
  - split; [intros _ d H; discriminate | reflexivity].
Qed.

Lemma dates_false (now : Z) (s : option string) :
  present_and_undated s = false /\ present_and_past now s = false <->
  in_future now s.
Proof.
  unfold present_and_undated, present_and_past, in_future, validateDate.
  destruct s as [d|].
  - rewrite !andb_false_iff, !negb_false_iff. split.
    + intros [H1 H2] d' [= <-]. destruct d as [|c d]; [now left | right].
      destruct H1 as [H1|H1]; [discriminate|]. destruct H2 as [H2|H2]; [discriminate|].
      destruct (Date_parse (String c d)) as [t|]; [|discriminate].
      exists t. split; [reflexivity | lia].
    + intros H. destruct (H d eq_refl) as [->|(t & -> & Ht)].
      * split; now left.
      * split; right; [reflexivity | lia].
  - split; [intros _ d H; discriminate | tauto].
Qed.

(** X5. The medicines that [validateMedicine] accepts: name, category and
    manufacturer of two characters at least; stock and its two bounds
    integers that are not negative, the lower bound below the upper one;
    a price that is not negative; an expiry date that reads as a date
    after now; a batch number of three characters at least.  All but the
    first three may be missing. *)
Theorem validateMedicine_accepts (now : Z) (data : MedicineData) :
  isValid (validateMedicine now data) = true <->
  required_text 2 (md_name data) /\
  required_text 2 (md_category data) /\
  required_text 2 (md_manufacturer data) /\
  Accepted.count (md_stock data) /\
  Accepted.count (md_minStock data) /\
  Accepted.count (md_maxStock data) /\
  (forall lo hi, md_minStock data = Some lo -> md_maxStock data = Some hi ->
                 (lo < hi)%Q) /\
  amount (md_price data) /\
  in_future now (md_expiryDate data) /\
  optional_text 3 (md_batchNumber data).
Proof.
  unfold validateMedicine. cbn [isValid]. rewrite valid_iff_no_error.
  rewrite !push_if_nil.
  rewrite <- dates_false, <- present_and_short_false, <- bad_amount_false,
    <- !bad_count_false, <- !missing_or_short_false by lia.
  assert (Hb : match md_minStock data, md_maxStock data with
               | Some lo, Some hi => Qgeb lo hi
               | _, _ => false
               end = false <->
               forall lo hi, md_minStock data = Some lo ->
                             md_maxStock data = Some hi -> (lo < hi)%Q).
  { destruct (md_minStock data) as [lo|], (md_maxStock data) as [hi|];
      try (split; [intros _ ? ? ? ?; discriminate | reflexivity]).
    unfold Qgeb. rewrite <- not_true_iff_false, Qle_bool_iff. split.
    - intros H lo' hi' [= <-] [= <-]. now apply Qnot_le_lt.
    - intros H. specialize (H lo hi eq_refl eq_refl). lra. }
  rewrite <- Hb. tauto.
Qed.

(** X6. The employees that [validateEmployee] accepts: name, role and
    department of two characters at least, an e-mail address that
    [validateEmail] accepts, and, when they are there, a phone number
    that [validatePhone] accepts, a salary that is not negative and a
    hire date that reads as a date. *)
Theorem validateEmployee_accepts (data : EmployeeData) :
  isValid (validateEmployee data) = true <->
  required_text 2 (ed_name data) /\
  (exists e, ed_email data = Some e /\ validateEmail e = true) /\
  Accepted.phone (ed_phone data) /\
  required_text 2 (ed_role data) /\
  required_text 2 (ed_department data) /\
  amount (ed_salary data) /\
  dated (ed_hireDate data).
Proof.
  unfold validateEmployee. cbn [isValid]. rewrite valid_iff_no_error.
  rewrite !push_if_nil.
  rewrite <- present_and_undated_false, <- bad_amount_false, <- phone_check_false,
    <- !missing_or_short_false by lia.
  assert (He : match ed_email data with
               | None => true
               | Some e => falsy_str e || negb (validateEmail e)
               end = false <->
               exists e, ed_email data = Some e /\ validateEmail e = true).
  { destruct (ed_email data) as [e|].
    - rewrite orb_false_iff, negb_false_iff. split.
      + intros [_ H]. now exists e.
      + intros (e' & [= <-] & H). split; [|exact H].
        destruct e; [discriminate H | reflexivity].
    - split; [discriminate | intros (e & H & _); discriminate]. }
  rewrite <- He. tauto.
Qed.

End AcceptanceWithDates.

(** ** The sanitizers *)

Section Sanitizing.

Import Validator Sanitizer Patterns.

Lemma remove_class_every (p : ascii -> bool) (s : string) :
  every (fun c => negb (p c)) (remove_class p s) = true.
Proof.
  induction s as [|c s IH]; [reflexivity|].
  simpl. destruct (p c) eqn:Hc; [exact IH|].
  simpl. now rewrite Hc, IH.
Qed.

Lemma remove_class_length (p : ascii -> bool) (s : string) :
  (String.length (remove_class p s) <= String.length s)%nat.
Proof.
  induction s as [|c s IH]; [reflexivity|].
  simpl. destruct (p c); simpl; lia.
Qed.

Lemma remove_class_fixed (p : ascii -> bool) (s : string) :
  remove_class p s = s <-> every (fun c => negb (p c)) s = true.
Proof.
  induction s as [|c s IH]; [simpl; tauto|].
  simpl. destruct (p c) eqn:Hc; simpl.
  - split; [|discriminate]. intros H.
    pose proof (remove_class_length p s) as Hl. rewrite H in Hl. simpl in Hl. lia.
  - rewrite <- IH. split; [now intros [= ->] | now intros ->].
Qed.

Lemma trimStart_length (s : string) :
  (String.length (trimStart s) <= String.length s)%nat.
Proof.
  induction s as [|c s IH]; [reflexivity|].
  simpl. destruct (is_space c); simpl; lia.
Qed.

Lemma trimEnd_length (s : string) :
  (String.length (trimEnd s) <= String.length s)%nat.
Proof.
  induction s as [|c s IH]; [reflexivity|].
  simpl. destruct (trimEnd s) as [|c' r].
  - destruct (is_space c); simpl; lia.
  - simpl in *. lia.
Qed.

Lemma trimStart_same_length (s : string) :
  String.length (trimStart s) = String.length s -> trimStart s = s.
Proof.
  destruct s as [|c s]; [reflexivity|].
  simpl. destruct (is_space c); [|reflexivity].
  intros H. pose proof (trimStart_length s). lia.
Qed.

Lemma trimEnd_same_length (s : string) :
  String.length (trimEnd s) = String.length s -> trimEnd s = s.
Proof.
  induction s as [|c s IH]; [reflexivity|].
  simpl. pose proof (trimEnd_length s) as Hl.
  destruct (trimEnd s) as [|c' r] eqn:He.
  - destruct (is_space c); simpl; intros H.
    + lia.
    + destruct s; [reflexivity | simpl in H; lia].
  - simpl. intros H. rewrite <- IH; [reflexivity | simpl; lia].
Qed.

Lemma trim_length (s : string) :
  (String.length (trim s) <= String.length s)%nat.
Proof.
  unfold trim. pose proof (trimEnd_length (trimStart s)).
  pose proof (trimStart_length s). lia.
Qed.

Lemma trim_same_length (s : string) :
  String.length (trim s) = String.length s -> trim s = s.
Proof.
  unfold trim. intros H.
  pose proof (trimEnd_length (trimStart s)) as H1.
  pose proof (trimStart_length s) as H2.
  assert (Hs : trimStart s = s) by (apply trimStart_same_length; lia).
  rewrite Hs in *. now apply trimEnd_same_length.
Qed.

(** X7. [sanitizeString] returns a text without any of the four characters,
    never a longer one, and returns its input exactly when that has
    neither white space around it nor one of the four characters. *)
Theorem sanitizeString_cleans (input : string) :
  clean (sanitizeString input) = true /\
  (String.length (sanitizeString input) <= String.length input)%nat /\
  (sanitizeString input = input <-> trim input = input /\ clean input = true).
Proof.
  unfold sanitizeString, clean. split; [apply remove_class_every|].
  pose proof (remove_class_length markup (trim input)) as H1.
  pose proof (trim_length input) as H2.
  split; [lia|]. split.
  - intros H.
    assert (Ht : trim input = input).
    { apply trim_same_length.
      assert (String.length (remove_class markup (trim input)) = String.length input)
        by now rewrite H.
      lia. }
    split; [exact Ht|]. rewrite Ht in H. now apply remove_class_fixed.
  - intros [Ht Hc]. rewrite Ht. now apply remove_class_fixed.
Qed.

Lemma sanitized_clean (s : option string) : clean_field (sanitized s).
Proof.
  destruct s as [[|c t]|]; simpl; try reflexivity.
  unfold clean, sanitizeString. apply remove_class_every.
Qed.

Lemma sanitized_None (s : option string) : sanitized s = None <-> s = None.
Proof. destruct s as [[|c t]|]; simpl; split; congruence. Qed.

(** X8. [sanitizeMedicine] leaves no text field with one of the four
    characters, makes no field appear or disappear, and leaves the
    numbers and the expiry date as they are. *)
Theorem sanitizeMedicine_cleans (data : MedicineData) :
  Forall (fun field =>
            clean_field (field (sanitizeMedicine data)) /\
            (field (sanitizeMedicine data) = None <-> field data = None))
         text_fields /\
  md_stock (sanitizeMedicine data) = md_stock data /\
  md_minStock (sanitizeMedicine data) = md_minStock data /\
  md_maxStock (sanitizeMedicine data) = md_maxStock data /\
  md_price (sanitizeMedicine data) = md_price data /\
  md_expiryDate (sanitizeMedicine data) = md_expiryDate data.
Proof.
  split; [|repeat split; reflexivity].
  unfold text_fields.
  repeat (apply Forall_cons; split;
          [split; [apply sanitized_clean | apply sanitized_None]|]).
  constructor.
Qed.

End Sanitizing.

(** ** The local store: how its operations compose *)

Section LocalStore.

Import LocalStorageManager Terms.

Lemma has_id_inj (id id' : string) (item : obj) :
  has_id id item = true -> has_id id' item = true -> id = id'.
Proof.
  unfold has_id. destruct (item !! "id") as [[| | | |s| |]|]; try discriminate.
  intros H1 H2. apply String.eqb_eq in H1, H2. congruence.
Qed.

Lemma filter_absent (id : string) (l : list obj) :
  absent id l = true -> List.filter (fun item => negb (has_id id item)) l = l.
Proof.
  unfold absent. induction l as [|x l IH]; [reflexivity|].
  simpl. intros [Hx Hl]%andb_true_iff. rewrite Hx. f_equal. now apply IH.
Qed.

Lemma absent_filter (id : string) (l : list obj) :
  absent id (List.filter (fun item => negb (has_id id item)) l) = true.
Proof.
  unfold absent. induction l as [|x l IH]; [reflexivity|].
  simpl. destruct (has_id id x) eqn:Hx; simpl; [exact IH|].
  now rewrite Hx, IH.
Qed.

Lemma find_filter_other (id id' : string) (l : list obj) :
  id' <> id ->
  List.find (has_id id') (List.filter (fun item => negb (has_id id item)) l)
  = List.find (has_id id') l.
Proof.
  intros Hne. induction l as [|x l IH]; [reflexivity|].
  simpl. destruct (has_id id x) eqn:Hx; simpl.
  - destruct (has_id id' x) eqn:Hx'; [|exact IH].
    exfalso. apply Hne. symmetry. now apply (has_id_inj id id' x).
  - now rewrite IH.
Qed.

Lemma find_insert_other (p : obj -> bool) (l : list obj) (i : nat) (x x' : obj) :
  l !! i = Some x -> p x = false -> p x' = false ->
  List.find p (<[i := x']> l) = List.find p l.
Proof.
  revert i. induction l as [|y l IH]; intros [|i] Hi Hx Hx'; try discriminate.
  - injection Hi as ->. simpl. now rewrite Hx, Hx'.
  - simpl. destruct (p y); [reflexivity|]. now apply IH.
Qed.

(** X9. [add] and then [delete] under the id of the added record give back
    the list there was, when no record had this id before. *)
Theorem add_then_delete (data : store) (key id : string) (item : obj) :
  has_id id item = true ->
  absent id (get data key) = true ->
  delete (fst (add data key item)) key id
  = (<[key := get data key]> data, true).
Proof.
  intros Hitem Habs. unfold add, delete. cbn [fst].
  rewrite lookup_insert_eq, insert_insert_eq.
  rewrite List.filter_app, filter_absent by exact Habs.
  simpl. rewrite Hitem. simpl. now rewrite app_nil_r.
Qed.

(** X10. After [delete] no record of the list has the id, [update] under the
    id answers [null] and changes nothing, a second [delete] changes
    nothing, and the records with another id are found as before. *)
Theorem delete_then_gone (data : store) (key id : string) :
  absent id (get (fst (delete data key id)) key) = true /\
  (forall updates,
     update (fst (delete data key id)) key id updates
     = (fst (delete data key id), None)) /\
  fst (delete (fst (delete data key id)) key id) = fst (delete data key id) /\
  (forall id', id' <> id ->
     entity (fst (delete data key id)) key id' = entity data key id') /\
  (forall key', key' <> key ->
     get (fst (delete data key id)) key' = get data key').
Proof.
  assert (Habs : absent id (get (fst (delete data key id)) key) = true).
  { unfold delete. destruct (data !! key) as [arr|] eqn:Hk; cbn [fst].
    - rewrite get_insert_eq. apply absent_filter.
    - unfold get. now rewrite Hk. }
  split; [exact Habs|]. split; [|split; [|split]].
  - intros updates. now apply update_absent.
  - unfold delete at 1. destruct (fst (delete data key id) !! key) as [arr|] eqn:Hk;
      [|reflexivity].
    cbn [fst]. apply get_lookup in Hk as Hg. rewrite Hg in Habs.
    rewrite filter_absent by exact Habs.
    apply map_eq. intros k. destruct (decide (k = key)) as [->|Hne].
    + now rewrite lookup_insert_eq.
    + now rewrite lookup_insert_ne.
  - intros id' Hne. unfold entity, delete.
    destruct (data !! key) as [arr|] eqn:Hk; cbn [fst]; [|reflexivity].
    rewrite get_insert_eq, (get_lookup _ _ _ Hk). now apply find_filter_other.
  - intros key' Hne. unfold delete.
    destruct (data !! key) as [arr|] eqn:Hk; cbn [fst]; [|reflexivity].
    now apply get_insert_ne.
Qed.

(** X11. [update] with updates that carry no id leaves every record with
    another id as it was. *)
Theorem update_keeps_others (data : store) (key id id' : string) (updates : obj) :
  updates !! "id" = None ->
  id' <> id ->
  entity (fst (update data key id updates)) key id' = entity data key id'.
Proof.
  intros Hu Hne. unfold entity, update.
  destruct (data !! key) as [arr|] eqn:Hk; [|reflexivity].
  destruct (findIndex (has_id id) arr) as [i|] eqn:Hi; [|reflexivity].
  cbn [fst]. rewrite get_insert_eq, (get_lookup _ _ _ Hk).
  apply findIndex_Some in Hi as (x & Hx & Hp & _ & _). rewrite Hx. simpl.
  assert (Hx' : has_id id' x = false).
  { destruct (has_id id' x) eqn:E; [|reflexivity].
    exfalso. apply Hne. symmetry. now apply (has_id_inj id id' x). }
  apply (find_insert_other _ _ _ x); [exact Hx | exact Hx'|].
  now rewrite has_id_spread.
Qed.

End LocalStore.

Section LocalStoreExample.

Import LocalStorageManager Terms.

Lemma add_then_delete_witness :
  has_id "med_009" {["id" := VStr "med_009"]} = true /\
  absent "med_009" (get (loadFromStorage None "now") "medicines") = true /\
  delete (fst (add (loadFromStorage None "now") "medicines"
                   {["id" := VStr "med_009"]})) "medicines" "med_009"
  = (<["medicines" := get (loadFromStorage None "now") "medicines"]>
       (loadFromStorage None "now"), true).
Proof.
  split; [reflexivity|]. split; [vm_compute; reflexivity|].
  apply add_then_delete; vm_compute; reflexivity.
Defined.

Lemma update_keeps_others_witness :
  ({["stock" := VNum 1]} : obj) !! "id" = None /\
  "med_002" <> "med_001" /\
  entity (fst (update (loadFromStorage None "now") "medicines" "med_001"
                      {["stock" := VNum 1]})) "medicines" "med_002"
  = entity (loadFromStorage None "now") "medicines" "med_002".
Proof.
  split; [reflexivity|]. split; [discriminate|].
  apply update_keeps_others; [reflexivity | discriminate].
Defined.

End LocalStoreExample.

(** ** What a call of the client leaves alone *)

Section Frames.

Context {rt : Runtime}.
Variable amb : PharmacyAPI.ambient.

Import LocalStorageManager PharmacyAPI Footprint.

Lemma update_get_ne (data : store) (key key' id : string) (updates : obj) :
  key <> key' -> get (fst (update data key id updates)) key' = get data key'.
Proof.
  intros Hne. unfold update.
  destruct (data !! key) as [arr|]; [|reflexivity].
  destruct (findIndex (has_id id) arr); [|reflexivity].
  cbn [fst]. now apply get_insert_ne.
Qed.

Lemma delete_get_ne (data : store) (key key' id : string) :
  key <> key' -> get (fst (delete data key id)) key' = get data key'.
Proof.
  intros Hne. unfold delete.
  destruct (data !! key) as [arr|]; [|reflexivity].
  cbn [fst]. now apply get_insert_ne.
Qed.

Lemma update_pair (data : store) (key id : string) (updates : obj) (f : option obj -> value) :
  (let '(data', item) := update data key id updates in (data', Returned (f item)))
  = (fst (update data key id updates), Returned (f (snd (update data key id updates)))).
Proof. now destruct (update data key id updates). Qed.

Lemma delete_length (data : store) (key id : string) :
  (List.length (get (fst (delete data key id)) key) <= List.length (get data key))%nat.
Proof.
  unfold delete. destruct (data !! key) as [arr|] eqn:Hk; [|reflexivity].
  cbn [fst]. rewrite get_insert_eq, (get_lookup _ _ _ Hk).
  apply List.filter_length_le.
Qed.

Lemma perform_returned (response : value) (r : request) (data : store) :
  perform amb (Returned response) r data = (data, Returned response).
Proof. now destruct r. Qed.

(** X12. A call answered by the backend returns that answer and leaves the
    local store as it is; a call that falls back writes at most the list
    of its own kind: every other list stays as it is, and the calls that
    only read leave the store as it is. *)
Theorem perform_frame (remote : outcome value) (r : request) (data : store) :
  (forall response, remote = Returned response ->
     perform amb remote r data = (data, Returned response)) /\
  (forall key, collection r <> Some key ->
     get (fst (perform amb remote r data)) key = get data key) /\
  (collection r = None -> fst (perform amb remote r data) = data).
Proof.
  split; [intros response ->; apply perform_returned|].
  destruct remote as [response|e]; [split; intros; now rewrite perform_returned|].
  split.
  - intros key Hkey.
    destruct r; cbn [perform collection] in *;
      unfold addMedicine, updateMedicine, deleteMedicine, updateStock, createSale,
        addPrescription, updatePrescriptionStatus, verifyPrescription, addEmployee,
        createTicket, updateTicketStatus, getDashboardStats, getRecentActivity,
        getSalesReport, getPrescriptionReport, try_catch, add;
      rewrite ?update_pair; cbn [fst];
      try reflexivity;
      try (apply get_insert_ne; congruence);
      try (apply update_get_ne; congruence);
      try (apply delete_get_ne; congruence).
    + destruct (List.find (has_id id) (get data "medicines")); [|reflexivity].
      rewrite update_pair. cbn [fst]. apply update_get_ne. congruence.
    + destruct verification as [[| | | | | |]|];
        rewrite ?update_pair; cbn [fst]; try reflexivity;
        apply update_get_ne; congruence.
    + now destruct (filterM _ _).
    + now destruct (mapM _ _).
    + now destruct (filterM _ _).
    + now destruct (filterM _ _).
  - intros Hnone.
    destruct r; try discriminate Hnone; cbn [perform];
      unfold getDashboardStats, getRecentActivity, getSalesReport,
        getPrescriptionReport, try_catch;
      try reflexivity.
    + now destruct (filterM _ _).
    + now destruct (mapM _ _).
    + now destruct (filterM _ _).
    + now destruct (filterM _ _).
Qed.

(** X13. The list of a call's kind grows by one record when the call adds,
    may shrink only when it removes, and keeps its length otherwise. *)
Theorem perform_length (e : string) (r : request) (data : store) (key : string) :
  collection r = Some key ->
  let n := List.length (get data key) in
  let n' := List.length (get (fst (perform amb (Thrown e) r data)) key) in
  if adds r then n' = S n
  else if removes r then (n' <= n)%nat
  else n' = n.
Proof.
  intros Hkey. cbv zeta.
  destruct r; try discriminate Hkey; injection Hkey as <-;
    cbn [perform adds removes];
    unfold addMedicine, updateMedicine, deleteMedicine, updateStock, createSale,
      addPrescription, updatePrescriptionStatus, verifyPrescription, addEmployee,
      createTicket, updateTicketStatus, try_catch, add;
    rewrite ?update_pair; cbn [fst];
    try (rewrite get_insert_eq, length_app; simpl; lia);
    try apply update_length;
    try apply delete_length.
  - destruct (List.find (has_id id) (get data "medicines")); [|reflexivity].
    rewrite update_pair. cbn [fst]. apply update_length.
  - destruct verification as [[| | | | | |]|];
      rewrite ?update_pair; cbn [fst]; try reflexivity; apply update_length.
Qed.

End Frames.

Section FramesExample.

Import LocalStorageManager PharmacyAPI Footprint.

Lemma perform_length_witness :
  collection (CreateSale {["total" := VNum 5]}) = Some "sales" /\
  List.length
    (get (fst (perform (rt := Fixtures.integers) Fixtures.amb1 (Thrown "offline")
                 (CreateSale {["total" := VNum 5]}) (loadFromStorage None "now")))
         "sales")
  = S (List.length (get (loadFromStorage None "now") "sales")).
Proof.
  split; [reflexivity|].
  exact (perform_length (rt := Fixtures.integers) Fixtures.amb1 "offline"
           (CreateSale {["total" := VNum 5]}) (loadFromStorage None "now") "sales"
           eq_refl).
Defined.

End FramesExample.

(** ** The answers of the handlers *)

Section Answers.

Context {rt : Runtime}.
Variable collate : string -> string -> bool.
Variable env : Server.surroundings.

Import Server Routes PharmacyAPI.

Lemma delivered_error (body : obj) (status : nat) (msg : string) :
  status = 400%nat \/ status = 404%nat \/ status = 500%nat ->
  body !! "error" = Some (VStr msg) -> msg <> "" ->
  exists msg',
    msg' <> "" /\
    prop (Some (Server.body (json_status body status))) "error" = Some (VStr msg') /\
    delivered (json_status body status) = Thrown msg'.
Proof.
  intros Hs Hb Hm. exists msg. split; [exact Hm|]. split; [exact Hb|].
  unfold delivered, tryBackend, json_status, prop, or_else. cbn [Server.status Server.body].
  assert (Hok : ok status = false) by (destruct Hs as [->|[->| ->]]; reflexivity).
  rewrite Hok, Hb. cbn. destruct msg; [congruence | reflexivity].
Qed.

Lemma delivered_ok (body : obj) :
  delivered (json body) = Returned (VObj body).
Proof. reflexivity. Qed.

Lemma too_short_not_reply (v : option value) (r : response) : too_short v <> Reply r.
Proof.
  unfold too_short, trim_of. destruct (truthy v); [|discriminate].
  destruct v as [[| | | | | |]|]; discriminate.
Qed.

Lemma trim_of_not_reply (v : option value) (r : response) : trim_of v <> Reply r.
Proof. unfold trim_of. destruct v as [[| | | | | |]|]; discriminate. Qed.

Lemma trim_opt_not_reply (v : option value) (r : response) : trim_opt v <> Reply r.
Proof. unfold trim_opt. destruct v as [[| | | | | |]|]; discriminate. Qed.

Lemma trimmed_or_null_not_reply (a b : option value) (r : response) :
  trimmed_or_null a b <> Reply r.
Proof.
  unfold trimmed_or_null, trim_opt.
  destruct a as [[| | | |s| |]|]; cbn; try discriminate;
    try (destruct b as [[| | | |s'| |]|]; cbn; discriminate).
  destruct (falsy_str (trim s)) eqn:E; cbn; rewrite ?E; cbn; try discriminate.
  destruct b as [[| | | |s'| |]|]; cbn; discriminate.
Qed.

Lemma prepare_reply (medicine : obj) (r : response) :
  prepare medicine = Reply r ->
  exists msg, msg <> "" /\ r = bad_request msg.
Proof.
  unfold prepare.
  pose proof (too_short_not_reply (medicine !! "name") r) as H1.
  destruct (too_short (medicine !! "name")) as [[|]|r1|]; cbn;
    [intros [= <-]; eexists; split; [|reflexivity]; discriminate
    | | intros [= ->]; now elim H1 | discriminate].
  pose proof (too_short_not_reply (medicine !! "category") r) as H2.
  destruct (too_short (medicine !! "category")) as [[|]|r2|]; cbn;
    [intros [= <-]; eexists; split; [|reflexivity]; discriminate
    | | intros [= ->]; now elim H2 | discriminate].
  pose proof (too_short_not_reply (medicine !! "manufacturer") r) as H3.
  destruct (too_short (medicine !! "manufacturer")) as [[|]|r3|]; cbn;
    [intros [= <-]; eexists; split; [|reflexivity]; discriminate
    | | intros [= ->]; now elim H3 | discriminate].
  pose proof (trim_of_not_reply (medicine !! "name") r) as H4.
  destruct (trim_of (medicine !! "name")) as [n|r4|]; cbn;
    [| intros [= ->]; now elim H4 | discriminate].
  pose proof (trim_of_not_reply (medicine !! "category") r) as H5.
  destruct (trim_of (medicine !! "category")) as [c|r5|]; cbn;
    [| intros [= ->]; now elim H5 | discriminate].
  pose proof (trimmed_or_null_not_reply (medicine !! "strength") None r) as H6.
  destruct (trimmed_or_null (medicine !! "strength") None) as [st|r6|]; cbn;
    [| intros [= ->]; now elim H6 | discriminate].
  pose proof (trim_of_not_reply (medicine !! "manufacturer") r) as H7.
  destruct (trim_of (medicine !! "manufacturer")) as [m|r7|]; cbn;
    [| intros [= ->]; now elim H7 | discriminate].
  pose proof (trimmed_or_null_not_reply (medicine !! "batchNumber")
                (medicine !! "batch_number") r) as H8.
  destruct (trimmed_or_null (medicine !! "batchNumber") (medicine !! "batch_number"))
    as [b|r8|]; cbn; [| intros [= ->]; now elim H8 | discriminate].
  pose proof (trimmed_or_null_not_reply (medicine !! "location")
                (medicine !! "storage_location") r) as H9.
  destruct (trimmed_or_null (medicine !! "location") (medicine !! "storage_location"))
    as [l|r9|]; cbn; [| intros [= ->]; now elim H9 | discriminate].
  discriminate.
Qed.

Lemma handle_cases (r : route) (d : db) :
  (status (snd (handle collate env r d)) = 200%nat /\
   delivered (snd (handle collate env r d))
   = Returned (body (snd (handle collate env r d)))) \/
  ((fst (handle collate env r d) = d \/
    exists sale,
      r = POST_sales sale /\ b_items sale = None /\
      ready d = true /\ taken env d = false /\
      handle collate env r d
      = (insert_sale d (sale_row env sale),
         json_status {[ "error" := VStr not_initialized ]} 500)) /\
   exists msg,
     msg <> "" /\
     prop (Some (body (snd (handle collate env r d)))) "error" = Some (VStr msg) /\
     delivered (snd (handle collate env r d)) = Thrown msg).
Proof.
  destruct r as [|medicine|id|id quantity type|sale|]; cbn [handle].
  - unfold get_medicines. destruct (negb (ready d)); cbn [fst snd].
    + right. split; [now left|].
      eapply delivered_error; [now left | reflexivity | discriminate].
    + left. split; reflexivity.
  - unfold post_medicines.
    destruct (prepare medicine) as [data|r|] eqn:Hp; cbn [fst snd].
    + destruct (insert_med env data d) as [d' [row|error]] eqn:Hi.
      * left. split; reflexivity.
      * assert (d' = d) as ->.
        { unfold insert_med in Hi. repeat case_match; congruence. }
        right. destruct (isTableMissingError error); cbn [fst snd];
          (split; [now left|]);
          (eapply delivered_error; [auto | reflexivity | discriminate]).
    + right. split; [now left|].
      apply prepare_reply in Hp as (msg & Hm & ->).
      eapply delivered_error; [now left | apply lookup_singleton_eq | exact Hm].
    + right. split; [now left|].
      eapply delivered_error; [auto | reflexivity | discriminate].
  - unfold delete_medicine. destruct (update_error d id) as [error|]; cbn [fst snd].
    + right. destruct (isTableMissingError error); cbn [fst snd];
        (split; [now left|]);
        (eapply delivered_error; [auto | apply lookup_singleton_eq | discriminate]).
    + left. split; reflexivity.
  - unfold post_stock.
    destruct (falsy_num quantity || Qleb quantity 0 || negb (Number_isInteger quantity));
      [right; split; [now left|];
       eapply delivered_error; [now left | apply lookup_singleton_eq | discriminate]|].
    destruct (falsy_str type || negb (existsb (String.eqb type) ["add"; "subtract"]));
      [right; split; [now left|];
       eapply delivered_error; [now left | apply lookup_singleton_eq | discriminate]|].
    destruct (select_med d id) as [m|e] eqn:Hs.
    + destruct (Qltb _ 0).
      * right. split; [now left|].
        eapply delivered_error; [now left | reflexivity | discriminate].
      * destruct (negb (int4 _)).
        -- right. split; [now left|].
           eapply delivered_error; [auto | apply lookup_singleton_eq | discriminate].
        -- rewrite (select_med_update _ _ _ _ m) by (apply with_stock_id || exact Hs).
           left. split; reflexivity.
    + right. destruct (isTableMissingError e); cbn [fst snd];
        (split; [now left|]);
        (eapply delivered_error; [auto | apply lookup_singleton_eq | discriminate]).
  - unfold post_sales. destruct (ready d) eqn:Hr; cbn [negb fst snd].
    + fold (taken env d). destruct (taken env d) eqn:Ht; cbn [fst snd].
      * right. split; [now left|].
        eapply delivered_error; [auto | apply lookup_singleton_eq | discriminate].
      * destruct (b_items sale) as [items|] eqn:Hi.
        -- left. split; reflexivity.
        -- right. split.
           ++ right. exists sale. rewrite Hi. auto.
           ++ cbn [fst snd].
              eapply delivered_error; [auto | apply lookup_singleton_eq | discriminate].
    + right. split; [now left|].
      eapply delivered_error; [now left | apply lookup_singleton_eq | discriminate].
  - left. split; reflexivity.
Qed.

(** X14. Every answer of a handler is either a 200, whose body [tryBackend]
    returns, or an error whose non-empty [error] text is the message of
    the exception that [tryBackend] throws.  An error has left the hosted
    store as it was, with one exception: [POST /sales] with a body
    without [items], on the tables of the schema and with a sale number
    and an id that are free, answers 500 after its insert into [sales],
    and the row of the sale is then in the store. *)
Theorem handler_answers (r : route) (d : db) :
  (status (snd (handle collate env r d)) = 200%nat /\
   delivered (snd (handle collate env r d))
   = Returned (body (snd (handle collate env r d)))) \/
  ((exists msg,
      msg <> "" /\
      prop (Some (body (snd (handle collate env r d)))) "error" = Some (VStr msg) /\
      delivered (snd (handle collate env r d)) = Thrown msg) /\
   (fst (handle collate env r d) = d \/
    exists sale,
      r = POST_sales sale /\ without_items r = true /\
      ready d = true /\ taken env d = false /\
      status (snd (handle collate env r d)) = 500%nat /\
      fst (handle collate env r d) = insert_sale d (sale_row env sale))).
Proof.
  destruct (handle_cases r d) as [H|[H Hmsg]]; [now left|].
  right. split; [exact Hmsg|].
  destruct H as [H|(sale & -> & Hi & Hr & Ht & H)]; [now left|].
  right. exists sale. rewrite H. cbn [without_items fst snd]. rewrite Hi.
  repeat split; auto.
Qed.

Variable amb : ambient.

Lemma delivered_200 (r : response) :
  status r = 200%nat -> delivered r = Returned (body r).
Proof. unfold delivered. intros ->. reflexivity. Qed.

(** What a handler has done when the client receives its answer. *)
Lemma answer_cases (op : operation) (d d' : db) (r : response) :
  answer collate env amb op d = Some (d', r) ->
  (status r = 200%nat /\ delivered r = Returned (body r)) \/
  (status r <> 200%nat /\
   (d' = d \/
    exists name phone total method,
      op = CreateSaleWithoutItems name phone total method /\
      ready d = true /\ taken env d = false /\
      d' = insert_sale d
             (sale_row env (System.sale_without_items name phone total method))) /\
   exists msg, msg <> "" /\ delivered r = Thrown msg).
Proof.
  assert (G : forall rt0 : route,
            (forall sale, rt0 = POST_sales sale -> b_items sale = None ->
               exists name phone total method,
                 op = CreateSaleWithoutItems name phone total method /\
                 sale = System.sale_without_items name phone total method) ->
            handle collate env rt0 d = (d', r) ->
            (status r = 200%nat /\ delivered r = Returned (body r)) \/
            (status r <> 200%nat /\
             (d' = d \/
              exists name phone total method,
                op = CreateSaleWithoutItems name phone total method /\
                ready d = true /\ taken env d = false /\
                d' = insert_sale d
                       (sale_row env
                          (System.sale_without_items name phone total method))) /\
             exists msg, msg <> "" /\ delivered r = Thrown msg)).
  { intros rt0 Hop E.
    destruct (handle_cases rt0 d) as [H|[H (msg & Hm & _ & Hd)]];
      rewrite E in *; cbn [fst snd] in *; [now left|].
    right. split; [|split; [|now exists msg]].
    - intros Hs. rewrite (delivered_200 r Hs) in Hd. discriminate.
    - destruct H as [H|(sale & -> & Hi & Hr & Ht & H)]; [now left|].
      right. destruct (Hop sale eq_refl Hi) as (name & phone & total & method & -> & ->).
      exists name, phone, total, method.
      repeat split; try assumption. congruence. }
  destruct op as [|medicine|id|id [q|] type|sale|name phone total method| |];
    cbn [answer]; intros E; try discriminate E.
  - apply (G GET_medicines); [discriminate | congruence].
  - apply (G (POST_medicines (newMedicine amb medicine))); [discriminate | congruence].
  - apply (G (DELETE_medicine id)); [discriminate | congruence].
  - apply (G (POST_stock id q type)); [discriminate | congruence].
  - unfold post_stock_null in E.
    assert (Hd : d' = d) by congruence.
    assert (Hr : r = bad_request "Quantity must be a positive integer") by congruence.
    subst d' r.
    right. split; [discriminate|]. split; [now left|].
    exists "Quantity must be a positive integer". split; [discriminate | reflexivity].
  - apply (G (POST_sales (posted sale))); [|congruence].
    intros sale' [= <-]. discriminate.
  - apply (G (POST_sales (System.sale_without_items name phone total method)));
      [|congruence].
    intros sale' [= <-] _. now exists name, phone, total, method.
Qed.

(** A call over the network that is up, whose request a handler
    answers. *)
Lemma run_up (op : operation) (w : System.world) (d' : db) (r : response) :
  answer collate env amb op (System.remote w) = Some (d', r) ->
  run collate env amb System.Up op w
  = (let '(l, out) := perform amb (delivered r) (request_of op) (System.local w) in
     ({| System.remote := d'; System.local := l |}, out)).
Proof.
  destruct op as [|medicine|id|id [q|] type|sale|name phone total method| |];
    cbn [answer handle]; intros E; try discriminate E;
    apply (f_equal (fun o => match o with Some x => x | None => (d', r) end)) in E;
    cbv beta iota in E;
    unfold run, System.getMedicines, System.addMedicine, System.deleteMedicine,
      System.updateStock, System.createSale, System.createSale_without_items,
      System.call, System.served;
    rewrite E; reflexivity.
Qed.

Lemma run_down (op : operation) (w : System.world) :
  run collate env amb System.Down op w = fallen amb op "Failed to fetch" w.
Proof. destruct op as [| | |id [q|] type| | | |]; reflexivity. Qed.

Lemma run_no_route (op : operation) (w : System.world) :
  answer collate env amb op (System.remote w) = None ->
  run collate env amb System.Up op w = fallen amb op "HTTP 404: Not Found" w.
Proof.
  destruct op as [| | |id [q|] type| | | |]; cbn [answer]; try discriminate;
    intros _; reflexivity.
Qed.

(** X15. A call of the client writes one store at most, with one
    exception.  When a handler answers 200, the call returns the body of
    the answer and the local store stays as it is.  When a handler
    answers an error, when the server has no route for the request and
    when the network is down, the method runs its fallback on the local
    store and the call returns, or throws, what the fallback does; the
    hosted store then stays as it is, unless the call is a [createSale]
    of a sale without [items] that found the tables and a free sale
    number: the handler has then inserted the sale before its error, and
    the fallback adds the sale to the local store as well. *)
Theorem one_store_written (op : operation) (w : System.world) :
  (forall d' r,
     answer collate env amb op (System.remote w) = Some (d', r) ->
     (status r = 200%nat ->
      run collate env amb System.Up op w
      = ({| System.remote := d'; System.local := System.local w |},
         Returned (body r))) /\
     (status r <> 200%nat ->
      (exists msg,
         run collate env amb System.Up op w
         = fallen amb op msg {| System.remote := d'; System.local := System.local w |}) /\
      (d' = System.remote w \/
       exists name phone total method,
         op = CreateSaleWithoutItems name phone total method /\
         ready (System.remote w) = true /\ taken env (System.remote w) = false /\
         d' = insert_sale (System.remote w)
                (sale_row env (System.sale_without_items name phone total method))))) /\
  (answer collate env amb op (System.remote w) = None ->
   run collate env amb System.Up op w = fallen amb op "HTTP 404: Not Found" w) /\
  run collate env amb System.Down op w = fallen amb op "Failed to fetch" w /\
  (forall name phone total method msg,
     op = CreateSaleWithoutItems name phone total method ->
     exists sale,
       LocalStorageManager.get (System.local (fst (fallen amb op msg w))) "sales"
       = (LocalStorageManager.get (System.local w) "sales" ++ [sale])%list).
Proof.
  split; [|split; [|split]].
  - intros d' r E. rewrite (run_up op w d' r E).
    destruct (answer_cases op _ _ _ E) as [[Hs Hd]|(Hs & Hd' & msg & _ & Hd)].
    + split; [|congruence]. intros _. rewrite Hd, perform_returned. reflexivity.
    + split; [congruence|]. intros _. split.
      * exists msg. rewrite Hd. reflexivity.
      * destruct Hd' as [->|(name & phone & total & method & -> & Hr & Ht & Hd')];
          [now left|].
        right. now exists name, phone, total, method.
  - apply run_no_route.
  - apply run_down.
  - intros name phone total method msg ->.
    unfold fallen. cbn [request_of perform].
    unfold createSale, try_catch, LocalStorageManager.add.
    cbn [fst snd System.remote System.local].
    eexists. apply get_insert_eq.
Qed.

End Answers.

Section AnswersExample.

Import Server Routes PharmacyAPI.

(** A [createSale] of a sale without [items], on the hosted store of
    the examples: the handler answers 500, and the sale is in both
    stores. *)
Example sale_without_items_is_kept :
  let w := fst (run (rt := Fixtures.integers) Fixtures.by_code_units Fixtures.env1
                  Fixtures.amb1 System.Up
                  (CreateSaleWithoutItems "John Smith" "+1234567890" 40 "cash")
                  Fixtures.world1) in
  status (snd (post_sales Fixtures.env1
                 (System.sale_without_items "John Smith" "+1234567890" 40 "cash")
                 Fixtures.hosted)) = 500%nat /\
  List.length (sales (System.remote Fixtures.world1)) = 0%nat /\
  List.length (sales (System.remote w)) = 1%nat /\
  List.length (LocalStorageManager.get (System.local Fixtures.world1) "sales") = 1%nat /\
  List.length (LocalStorageManager.get (System.local w) "sales") = 2%nat.
Proof. cbv zeta. repeat split; vm_compute; reflexivity. Qed.

End AnswersExample.

(** ** The list of medicines and a new medicine on the hosted store *)

Section HostedMedicines.

Context {rt : Runtime}.
Variable collate : string -> string -> bool.
Variable env : Server.surroundings.

Import Server Routes PharmacyAPI.

Lemma Sorted_weaken {A : Type} (R R' : A -> A -> Prop) (l : list A) :
  (forall a b, R a b -> R' a b) -> Sorted R l -> Sorted R' l.
Proof.
  intros H. induction 1 as [|x l Hl IH Hd]; constructor; [exact IH|].
  destruct Hd; constructor. now apply H.
Qed.

(** X16. With a collation under which any two names compare, [GET /medicines]
    on a store that is ready lists the active medicines, each row once,
    in the order of their names, and leaves the store as it is. *)
Theorem get_medicines_sorted (d : db) :
  (forall a b, collate a b = true \/ collate b a = true) ->
  ready d = true ->
  exists l,
    get_medicines collate d
    = (d, json {[ "medicines" := VArr (VObj ∘ transformedMedicine <$> l);
                  "dbStatus" := VStr "ready" ]}) /\
    l ≡ₚ List.filter m_active (meds d) /\
    Sorted (fun a b => collate (m_name a) (m_name b) = true) l.
Proof.
  intros Htotal Hready. unfold get_medicines. rewrite Hready. cbn [negb].
  eexists. split; [reflexivity|]. split; [apply merge_sort_Permutation|].
  assert (Total (fun a b : med => Is_true (collate (m_name a) (m_name b)))) as Ht.
  { intros a b. destruct (Htotal (m_name a) (m_name b)) as [H|H];
      [left | right]; now rewrite H. }
  eapply Sorted_weaken; [|apply Sorted_merge_sort, Ht].
  intros a b H. now apply Is_true_true.
Qed.

Lemma or_num_nonzero (a : option Q) (b : Q) :
  ~ (b == 0)%Q -> ~ (or_num a b == 0)%Q.
Proof.
  intros Hb. unfold or_num. destruct a as [q|]; [|exact Hb].
  destruct (Qeq_bool q 0) eqn:E; [exact Hb|].
  now apply Qeq_bool_neq.
Qed.

Lemma too_short_false (v : option value) :
  too_short v = Next false ->
  exists s, v = Some (VStr s) /\ (2 <= String.length (trim s))%nat.
Proof.
  unfold too_short, trim_of. destruct (truthy v); [|discriminate].
  destruct v as [[| | | |s| |]|]; try discriminate. cbn.
  intros [= H]. exists s. split; [reflexivity|]. now apply Nat.ltb_ge.
Qed.

Lemma prepare_data (medicine : obj) (data : medicineData) :
  prepare medicine = Next data ->
  (2 <= String.length (d_name data))%nat /\
  (2 <= String.length (d_cat data))%nat /\
  (2 <= String.length (d_mfg data))%nat /\
  ~ (d_min_stock data == 0)%Q /\ ~ (d_max_stock data == 0)%Q.
Proof.
  unfold prepare.
  destruct (too_short (medicine !! "name")) as [[|]| |] eqn:H1; cbn; try discriminate.
  destruct (too_short (medicine !! "category")) as [[|]| |] eqn:H2; cbn; try discriminate.
  destruct (too_short (medicine !! "manufacturer")) as [[|]| |] eqn:H3; cbn;
    try discriminate.
  apply too_short_false in H1 as (n & -> & Hn).
  apply too_short_false in H2 as (c & -> & Hc).
  apply too_short_false in H3 as (m & -> & Hm). cbn.
  destruct (trimmed_or_null (medicine !! "strength") None); cbn; try discriminate.
  destruct (trimmed_or_null (medicine !! "batchNumber") (medicine !! "batch_number"));
    cbn; try discriminate.
  destruct (trimmed_or_null (medicine !! "location") (medicine !! "storage_location"));
    cbn; try discriminate.
  intros [= <-]. cbn. repeat split; try assumption;
    repeat apply or_num_nonzero; discriminate.
Qed.

(** X17. When [POST /medicines] answers 200 the table of medicines has gained
    exactly one row and nothing else has changed: the row is active,
    its id is new, its name, category and manufacturer have two
    characters at least, and neither its minimum nor its maximum stock
    is zero (a zero that is sent is replaced by the default 10 or
    100). *)
Theorem post_medicines_stores (medicine : obj) (d : db) :
  status (snd (post_medicines env medicine d)) = 200%nat ->
  exists row,
    fst (post_medicines env medicine d) = set_meds d (meds d ++ [row])%list /\
    snd (post_medicines env medicine d)
    = json {[ "medicine" := VObj (transformedMedicine row) ]} /\
    Forall (fun m => m_id m <> m_id row) (meds d) /\
    m_active row = true /\
    (2 <= String.length (m_name row))%nat /\
    (2 <= String.length (m_cat row))%nat /\
    (2 <= String.length (m_mfg row))%nat /\
    ~ (m_min_stock row == 0)%Q /\ ~ (m_max_stock row == 0)%Q.
Proof.
  unfold post_medicines.
  destruct (prepare medicine) as [data|r|] eqn:Hp; cbn [fst snd].
  - apply prepare_data in Hp as (Hn & Hc & Hm & Hlo & Hhi).
    unfold insert_med.
    destruct (negb (ready d)); [discriminate|].
    destruct (if truthy (d_exp_date data) then _ else _) as [exp_date|];
      destruct (as_integer (d_stock data)) as [stock|];
      destruct (as_integer (d_min_stock data)) as [min_stock|] eqn:Emin;
      destruct (as_integer (d_max_stock data)) as [max_stock|] eqn:Emax;
      try discriminate.
    apply as_integer_value in Emin, Emax.
    destruct (existsb _ (meds d)) eqn:Hex; [discriminate|].
    intros _. eexists. split; [reflexivity|]. split; [reflexivity|].
    unfold m_min_stock, m_max_stock. cbn. rewrite Emin, Emax.
    repeat split; try assumption.
    apply Forall_forall. intros m Hin Heq.
    apply not_true_iff_false in Hex. apply Hex, existsb_exists.
    exists m. split; [now apply list_elem_of_In | now apply String.eqb_eq].
  - apply prepare_reply in Hp as (msg & _ & ->). discriminate.
  - discriminate.
Qed.

End HostedMedicines.

Section HostedMedicinesExample.

Import Server Routes.

Lemma get_medicines_sorted_witness :
  (forall a b, Fixtures.by_code_units a b = true \/ Fixtures.by_code_units b a = true) /\
  ready Fixtures.hosted = true /\
  exists l,
    get_medicines Fixtures.by_code_units Fixtures.hosted
    = (Fixtures.hosted,
       json {[ "medicines" := VArr (VObj ∘ transformedMedicine <$> l);
               "dbStatus" := VStr "ready" ]}) /\
    l ≡ₚ List.filter m_active (meds Fixtures.hosted) /\
    Sorted (fun a b => Fixtures.by_code_units (m_name a) (m_name b) = true) l.
Proof.
  split; [exact String.leb_total|]. split; [reflexivity|].
  apply get_medicines_sorted; [exact String.leb_total | reflexivity].
Defined.

Lemma post_medicines_stores_witness :
  status (snd (post_medicines (rt := Fixtures.integers) Fixtures.env1
                 (Terms.medicine_object Fixtures.submitted) Fixtures.hosted))
  = 200%nat /\
  exists row,
    fst (post_medicines (rt := Fixtures.integers) Fixtures.env1
           (Terms.medicine_object Fixtures.submitted) Fixtures.hosted)
    = set_meds Fixtures.hosted (meds Fixtures.hosted ++ [row])%list /\
    ~ (m_min_stock row == 0)%Q.
Proof.
  split; [vm_compute; reflexivity|].
  destruct (post_medicines_stores (rt := Fixtures.integers) Fixtures.env1
              (Terms.medicine_object Fixtures.submitted) Fixtures.hosted)
    as (row & H1 & _ & _ & _ & _ & _ & _ & H2 & _); [vm_compute; reflexivity|].
  exists row. split; [exact H1 | exact H2].
Defined.

End HostedMedicinesExample.

(** ** The stock ledger and the stock of the hosted store *)

Section HostedStock.

Context {rt : Runtime}.
Variable collate : string -> string -> bool.
Variable env : Server.surroundings.

Import Server Routes PharmacyAPI Ledger Terms.

Lemma Qeqb_refl (q : Q) : Qeqb q q = true.
Proof. unfold Qeqb. apply Qeq_bool_iff. reflexivity. Qed.

Lemma forallb_snoc {A : Type} (p : A -> bool) (l : list A) (x : A) :
  forallb p (l ++ [x])%list = forallb p l && p x.
Proof. rewrite forallb_app. simpl. now rewrite andb_true_r. Qed.

Lemma sell_item_ledger (saleId : string) (d : db) (item : SalesBilling.CartItem) :
  exists new,
    stock_moves (sell_item env saleId d item) = (stock_moves d ++ new)%list /\
    forallb consistent new = true.
Proof.
  unfold sell_item.
  destruct (select_med _ _) as [m|e]; [|exists []; now rewrite app_nil_r].
  destruct (Qgeb _ 0 && int4 _) eqn:Hge; [|exists []; now rewrite app_nil_r].
  apply andb_true_iff in Hge as [Hge _].
  eexists [_]. split; [reflexivity|].
  cbn. unfold consistent. cbn. unfold Qleb. unfold Qgeb in Hge.
  now rewrite Hge, Qeqb_refl.
Qed.

Lemma sell_items_ledger (saleId : string) (items : list SalesBilling.CartItem) (d : db) :
  exists new,
    stock_moves (fold_left (sell_item env saleId) items d)
    = (stock_moves d ++ new)%list /\
    forallb consistent new = true.
Proof.
  revert d. induction items as [|item items IH]; intros d.
  - exists []. now rewrite app_nil_r.
  - cbn [fold_left].
    destruct (IH (sell_item env saleId d item)) as (new2 & H2 & Hc2).
    destruct (sell_item_ledger saleId d item) as (new1 & H1 & Hc1).
    exists (new1 ++ new2)%list. split.
    + now rewrite H2, H1, <- app_assoc.
    + now rewrite forallb_app, Hc1, Hc2.
Qed.

(** X18. The handlers only add to the stock ledger, and every entry they add
    states a new stock that is not negative and that is the old stock
    plus or minus the change, by the type of the entry. *)
Theorem ledger_grows_consistently (r : route) (d : db) :
  exists new,
    stock_moves (fst (handle collate env r d)) = (stock_moves d ++ new)%list /\
    forallb consistent new = true.
Proof.
  destruct r as [|medicine|id|id quantity type|sale|]; cbn [handle].
  - exists []. rewrite app_nil_r. split; [|reflexivity].
    unfold get_medicines. now destruct (negb (ready d)).
  - exists []. rewrite app_nil_r. split; [|reflexivity].
    unfold post_medicines. destruct (prepare medicine); try reflexivity.
    unfold insert_med. repeat case_match; simplify_eq; reflexivity.
  - exists []. rewrite app_nil_r. split; [|reflexivity].
    unfold delete_medicine. destruct (update_error d id) as [error|]; [|reflexivity].
    now destruct (isTableMissingError error).
  - unfold post_stock.
    destruct (_ || _ || _); [exists []; now rewrite app_nil_r|].
    destruct (_ || _); [exists []; now rewrite app_nil_r|].
    destruct (select_med d id) as [m|e] eqn:Hs;
      [|exists []; rewrite app_nil_r; now destruct (isTableMissingError e)].
    destruct (Qltb _ 0) eqn:Hlt; [exists []; now rewrite app_nil_r|].
    destruct (negb (int4 _)); [exists []; now rewrite app_nil_r|].
    rewrite (select_med_update _ _ _ _ m) by (apply with_stock_id || exact Hs).
    eexists [_]. split; [reflexivity|].
    cbn. unfold consistent. cbn. unfold Qltb in Hlt. apply negb_false_iff in Hlt.
    unfold Qleb. rewrite Hlt.
    destruct (String.eqb type "add"); cbn; now rewrite Qeqb_refl.
  - unfold post_sales.
    destruct (negb (ready d)); [exists []; now rewrite app_nil_r|].
    destruct (existsb _ (sales d)); [exists []; now rewrite app_nil_r|].
    destruct (b_items sale) as [items|]; cbn [fst];
      [|exists []; now rewrite app_nil_r].
    exact (sell_items_ledger _ items (insert_sale d _)).
  - exists []. now rewrite app_nil_r.
Qed.

Lemma remote_stock_select (d : db) (id : string) (s : Q) :
  remote_stock d id = Some s <-> exists m, select_med d id = inl m /\ m_stock m = s.
Proof.
  unfold remote_stock. destruct (select_med d id) as [m|e]; split.
  - intros [= <-]. now exists m.
  - intros (m' & [= <-] & <-). reflexivity.
  - discriminate.
  - intros (m' & H & _). discriminate.
Qed.

Lemma select_med_log (d : db) (v : stock_move) (id : string) :
  select_med (log_stock_move d v) id = select_med d id.
Proof. reflexivity. Qed.

(** Two ids that do not denote the same uuid, in the terms of
    [uuid_in]. *)
Lemma same_medicine_false (id id' : string) :
  same_medicine id id' = false ->
  uuid_in id <> uuid_in id' \/ uuid_in id = None.
Proof.
  unfold same_medicine. destruct (uuid_in id) as [key|]; [|now right].
  destruct (uuid_in id') as [key'|]; [|left; discriminate].
  intros H. left. intros [= ->]. now rewrite String.eqb_refl in H.
Qed.

Lemma same_medicine_sym (id id' : string) : same_medicine id id' = same_medicine id' id.
Proof.
  unfold same_medicine. destruct (uuid_in id), (uuid_in id'); try reflexivity.
  apply String.eqb_sym.
Qed.

Lemma remote_stock_same (d : db) (id id' : string) :
  same_medicine id id' = true -> remote_stock d id = remote_stock d id'.
Proof.
  unfold same_medicine, remote_stock, select_med.
  destruct (uuid_in id) as [key|] eqn:Hu; [|discriminate].
  destruct (uuid_in id') as [key'|] eqn:Hu'; [|discriminate].
  intros H. apply String.eqb_eq in H. subst key'.
  replace (List.filter (eq_id id') (meds d)) with (List.filter (eq_id id) (meds d));
    [reflexivity|].
  apply filter_ext. intros m. unfold eq_id. now rewrite Hu, Hu'.
Qed.

Lemma remote_stock_not_uuid (d : db) (id : string) :
  uuid_in id = None -> remote_stock d id = None.
Proof.
  intros H. unfold remote_stock, select_med. rewrite H. now destruct (negb (ready d)).
Qed.

(** An update of the stock under an id leaves the stock under an id of
    another medicine alone. *)
Lemma remote_stock_update_ne (now id id' : string) (q : Q) (d : db) :
  same_medicine id' id = false ->
  remote_stock (update_meds now (with_stock q) id d) id' = remote_stock d id'.
Proof.
  intros H. apply same_medicine_false in H as [H|H].
  - unfold remote_stock. rewrite select_med_update_ne; [reflexivity | | congruence].
    intros x. apply with_stock_id.
  - now rewrite !remote_stock_not_uuid.
Qed.

Lemma post_stock_moves (e : surroundings) (id type : string) (quantity : Q) (d : db)
  (m : med) :
  accepted_quantity quantity = true ->
  type = "add" \/ type = "subtract" ->
  select_med d id = inl m ->
  let newStock :=
    if String.eqb type "add" then (m_stock m + quantity)%Q
    else (m_stock m - quantity)%Q in
  (0 <= newStock)%Q ->
  int4 newStock = true ->
  status (snd (post_stock e id quantity type d)) = 200%nat /\
  remote_stock (fst (post_stock e id quantity type d)) id = Some newStock /\
  (forall id', same_medicine id' id = false ->
     remote_stock (fst (post_stock e id quantity type d)) id' = remote_stock d id').
Proof.
  intros Hq Ht Hs newStock Hnew Hint. unfold post_stock.
  unfold accepted_quantity in Hq. apply negb_true_iff in Hq. rewrite Hq.
  assert (Hty : falsy_str type || negb (existsb (String.eqb type) ["add"; "subtract"])
                = false) by (destruct Ht as [-> | ->]; reflexivity).
  rewrite Hty, Hs. fold newStock.
  assert (Hlt : Qltb newStock 0 = false).
  { unfold Qltb. apply negb_false_iff, Qle_bool_iff, Hnew. }
  rewrite Hlt, Hint. cbn [negb].
  rewrite (select_med_update _ _ _ _ m) by (apply with_stock_id || exact Hs).
  cbn [fst snd]. split; [reflexivity|]. split.
  - unfold remote_stock. rewrite select_med_log.
    rewrite (select_med_update _ _ _ _ m) by (apply with_stock_id || exact Hs).
    f_equal. exact (with_stock_stock _ m Hint).
  - intros id' Hne. unfold remote_stock at 1. rewrite select_med_log.
    exact (remote_stock_update_ne _ _ _ _ _ Hne).
Qed.

(** [add] above the largest integer of the column. *)
Lemma post_stock_overflow (e : surroundings) (id : string) (quantity : Q) (d : db)
  (m : med) :
  accepted_quantity quantity = true ->
  select_med d id = inl m ->
  (0 <= m_stock m)%Q ->
  (2147483647 < m_stock m + quantity)%Q ->
  post_stock e id quantity "add" d
  = (d, json_status {[ "error" := VStr not_initialized ]} 500).
Proof.
  intros Hq Hs Hpos Hbig. pose proof (accepted_quantity_true _ Hq) as [Hq' Hq0].
  unfold post_stock. rewrite Hq', Hs. cbn [falsy_str existsb String.eqb Ascii.eqb
    Bool.eqb orb negb].
  assert (Hlt : Qltb (m_stock m + quantity) 0 = false).
  { apply Qltb_false. lra. }
  rewrite Hlt.
  assert (Hint : int4 (m_stock m + quantity) = false).
  { apply not_true_iff_false. intros H. apply int4_spec in H as (_ & _ & H). lra. }
  now rewrite Hint.
Qed.

Variable env' : surroundings.

(** X19. On a medicine whose stock [s] is not negative, [POST
    /medicines/:id/stock] with [add] and then with [subtract] of the
    same positive integer [q] answers 200 twice and gives back the stock
    there was, when [s + q] is an integer of the column [stock], which
    ends at 2147483647; the stock of every medicine that the id does not
    denote is untouched.  When [s + q] is larger, [add] answers 500 and
    leaves the store as it is. *)
Theorem add_then_subtract_restores (id : string) (quantity s : Q) (d : db) :
  positive_integer quantity ->
  remote_stock d id = Some s ->
  (0 <= s)%Q ->
  ((s + quantity <= 2147483647)%Q ->
   status (snd (post_stock env id quantity "add" d)) = 200%nat /\
   status (snd (post_stock env' id quantity "subtract"
                  (fst (post_stock env id quantity "add" d)))) = 200%nat /\
   (exists s',
      remote_stock (fst (post_stock env' id quantity "subtract"
                           (fst (post_stock env id quantity "add" d)))) id = Some s' /\
      (s' == s)%Q) /\
   (forall id', same_medicine id' id = false ->
      remote_stock (fst (post_stock env' id quantity "subtract"
                           (fst (post_stock env id quantity "add" d)))) id'
      = remote_stock d id')) /\
  ((2147483647 < s + quantity)%Q ->
   post_stock env id quantity "add" d
   = (d, json_status {[ "error" := VStr not_initialized ]} 500)).
Proof.
  intros Hq Hs Hpos.
  assert (Hq' : (0 < quantity)%Q).
  { destruct Hq as [n Hn]. rewrite Hn. reflexivity. }
  pose proof Hq as [n Hn].
  apply accepted_quantity_spec in Hq.
  apply remote_stock_select in Hs as (m & Hm & <-).
  split.
  - intros Hmax.
    assert (Hint : int4 (m_stock m + quantity) = true).
    { pose proof (stock_int4 m) as Hi. apply int4_spec in Hi as ([a Ha] & _ & _).
      apply int4_spec. split; [|split; lra].
      exists (a + Zpos n)%Z. rewrite inject_Z_plus, <- Ha, <- Hn. reflexivity. }
    destruct (post_stock_moves env id "add" quantity d m Hq (or_introl eq_refl) Hm)
      as (H1 & H2 & H3); [cbn; lra | exact Hint |].
    cbn [String.eqb Ascii.eqb Bool.eqb] in H2.
    apply remote_stock_select in H2 as (m1 & Hm1 & Hs1).
    split; [exact H1|].
    revert Hm1 H3. generalize (fst (post_stock env id quantity "add" d)) as d1.
    intros d1 Hm1 H3.
    destruct (post_stock_moves env' id "subtract" quantity d1 m1 Hq
                (or_intror eq_refl) Hm1) as (H4 & H5 & H6).
    + cbn. rewrite Hs1. lra.
    + cbn. apply int4_difference; [apply stock_int4 | exact Hq | rewrite Hs1; lra].
    + cbn [String.eqb Ascii.eqb Bool.eqb] in H5.
      split; [exact H4|]. split.
      * eexists. split; [exact H5|]. rewrite Hs1. ring.
      * intros id' Hne. now rewrite H6, H3.
  - intros Hbig. now apply (post_stock_overflow env id quantity d m).
Qed.

Lemma select_med_sale_item (d : db) (i : sale_item) (id : string) :
  select_med (log_sale_item d i) id = select_med d id.
Proof. reflexivity. Qed.

Lemma select_med_sale (d : db) (s : sale) (id : string) :
  select_med (insert_sale d s) id = select_med d id.
Proof. reflexivity. Qed.

Lemma sell_item_other (saleId : string) (d : db) (item : SalesBilling.CartItem)
  (id' : string) :
  same_medicine id' (SalesBilling.medicineId item) = false ->
  remote_stock (sell_item env saleId d item) id' = remote_stock d id'.
Proof.
  intros Hne. unfold sell_item.
  change (select_med (log_sale_item d ?i) ?id) with (select_med d id).
  destruct (select_med d (SalesBilling.medicineId item)) as [m|e]; [|reflexivity].
  destruct (Qgeb _ 0 && int4 _); [|reflexivity].
  unfold remote_stock at 1. rewrite select_med_log.
  exact (remote_stock_update_ne _ _ _ _ (log_sale_item d _) Hne).
Qed.

(** What a line of a sale does to the stock [s] of its medicine: the
    quantity [q] is taken when [s - q] is a stock that the column takes
    and that is not negative. *)
Lemma sell_item_same (saleId : string) (d : db) (item : SalesBilling.CartItem) :
  remote_stock (sell_item env saleId d item) (SalesBilling.medicineId item)
  = (fun s => if Qleb (SalesBilling.quantity item) s
                 && int4 (s - SalesBilling.quantity item)
              then (s - SalesBilling.quantity item)%Q else s)
      <$> remote_stock d (SalesBilling.medicineId item).
Proof.
  unfold sell_item, remote_stock. rewrite select_med_sale_item.
  destruct (select_med d (SalesBilling.medicineId item)) as [m|e] eqn:Hs;
    [|now rewrite select_med_sale_item, Hs].
  assert (Heq : Qgeb (m_stock m - SalesBilling.quantity item) 0
                = Qleb (SalesBilling.quantity item) (m_stock m)).
  { unfold Qgeb, Qleb. apply eq_true_iff_eq. rewrite !Qle_bool_iff. split; lra. }
  rewrite Heq. cbn [fmap option_fmap option_map].
  destruct (Qleb _ (m_stock m) && int4 _) eqn:Hok.
  - apply andb_true_iff in Hok as [_ Hint].
    rewrite select_med_log.
    rewrite (select_med_update _ _ _ _ m);
      [| intros x; apply with_stock_id | now rewrite select_med_sale_item].
    f_equal. exact (with_stock_stock _ m Hint).
  - now rewrite select_med_sale_item, Hs.
Qed.

Lemma sell_items_other (saleId : string) (items : list SalesBilling.CartItem) (d : db)
  (id' : string) :
  forallb (fun item => negb (same_medicine id' (SalesBilling.medicineId item))) items
  = true ->
  remote_stock (fold_left (sell_item env saleId) items d) id' = remote_stock d id'.
Proof.
  revert d. induction items as [|item items IH]; intros d Hnot; [reflexivity|].
  cbn [fold_left]. cbn [forallb] in Hnot. apply andb_true_iff in Hnot as [Hne Hnot].
  rewrite IH by exact Hnot. apply sell_item_other. now apply negb_true_iff.
Qed.

Lemma sell_items_each (saleId : string) (items : list SalesBilling.CartItem) (d : db) :
  different_medicines (SalesBilling.medicineId <$> items) = true ->
  Forall (fun item =>
            remote_stock (fold_left (sell_item env saleId) items d)
              (SalesBilling.medicineId item)
            = (fun s => if Qleb (SalesBilling.quantity item) s
                           && int4 (s - SalesBilling.quantity item)
                        then (s - SalesBilling.quantity item)%Q else s)
                <$> remote_stock d (SalesBilling.medicineId item))
         items.
Proof.
  revert d. induction items as [|item items IH]; intros d Hnd; [constructor|].
  rewrite fmap_cons in Hnd. cbn [different_medicines] in Hnd.
  apply andb_true_iff in Hnd as [Hnot Hnd].
  rewrite forallb_forall in Hnot.
  cbn [fold_left]. constructor.
  - rewrite sell_items_other; [apply sell_item_same|].
    apply forallb_forall. intros b Hb. apply Hnot.
    apply list_elem_of_In. apply list_elem_of_fmap_2. now apply list_elem_of_In.
  - specialize (IH (sell_item env saleId d item) Hnd).
    rewrite Forall_forall in IH |- *. intros b Hb. rewrite (IH b Hb).
    rewrite sell_item_other; [reflexivity|].
    rewrite same_medicine_sym. apply negb_true_iff, Hnot.
    apply list_elem_of_In. now apply list_elem_of_fmap_2.
Qed.

(** X20. When [POST /sales] answers 200 for a sale whose lines are on
    different medicines, the stock [s] of the medicine of a line of
    quantity [q] is reduced to [s - q] when [q] is not more than [s] and
    [s - q] is an integer of the column [stock], which it is when [q] is
    a whole number, and is left as it is otherwise; the stock of every
    medicine that no line is on is untouched. *)
Theorem post_sales_reduces_each (sale : sale_body) (items : list SalesBilling.CartItem)
  (d : db) :
  b_items sale = Some items ->
  status (snd (post_sales env sale d)) = 200%nat ->
  different_medicines (SalesBilling.medicineId <$> items) = true ->
  Forall (fun item =>
            remote_stock (fst (post_sales env sale d)) (SalesBilling.medicineId item)
            = (fun s => if Qleb (SalesBilling.quantity item) s
                           && int4 (s - SalesBilling.quantity item)
                        then (s - SalesBilling.quantity item)%Q else s)
                <$> remote_stock d (SalesBilling.medicineId item))
         items /\
  (forall item s,
     In item items ->
     remote_stock d (SalesBilling.medicineId item) = Some s ->
     (int4 (s - SalesBilling.quantity item) = true <->
      (exists z : Z, (SalesBilling.quantity item == inject_Z z)%Q) /\
      (s - 2147483647 <= SalesBilling.quantity item)%Q /\
      (SalesBilling.quantity item <= s + 2147483648)%Q)) /\
  (forall id,
     forallb (fun item => negb (same_medicine id (SalesBilling.medicineId item))) items
     = true ->
     remote_stock (fst (post_sales env sale d)) id = remote_stock d id).
Proof.
  intros Hi. unfold post_sales. rewrite Hi.
  destruct (negb (ready d)); [discriminate|].
  destruct (existsb _ (sales d)); [discriminate|].
  cbn [fst snd]. intros _ Hnd. split; [|split].
  - exact (sell_items_each _ items (insert_sale d _) Hnd).
  - intros item s _ Hs. apply remote_stock_select in Hs as (m & _ & <-).
    pose proof (stock_int4 m) as Hm. apply int4_spec in Hm as ([a Ha] & _ & _).
    rewrite int4_spec. split.
    + intros ([z Hz] & Hlo & Hhi). split; [|split; lra].
      exists (a - z)%Z. unfold Zminus. rewrite inject_Z_plus, inject_Z_opp. lra.
    + intros ([z Hz] & Hlo & Hhi). split; [|split; lra].
      exists (a - z)%Z. unfold Zminus. rewrite inject_Z_plus, inject_Z_opp. lra.
  - intros id Hid.
    exact (sell_items_other _ items (insert_sale d _) id Hid).
Qed.

End HostedStock.

Section HostedStockExample.

Import Server Routes Terms.

Lemma add_then_subtract_restores_witness :
  positive_integer 5 /\
  remote_stock Fixtures.hosted (m_id Fixtures.aspirin) = Some 8%Q /\
  (0 <= 8)%Q /\
  (8 + 5 <= 2147483647)%Q /\
  exists s',
    remote_stock
      (fst (post_stock (rt := Fixtures.integers) Fixtures.env1 (m_id Fixtures.aspirin) 5
              "subtract"
              (fst (post_stock (rt := Fixtures.integers) Fixtures.env1
                      (m_id Fixtures.aspirin) 5 "add" Fixtures.hosted))))
      (m_id Fixtures.aspirin) = Some s' /\
    (s' == 8)%Q.
Proof.
  assert (H5 : positive_integer 5) by (exists 5%positive; reflexivity).
  assert (Hs : remote_stock Fixtures.hosted (m_id Fixtures.aspirin) = Some 8%Q)
    by reflexivity.
  assert (H8 : (0 <= 8)%Q) by (vm_compute; discriminate).
  assert (Hmax : (8 + 5 <= 2147483647)%Q) by (vm_compute; discriminate).
  repeat split; try assumption.
  exact (proj1 (proj2 (proj2
    (proj1 (add_then_subtract_restores (rt := Fixtures.integers) Fixtures.env1
              Fixtures.env1 (m_id Fixtures.aspirin) 5 8 Fixtures.hosted H5 Hs H8)
       Hmax)))).
Defined.

Lemma post_sales_reduces_each_witness :
  b_items (posted (Fixtures.sale_of Fixtures.hosted_cart)) = Some Fixtures.hosted_cart /\
  status (snd (post_sales Fixtures.env1 (posted (Fixtures.sale_of Fixtures.hosted_cart))
                 Fixtures.hosted)) = 200%nat /\
  different_medicines (SalesBilling.medicineId <$> Fixtures.hosted_cart) = true /\
  remote_stock
    (fst (post_sales Fixtures.env1 (posted (Fixtures.sale_of Fixtures.hosted_cart))
            Fixtures.hosted))
    (m_id Fixtures.paracetamol)
  = (fun s => if Qleb 2 s && int4 (s - 2) then (s - 2)%Q else s)
      <$> remote_stock Fixtures.hosted (m_id Fixtures.paracetamol).
Proof.
  assert (Hi : b_items (posted (Fixtures.sale_of Fixtures.hosted_cart))
               = Some Fixtures.hosted_cart) by reflexivity.
  assert (H200 : status (snd (post_sales Fixtures.env1
                                (posted (Fixtures.sale_of Fixtures.hosted_cart))
                                Fixtures.hosted)) = 200%nat) by reflexivity.
  assert (Hnd : different_medicines (SalesBilling.medicineId <$> Fixtures.hosted_cart)
                = true) by (vm_compute; reflexivity).
  split; [exact Hi|]. split; [exact H200|]. split; [exact Hnd|].
  exact (Forall_inv (proj1 (post_sales_reduces_each Fixtures.env1
                              (posted (Fixtures.sale_of Fixtures.hosted_cart))
                              Fixtures.hosted_cart Fixtures.hosted Hi H200 Hnd))).
Defined.

End HostedStockExample.

(** ** The alerts of the dashboard *)

Section Alerts.

Variable env : Server.surroundings.

Import Server Routes PharmacyAPI.

Lemma alerts_of_get_alerts (d : db) :
  alerts_of (snd (get_alerts d))
  = if negb (ready d) then []
    else VObj ∘ alert <$> List.filter low (List.filter m_active (meds d)).
Proof.
  unfold get_alerts, alerts_of, prop, json. cbn [snd body].
  rewrite lookup_singleton_eq. destruct (negb (ready d)); [reflexivity|].
  now rewrite <- list_fmap_compose.
Qed.

(** X21. [GET /dashboard/alerts] always answers 200 and changes nothing.  It
    lists exactly the active medicines whose stock is not above their
    minimum stock (none when the tables are missing), and after
    [DELETE /medicines/:id] no alert carries the id. *)
Theorem alerts_list (d : db) :
  status (snd (get_alerts d)) = 200%nat /\
  fst (get_alerts d) = d /\
  (forall v,
     v ∈ alerts_of (snd (get_alerts d)) <->
     ready d = true /\
     exists m, In m (meds d) /\ m_active m = true /\
               (m_stock m <= m_min_stock m)%Q /\ v = VObj (alert m)) /\
  (forall id v,
     v ∈ alerts_of (snd (get_alerts (fst (delete_medicine env id d)))) ->
     prop (Some v) "id" <> Some (VStr id)).
Proof.
  split; [reflexivity|]. split; [reflexivity|]. split.
  - intros v. rewrite alerts_of_get_alerts. destruct (ready d); cbn [negb].
    + rewrite list_elem_of_fmap. split.
      * intros (m & -> & Hm). apply list_elem_of_In in Hm.
        apply filter_In in Hm as [Hm Hlow]. apply filter_In in Hm as [Hm Hact].
        split; [reflexivity|]. exists m. repeat split; try assumption.
        now apply Qle_bool_iff.
      * intros (_ & m & Hm & Hact & Hlow & ->). exists m. split; [reflexivity|].
        apply list_elem_of_In, filter_In. split; [apply filter_In; now split|].
        now apply Qle_bool_iff.
    + split; [intros H; now apply elem_of_nil in H | intros [H _]; discriminate].
  - intros id v. rewrite alerts_of_get_alerts. unfold delete_medicine, update_error.
    destruct (ready d) eqn:Hr; cbn [negb fst];
      [|cbn [isTableMissingError fst]; rewrite Hr; cbn [negb];
        intros H; now apply elem_of_nil in H].
    destruct (uuid_in id) as [key|] eqn:Hu.
    + cbn [fst ready update_meds set_meds]. rewrite Hr. cbn [negb].
      rewrite list_elem_of_fmap. intros (m & -> & Hm). apply list_elem_of_In in Hm.
      apply filter_In in Hm as [Hm _]. apply filter_In in Hm as [Hm Hact].
      cbn [meds] in Hm. apply in_map_iff in Hm as (m0 & <- & _).
      destruct (eq_id id m0) eqn:Heq; [discriminate Hact|].
      change (prop (Some ((VObj ∘ alert) m0)) "id") with (Some (VStr (m_id m0))).
      intros [= H].
      assert (Heq' : eq_id id m0 = true).
      { apply eq_id_true. rewrite <- H. exact (uuid_ok (m_id_col m0)). }
      congruence.
    + destruct (isTableMissingError (InvalidUuid id)); cbn [fst];
        rewrite Hr; cbn [negb];
        rewrite list_elem_of_fmap; intros (m & -> & Hm);
        change (prop (Some ((VObj ∘ alert) m)) "id") with (Some (VStr (m_id m)));
        intros [= H];
        pose proof (uuid_ok (m_id_col m)) as Hm'; fold (m_id m) in Hm';
        rewrite H in Hm'; congruence.
Qed.

End Alerts.

(** ** The cart of the sales page *)

Section CartLines.

Import SalesBilling Cart.

Lemma fmap_set_quantity (f : CartItem -> Q) (p : CartItem -> bool) (cart : list CartItem) :
  medicineId <$> List.map (fun item => if p item then with_quantity (f item) item else item)
                   cart
  = medicineId <$> cart.
Proof.
  induction cart as [|item cart IH]; [reflexivity|].
  cbn. rewrite <- IH. f_equal. now destruct (p item).
Qed.

Lemma find_is_line_None (id : string) (cart : list CartItem) :
  List.find (is_line id) cart = None -> id ∉ medicineId <$> cart.
Proof.
  induction cart as [|item cart IH]; [intros _; apply not_elem_of_nil|].
  cbn. destruct (is_line id item) eqn:E; [discriminate|].
  intros H. apply not_elem_of_cons. split; [|now apply IH].
  unfold is_line in E. apply String.eqb_neq in E. congruence.
Qed.

Lemma NoDup_filter_ids (p : CartItem -> bool) (cart : list CartItem) :
  NoDup (medicineId <$> cart) -> NoDup (medicineId <$> List.filter p cart).
Proof.
  induction cart as [|item cart IH]; [intros _; constructor|].
  cbn. intros [Hnot Hnd]%NoDup_cons. destruct (p item); [|now apply IH].
  cbn. apply NoDup_cons. split; [|now apply IH].
  intros Hin. apply Hnot. apply list_elem_of_fmap in Hin as (x & -> & Hx).
  apply list_elem_of_fmap_2. apply list_elem_of_In in Hx.
  apply list_elem_of_In. now apply filter_In in Hx as [Hx _].
Qed.

Lemma Forall_filter_keep {A : Type} (P : A -> Prop) (p : A -> bool) (l : list A) :
  Forall P l -> Forall P (List.filter p l).
Proof.
  intros H. apply Forall_forall. intros x Hx. apply list_elem_of_In in Hx.
  apply filter_In in Hx as [Hx _]. rewrite Forall_forall in H.
  now apply H, list_elem_of_In.
Qed.

Lemma Forall_set_quantity (P : CartItem -> Prop) (f : CartItem -> Q)
  (p : CartItem -> bool) (cart : list CartItem) :
  Forall P cart ->
  (forall item, P item -> p item = true -> P (with_quantity (f item) item)) ->
  Forall P (List.map (fun item => if p item then with_quantity (f item) item else item)
              cart).
Proof.
  intros H Hf. induction H as [|item cart Hi _ IH]; [constructor|].
  cbn. constructor; [|exact IH]. destruct (p item) eqn:E; [now apply Hf | exact Hi].
Qed.

(** X22. The three handlers of the cart keep it tidy: one line for a medicine
    at most, and every quantity above zero. *)
Theorem cart_stays_tidy (cart : list CartItem) :
  tidy cart ->
  (forall medicine, tidy (fst (addToCart medicine cart))) /\
  (forall id newQuantity, tidy (fst (updateQuantity id newQuantity cart))) /\
  (forall id, tidy (removeFromCart id cart)).
Proof.
  intros [Hnd Hpos].
  assert (Hrem : forall id, tidy (removeFromCart id cart)).
  { intros id. split; [now apply NoDup_filter_ids | now apply Forall_filter_keep]. }
  split; [|split; [|exact Hrem]].
  - intros medicine. unfold addToCart.
    destruct (Qleb (Medicine.stock medicine) 0); [now split|].
    destruct (List.find _ cart) as [existingItem|] eqn:Hfind.
    + destruct (Qgeb _ _); [now split|]. cbn [fst]. split.
      * now rewrite fmap_set_quantity.
      * apply Forall_set_quantity; [exact Hpos|].
        intros item Hi _. cbn. lra.
    + cbn [fst]. split.
      * rewrite fmap_app. cbn. apply NoDup_app. split; [exact Hnd|]. split.
        -- intros x Hx [->|[]%elem_of_nil]%elem_of_cons.
           now apply (find_is_line_None _ _ Hfind).
        -- apply NoDup_singleton.
      * apply Forall_app. split; [exact Hpos|].
        constructor; [reflexivity | constructor].
  - intros id newQuantity. unfold updateQuantity.
    destruct (Qleb newQuantity 0) eqn:Hq; [apply Hrem|].
    destruct (match List.find _ cart with Some _ => _ | None => _ end); [now split|].
    cbn [fst]. split.
    + now rewrite (fmap_set_quantity (fun _ => newQuantity)).
    + apply (Forall_set_quantity _ (fun _ => newQuantity)); [exact Hpos|].
      intros item _ _. cbn. unfold Qleb in Hq.
      apply not_true_iff_false in Hq. rewrite Qle_bool_iff in Hq. lra.
Qed.

Lemma find_is_line_unique (id : string) (cart : list CartItem) (x item : CartItem) :
  NoDup (medicineId <$> cart) ->
  List.find (is_line id) cart = Some x ->
  item ∈ cart -> is_line id item = true -> item = x.
Proof.
  induction cart as [|y cart IH]; [discriminate|].
  cbn. intros [Hnot Hnd]%NoDup_cons Hfind Hin Hitem.
  unfold is_line in Hitem. apply String.eqb_eq in Hitem.
  destruct (is_line id y) eqn:Hy.
  - injection Hfind as <-. apply elem_of_cons in Hin as [->|Hin]; [reflexivity|].
    exfalso. apply Hnot. unfold is_line in Hy. apply String.eqb_eq in Hy.
    rewrite Hy, <- Hitem. now apply list_elem_of_fmap_2.
  - apply elem_of_cons in Hin as [->|Hin].
    + unfold is_line in Hy. apply String.eqb_neq in Hy. contradiction.
    + apply IH; try assumption. unfold is_line. now apply String.eqb_eq.
Qed.

Lemma find_is_line_Some (id : string) (cart : list CartItem) (x : CartItem) :
  List.find (is_line id) cart = Some x -> x ∈ cart /\ is_line id x = true.
Proof.
  intros H. apply find_some in H as [H1 H2]. split; [now apply list_elem_of_In | exact H2].
Qed.

Lemma whole_succ (x y : Q) : whole x -> whole y -> (x < y)%Q -> (x + 1 <= y)%Q.
Proof.
  intros [a Ha] [b Hb] Hlt. rewrite Ha, Hb in *.
  rewrite <- Zlt_Qlt in Hlt.
  change 1%Q with (inject_Z 1). rewrite <- inject_Z_plus, <- Zle_Qle. lia.
Qed.

Lemma whole_plus_one (x : Q) : whole x -> whole (x + 1).
Proof.
  intros [a Ha]. exists (a + 1)%Z. rewrite Ha, inject_Z_plus. reflexivity.
Qed.

Lemma Forall_set_quantity_in (P : CartItem -> Prop) (f : CartItem -> Q)
  (p : CartItem -> bool) (cart : list CartItem) :
  Forall P cart ->
  (forall item, item ∈ cart -> P item -> p item = true ->
                P (with_quantity (f item) item)) ->
  Forall P (List.map (fun item => if p item then with_quantity (f item) item else item)
              cart).
Proof.
  intros H Hf. induction H as [|item cart Hi _ IH]; [constructor|].
  cbn. constructor.
  - destruct (p item) eqn:E; [apply Hf; [left | exact Hi | exact E] | exact Hi].
  - apply IH. intros y Hy. apply Hf. now right.
Qed.

(** X23. In a tidy cart whose quantities are whole and within the stock that
    each line remembers, they stay so under the three handlers:
    [updateQuantity] with a whole quantity, [removeFromCart], and
    [addToCart] of a medicine whose stock is whole and not above the
    stock that its line remembers. *)
Theorem cart_stays_within_stock (cart : list CartItem) :
  tidy cart ->
  within_stock cart ->
  (forall medicine,
     whole (Medicine.stock medicine) ->
     (forall item, item ∈ cart -> is_line (Medicine.id medicine) item = true ->
                   (Medicine.stock medicine <= stock item)%Q) ->
     within_stock (fst (addToCart medicine cart))) /\
  (forall id newQuantity,
     whole newQuantity -> within_stock (fst (updateQuantity id newQuantity cart))) /\
  (forall id, within_stock (removeFromCart id cart)).
Proof.
  intros [Hnd Hpos] Hin.
  assert (Hrem : forall id, within_stock (removeFromCart id cart)).
  { intros id. now apply Forall_filter_keep. }
  split; [|split; [|exact Hrem]].
  - intros medicine Hwhole Hsnap. unfold addToCart.
    destruct (Qleb (Medicine.stock medicine) 0) eqn:Hzero; [exact Hin|].
    unfold Qleb in Hzero. apply not_true_iff_false in Hzero.
    rewrite Qle_bool_iff in Hzero.
    destruct (List.find _ cart) as [x|] eqn:Hfind.
    + destruct (Qgeb _ _) eqn:Hge; [exact Hin|]. cbn [fst].
      unfold Qgeb in Hge. apply not_true_iff_false in Hge. rewrite Qle_bool_iff in Hge.
      apply Forall_set_quantity_in; [exact Hin|].
      intros item Hitem [Hw Hle] Hline. cbn.
      assert (item = x) as -> by (eapply find_is_line_unique; eassumption).
      split; [now apply whole_plus_one|].
      specialize (Hsnap x Hitem Hline).
      assert ((quantity x + 1 <= Medicine.stock medicine)%Q)
        by (apply whole_succ; [exact Hw | exact Hwhole | lra]).
      lra.
    + cbn [fst]. apply Forall_app. split; [exact Hin|].
      constructor; [|constructor]. cbn. split.
      * exists 1%Z. reflexivity.
      * assert ((0 + 1 <= Medicine.stock medicine)%Q)
          by (apply whole_succ; [exists 0%Z; reflexivity | exact Hwhole | lra]).
        lra.
  - intros id newQuantity Hwhole. unfold updateQuantity.
    destruct (Qleb newQuantity 0); [apply Hrem|].
    destruct (List.find _ cart) as [x|] eqn:Hfind.
    + destruct (Qltb (stock x) newQuantity) eqn:Hlt; [exact Hin|]. cbn [fst].
      unfold Qltb in Hlt. apply negb_false_iff in Hlt. rewrite Qle_bool_iff in Hlt.
      apply (Forall_set_quantity_in _ (fun _ => newQuantity)); [exact Hin|].
      intros item Hitem _ Hline. cbn.
      assert (item = x) as -> by (eapply find_is_line_unique; eassumption).
      now split.
    + cbn [fst].
      apply (Forall_set_quantity_in _ (fun _ => newQuantity)); [exact Hin|].
      intros item Hitem _ Hline. exfalso.
      apply (find_is_line_None _ _ Hfind).
      unfold is_line in Hline. apply String.eqb_eq in Hline. rewrite <- Hline.
      now apply list_elem_of_fmap_2.
Qed.

Lemma total_from (cart : list CartItem) (a : Q) :
  (fold_left (fun total item => total + price item * quantity item) cart a
   == a + calculateTotal cart)%Q.
Proof.
  unfold calculateTotal. revert a. induction cart as [|item cart IH]; intros a.
  - cbn. ring.
  - cbn [fold_left]. rewrite IH, (IH (0 + _)%Q). ring.
Qed.

Lemma total_cons (item : CartItem) (cart : list CartItem) :
  (calculateTotal (item :: cart) == price item * quantity item + calculateTotal cart)%Q.
Proof. unfold calculateTotal at 1. cbn [fold_left]. rewrite total_from. ring. Qed.

Lemma total_app (l1 l2 : list CartItem) :
  (calculateTotal (l1 ++ l2) == calculateTotal l1 + calculateTotal l2)%Q.
Proof.
  induction l1 as [|item l1 IH];
    [change (calculateTotal l2 == 0 + calculateTotal l2)%Q; ring|].
  cbn [app]. rewrite !total_cons, IH. ring.
Qed.

Lemma total_split (p : CartItem -> bool) (cart : list CartItem) :
  (calculateTotal cart
   == calculateTotal (List.filter p cart)
      + calculateTotal (List.filter (fun item => negb (p item)) cart))%Q.
Proof.
  induction cart as [|item cart IH]; [reflexivity|].
  cbn [List.filter]. destruct (p item); cbn [negb]; rewrite !total_cons, IH; ring.
Qed.

Lemma total_add_one (id : string) (cart : list CartItem) (x : CartItem) :
  NoDup (medicineId <$> cart) ->
  List.find (is_line id) cart = Some x ->
  (calculateTotal
     (List.map (fun item => if is_line id item
                            then with_quantity (quantity item + 1) item else item) cart)
   == calculateTotal cart + price x)%Q.
Proof.
  induction cart as [|y cart IH]; [discriminate|].
  cbn [List.find List.map]. intros [Hnot Hnd]%NoDup_cons.
  destruct (is_line id y) eqn:Hy.
  - intros [= <-]. rewrite !total_cons. cbn.
    assert (Hsame : List.map (fun item => if is_line id item
                                then with_quantity (quantity item + 1) item else item)
                      cart = cart).
    { rewrite <- (map_id cart) at 2. apply map_ext_in. intros item Hitem.
      destruct (is_line id item) eqn:Hi; [|reflexivity].
      exfalso. apply Hnot. unfold is_line in Hy, Hi.
      apply String.eqb_eq in Hy, Hi. rewrite Hy, <- Hi.
      now apply list_elem_of_fmap_2, list_elem_of_In. }
    rewrite Hsame. ring.
  - intros Hfind. rewrite !total_cons, IH by assumption. ring.
Qed.

(** The lines on a medicine are lines of the cart, and the total of
    some lines of a cart of amounts that are not negative is the total of
    the cart at most. *)
Lemma total_filter_le (p : CartItem -> bool) (cart : list CartItem) :
  Forall (fun item => (0 <= price item)%Q /\ (0 <= quantity item)%Q) cart ->
  (0 <= calculateTotal (List.filter p cart) <= calculateTotal cart)%Q.
Proof.
  induction cart as [|item cart IH]; intros H.
  - cbn. split; apply Qle_refl.
  - apply Forall_cons in H as [[Hp Hq] H]. specialize (IH H).
    assert (Hpq : (0 <= price item * quantity item)%Q) by now apply Qmult_le_0_compat.
    cbn [List.filter]. destruct (p item); rewrite ?total_cons; lra.
Qed.

Lemma exact_filter (p : CartItem -> bool) (cart : list CartItem) :
  exact cart -> exact (List.filter p cart).
Proof.
  intros [Hall Hmax]. split.
  - apply Forall_forall. intros item Hin.
    apply list_elem_of_In, filter_In in Hin as [Hin _].
    rewrite Forall_forall in Hall. apply Hall. now apply list_elem_of_In.
  - assert (H : Forall (fun item => (0 <= price item)%Q /\ (0 <= quantity item)%Q) cart).
    { eapply Forall_impl; [exact Hall|]. cbn. tauto. }
    pose proof (total_filter_le p cart H). lra.
Qed.

(** X24. The total of the cart follows its lines, on carts of whole
    amounts up to [2^53], where the arithmetic of the source is exact.
    When [addToCart] succeeds on a tidy cart and leaves such a cart, the
    total has grown by one unit price (that of the line the medicine has,
    or of the medicine when it had none); [removeFromCart] leaves such a
    cart, and it lowers the total by the amount of the line. *)
Theorem cart_total_follows (cart : list CartItem) :
  tidy cart ->
  exact cart ->
  (forall medicine msg,
     snd (addToCart medicine cart) = toast_success msg ->
     exact (fst (addToCart medicine cart)) ->
     (calculateTotal (fst (addToCart medicine cart))
      == calculateTotal cart
         + match List.find (is_line (Medicine.id medicine)) cart with
           | Some line => price line
           | None => Medicine.price medicine
           end)%Q) /\
  (forall id,
     exact (removeFromCart id cart) /\
     exact (List.filter (is_line id) cart) /\
     (calculateTotal (removeFromCart id cart)
      == calculateTotal cart - amount_of id cart)%Q).
Proof.
  intros [Hnd _] Hex. split.
  - intros medicine msg. unfold addToCart.
    destruct (Qleb (Medicine.stock medicine) 0); [discriminate|].
    destruct (List.find _ cart) as [x|] eqn:Hfind.
    + destruct (Qgeb _ _); [discriminate|]. intros _ _. cbn [fst].
      now apply total_add_one.
    + intros _ _. cbn [fst]. rewrite total_app, total_cons.
      change (calculateTotal []) with 0%Q. cbn [price quantity]. ring.
  - intros id. split; [|split].
    + unfold removeFromCart. now apply exact_filter.
    + now apply exact_filter.
    + unfold removeFromCart, amount_of.
      pose proof (total_split (is_line id) cart) as H. lra.
Qed.

End CartLines.

Section CartLinesExample.

Import SalesBilling Cart.

Lemma local_cart_tidy : tidy Fixtures.local_cart.
Proof.
  split.
  - apply (bool_decide_unpack _). vm_compute. reflexivity.
  - repeat constructor.
Defined.

Lemma cart_stays_tidy_witness :
  tidy Fixtures.local_cart /\ tidy (removeFromCart "med_001" Fixtures.local_cart).
Proof.
  split; [exact local_cart_tidy|].
  exact (proj2 (proj2 (cart_stays_tidy Fixtures.local_cart local_cart_tidy)) "med_001").
Defined.

Lemma cart_stays_within_stock_witness :
  tidy Fixtures.local_cart /\ within_stock Fixtures.local_cart /\
  within_stock (fst (updateQuantity "med_001" 7 Fixtures.local_cart)).
Proof.
  assert (Hin : within_stock Fixtures.local_cart).
  { repeat constructor; cbn; try (vm_compute; discriminate).
    - exists 2%Z. reflexivity.
    - exists 3%Z. reflexivity. }
  split; [exact local_cart_tidy|]. split; [exact Hin|].
  apply (proj1 (proj2 (cart_stays_within_stock Fixtures.local_cart local_cart_tidy Hin))).
  exists 7%Z. reflexivity.
Defined.

Lemma cart_total_follows_witness :
  tidy Fixtures.local_cart /\
  exact Fixtures.local_cart /\
  (calculateTotal (removeFromCart "med_001" Fixtures.local_cart)
   == calculateTotal Fixtures.local_cart - amount_of "med_001" Fixtures.local_cart)%Q.
Proof.
  assert (Hex : exact Fixtures.local_cart).
  { split; [|vm_compute; discriminate].
    repeat constructor; cbn; try (vm_compute; discriminate).
    - exists 5%Z. reflexivity.
    - exists 2%Z. reflexivity.
    - exists 10%Z. reflexivity.
    - exists 3%Z. reflexivity. }
  split; [exact local_cart_tidy|]. split; [exact Hex|].
  exact (proj2 (proj2 (proj2 (cart_total_follows Fixtures.local_cart local_cart_tidy Hex)
                         "med_001"))).
Defined.

End CartLinesExample.

(** ** The checkout *)

Section CheckoutOutcome.

Variable toUpperCase : string -> string.
Variables date time : string.
Variable collate : string -> string -> bool.
Variable env : Server.surroundings.
Variable amb : PharmacyAPI.ambient.
Variable net : System.network.

Import Validator Cart Checkout.

Lemma getMedicines_keeps_world (w : System.world) :
  fst (System.getMedicines collate net w) = w.
Proof.
  unfold System.getMedicines, System.call, System.served.
  destruct w as [d l]. cbn [System.remote System.local].
  destruct net.
  - unfold Server.get_medicines. destruct (negb (Server.ready d)); reflexivity.
  - reflexivity.
Qed.

Lemma fallback_sale_has_id (sale : SalesBilling.saleData) :
  PharmacyAPI.newSale amb (SalesBilling.sale_object sale) !! "id"
  = Some (VStr (PharmacyAPI.generateId amb)).
Proof. reflexivity. Qed.

Lemma createSale_returns_sale (sale : SalesBilling.saleData) (w : System.world) :
  exists o id,
    snd (System.createSale env amb net sale w) = Returned (VObj {[ "sale" := VObj o ]}) /\
    o !! "id" = Some (VStr id).
Proof.
  unfold System.createSale, System.call, System.served.
  destruct net.
  - unfold Server.post_sales.
    destruct (negb (Server.ready (System.remote w)));
      [|destruct (existsb _ (Server.sales (System.remote w)))]; cbn;
      eexists _, _; (split; [reflexivity|]);
      first [ apply fallback_sale_has_id | reflexivity ].
  - cbn. eexists _, _. split; [reflexivity|]. apply fallback_sale_has_id.
Qed.

Lemma valid_sale_has_lines (p : page) :
  isValid (validateSale (as_SaleData (saleData p))) = true ->
  (List.length (cart p) =? 0)%nat = false.
Proof.
  intros H. apply valid_iff_no_error in H.
  unfold validateSale, as_SaleData in H. cbn [sd_items errors] in H.
  rewrite !push_if_nil in H. destruct H as (_ & _ & H).
  apply each_item_nil in H as [H _]. rewrite !push_if_nil in H.
  destruct H as (H & _). rewrite length_fmap in H. exact H.
Qed.

(** X25. [processSale] on a sale that [validateSale] accepts always ends with
    the toast of success, an empty cart and a receipt whose number is
    made of the id of the recorded sale, whatever the network and the
    hosted store do; on any other sale, an empty cart among them, it
    sends nothing and changes nothing, and shows ["Cart is empty"] or
    the first error of the validation. *)
Theorem processSale_outcome (p : page) (w : System.world) :
  if isValid (validateSale (as_SaleData (saleData p)))
  then
    exists r id,
      processSale toUpperCase date time collate env amb net p w
      = ({| cart := []; customerInfo_name := ""; customerInfo_phone := "";
            paymentMethod := "cash"; currentReceipt := Some r; showReceipt := true |},
         fst (System.createSale env amb net (saleData p) w),
         Some (toast_success "Sale completed successfully!")) /\
      r !! "id" = Some (VStr id) /\
      r !! "receiptNumber" = Some (VStr (toUpperCase (slice_8 id)))
  else
    exists msg,
      processSale toUpperCase date time collate env amb net p w
      = (p, w, Some (toast_error msg)) /\
      (msg = "Cart is empty" \/
       head (errors (validateSale (as_SaleData (saleData p)))) = Some msg).
Proof.
  destruct (isValid (validateSale (as_SaleData (saleData p)))) eqn:Hv.
  - unfold processSale. rewrite (valid_sale_has_lines p Hv), Hv. cbn [negb].
    destruct (createSale_returns_sale (saleData p) w) as (o & id & Hout & Hid).
    destruct (System.createSale env amb net (saleData p) w) as [w' out].
    cbn [snd fst] in *. subst out.
    unfold PharmacyAPI.prop. rewrite lookup_singleton_eq.
    cbn [truthy]. unfold receipt. rewrite Hid.
    rewrite getMedicines_keeps_world.
    eexists _, id. split; [reflexivity|]. split.
    + unfold spread. rewrite lookup_union_r; [exact Hid|].
      reflexivity.
    + unfold spread. apply lookup_union_Some_l. reflexivity.
  - unfold processSale. destruct (List.length (cart p) =? 0)%nat.
    + eexists. split; [reflexivity | now left].
    + rewrite Hv. cbn [negb].
      destruct (errors (validateSale (as_SaleData (saleData p)))) as [|e rest] eqn:He.
      * unfold validateSale in Hv, He. cbn [isValid errors] in Hv, He.
        rewrite He in Hv. discriminate.
      * exists e. split; [reflexivity | now right].
Qed.

End CheckoutOutcome.

(** ** The dashboard and the reports of the fallback *)

Section Dashboard.

Context {rt : Runtime}.
Variable amb : PharmacyAPI.ambient.

Import LocalStorageManager PharmacyAPI.

Lemma ltb_leb (a b : string) : String.ltb a b = true -> String.leb a b = true.
Proof.
  unfold String.ltb, String.leb. now destruct (String.compare a b).
Qed.

Lemma js_lt_le (a b : option value) : js_lt a b = true -> js_le a b = true.
Proof.
  unfold js_lt, js_le, compare_with.
  destruct (stringy a && stringy b); [apply ltb_leb|].
  destruct (ToNumber a) as [x|]; [|discriminate].
  destruct (ToNumber b) as [y|]; [|discriminate].
  unfold Qltb, Qleb. rewrite negb_true_iff, <- not_true_iff_false, !Qle_bool_iff. lra.
Qed.

Lemma filter_length_le_impl {A : Type} (p q : A -> bool) (l : list A) :
  (forall x, p x = true -> q x = true) ->
  (List.length (List.filter p l) <= List.length (List.filter q l))%nat.
Proof.
  intros H. induction l as [|x l IH]; [reflexivity|].
  cbn. destruct (p x) eqn:Hp.
  - rewrite (H x Hp). cbn. lia.
  - destruct (q x); cbn; lia.
Qed.

(** X26. The three views of low stock that the fallback gives agree: the
    dashboard counts exactly the alerts that [getLowStockAlerts] lists,
    and the inventory report, which compares with [<] where they
    compare with [<=], never counts more. *)
Theorem low_stock_counts (e : string) (data : store) :
  exists alerts low : list obj,
    getLowStockAlerts (Thrown e) data
    = (data, Returned (result "alerts" (records alerts))) /\
    (forall stats,
       snd (getDashboardStats amb (Thrown e) data)
       = Returned (result "stats" (VObj stats)) ->
       stats !! "lowStockAlerts" = Some (count alerts)) /\
    (exists report,
       getInventoryReport (Thrown e) data
       = (data, Returned (result "report" (VObj report))) /\
       report !! "lowStockItems" = Some (count low)) /\
    (List.length low <= List.length alerts)%nat.
Proof.
  eexists _, _. split; [reflexivity|]. split; [|split].
  - intros stats. unfold getDashboardStats, try_catch.
    destruct (filterM _ _) as [todaySales|msg]; cbn [snd]; [|discriminate].
    unfold result. intros H.
    assert (H' := f_equal (fun out => match out with
                                      | Returned (VObj m) => m !! "stats"
                                      | _ => None
                                      end) H).
    cbv beta iota in H'. rewrite !lookup_singleton_eq in H'. injection H' as <-.
    repeat (rewrite lookup_insert_ne by discriminate). rewrite lookup_insert_eq.
    unfold count. now rewrite length_fmap.
  - eexists. split; [reflexivity|]. reflexivity.
  - rewrite length_fmap. apply filter_length_le_impl. intros m. apply js_lt_le.
Qed.

(** X27. When no sale of the last five has a total without [toFixed], the
    fallback of [getRecentActivity] lists the activities of the last
    five sales and of the last five prescriptions, all of them (the cut
    at ten never removes one), and leaves the store as it is; otherwise
    it throws. *)
Theorem recent_activity_is_complete (e : string) (data : store) :
  match mapM sale_activity (slice_last 5 (get data "sales")) with
  | Returned fromSales =>
      exists activities,
        getRecentActivity (Thrown e) data
        = (data, Returned (result "activities" (records activities))) /\
        activities ≡ₚ (fromSales
                       ++ (prescription_activity
                             <$> slice_last 5 (get data "prescriptions")))%list /\
        (List.length activities <= 10)%nat
  | Thrown msg => getRecentActivity (Thrown e) data = (data, Thrown msg)
  end.
Proof.
  unfold getRecentActivity, try_catch.
  destruct (mapM sale_activity (slice_last 5 (get data "sales"))) as [fromSales|msg] eqn:Hm;
    [|reflexivity].
  assert (Hlen : forall (A : Type) (l : list A), (List.length (slice_last 5 l) <= 5)%nat).
  { intros A l. unfold slice_last. rewrite length_drop. lia. }
  assert (Hmap : forall l l', mapM sale_activity l = Returned l' ->
                              List.length l' = List.length l).
  { induction l as [|x l IH]; intros l'; cbn.
    - now intros [= <-].
    - destruct (sale_activity x); [|discriminate]. cbn.
      destruct (mapM sale_activity l) as [r|]; [|discriminate]. cbn.
      intros [= <-]. cbn. now rewrite (IH r). }
  set (all := (fromSales ++ _)%list).
  assert (Hall : (List.length all <= 10)%nat).
  { unfold all. rewrite length_app, length_fmap, (Hmap _ _ Hm).
    pose proof (Hlen obj (get data "sales")).
    pose proof (Hlen obj (get data "prescriptions")). lia. }
  eexists. split; [reflexivity|].
  rewrite take_ge by (rewrite merge_sort_Permutation; exact Hall).
  split; [apply merge_sort_Permutation|].
  now rewrite merge_sort_Permutation.
Qed.

End Dashboard.

(** ** The validator of the client and the checks of the server *)

Section TwoValidations.

Context {rt : Runtime}.
Variable amb : PharmacyAPI.ambient.

Import Validator Server PharmacyAPI Terms Accepted.

Lemma with_prop_lookup_eq (k : string) (v : option value) (o : obj) :
  o !! k = None -> with_prop k v o !! k = v.
Proof. intros H. unfold with_prop. destruct v; [apply lookup_insert_eq | exact H]. Qed.

Lemma with_prop_lookup_ne (k k' : string) (v : option value) (o : obj) :
  k <> k' -> with_prop k v o !! k' = o !! k'.
Proof. intros H. unfold with_prop. destruct v; [now apply lookup_insert_ne | reflexivity]. Qed.

Lemma medicine_object_lookup (data : MedicineData) :
  medicine_object data !! "name" = VStr <$> md_name data /\
  medicine_object data !! "category" = VStr <$> md_category data /\
  medicine_object data !! "manufacturer" = VStr <$> md_manufacturer data /\
  medicine_object data !! "strength" = VStr <$> md_strength data /\
  medicine_object data !! "batchNumber" = VStr <$> md_batchNumber data /\
  medicine_object data !! "location" = VStr <$> md_location data /\
  medicine_object data !! "batch_number" = None /\
  medicine_object data !! "storage_location" = None.
Proof.
  unfold medicine_object.
  repeat split;
    repeat (rewrite with_prop_lookup_ne by discriminate);
    try reflexivity;
    apply with_prop_lookup_eq;
    repeat (rewrite with_prop_lookup_ne by discriminate); reflexivity.
Qed.

Lemma too_short_long (s : string) :
  (2 <= String.length (trim s))%nat -> too_short (Some (VStr s)) = Next false.
Proof.
  intros H. unfold too_short, trim_of. destruct s as [|c s]; [simpl in H; lia|].
  apply Nat.ltb_ge in H. cbn -[trim Nat.ltb]. now rewrite H.
Qed.

Lemma trimmed_or_null_string (a : option string) :
  exists r, trimmed_or_null (VStr <$> a) None = Next r.
Proof.
  unfold trimmed_or_null, trim_opt.
  destruct a as [a|]; cbn; [|eexists; reflexivity].
  destruct (falsy_str (trim a)) eqn:E; cbn; rewrite ?E; cbn; eexists; reflexivity.
Qed.

(** X28. A medicine that [validateMedicine] accepts passes the three checks
    of [POST /medicines] when [addMedicine] sends it: the handler goes on
    to the insert, with the trimmed name, category and manufacturer. *)
Theorem validated_medicine_passes_server_checks (now : Z) (data : MedicineData) :
  isValid (validateMedicine now data) = true ->
  exists md n c m,
    md_name data = Some n /\ md_category data = Some c /\
    md_manufacturer data = Some m /\
    prepare (newMedicine amb (medicine_object data)) = Next md /\
    d_name md = trim n /\ d_cat md = trim c /\ d_mfg md = trim m.
Proof.
  intros H. apply valid_iff_no_error in H.
  unfold validateMedicine in H. cbn [errors] in H. rewrite !push_if_nil in H.
  destruct H as (_ & _ & _ & _ & _ & _ & _ & _ & Hm & Hc & Hn & _).
  apply missing_or_short_false in Hn as (n & Hn & Hln); [|lia].
  apply missing_or_short_false in Hc as (c & Hc & Hlc); [|lia].
  apply missing_or_short_false in Hm as (m & Hm & Hlm); [|lia].
  destruct (medicine_object_lookup data) as (L1 & L2 & L3 & L4 & L5 & L6 & L7 & L8).
  rewrite Hn in L1. rewrite Hc in L2. rewrite Hm in L3. cbn in L1, L2, L3.
  unfold prepare.
  rewrite !newMedicine_lookup by discriminate.
  rewrite L1, L2, L3, L4, L5, L6, L7, L8.
  rewrite !too_short_long by assumption. cbn.
  destruct (trimmed_or_null_string (md_strength data)) as (r1 & ->).
  destruct (trimmed_or_null_string (md_batchNumber data)) as (r2 & ->).
  destruct (trimmed_or_null_string (md_location data)) as (r3 & ->).
  cbn. eexists _, n, c, m. repeat split; try assumption; reflexivity.
Qed.

End TwoValidations.

Section TwoValidationsExample.

Import Validator Server PharmacyAPI Terms.

Lemma validated_medicine_passes_server_checks_witness :
  isValid (validateMedicine (rt := Fixtures.integers) 0 Fixtures.submitted) = true /\
  exists md,
    prepare (rt := Fixtures.integers)
      (newMedicine Fixtures.amb1 (medicine_object Fixtures.submitted)) = Next md /\
    d_name md = "Test".
Proof.
  split; [reflexivity|].
  destruct (validated_medicine_passes_server_checks (rt := Fixtures.integers)
              Fixtures.amb1 0 Fixtures.submitted eq_refl)
    as (md & n & c & m & Hn & _ & _ & Hp & Hd & _).
  exists md. split; [exact Hp|]. rewrite Hd.
  injection Hn as <-. reflexivity.
Defined.

End TwoValidationsExample.

(** ** A sale of the page and the stock of the hosted store *)

Section CheckoutStock.

Variable toUpperCase : string -> string.
Variables date time : string.
Variable collate : string -> string -> bool.
Variable env : Server.surroundings.
Variable amb : PharmacyAPI.ambient.
Variable net : System.network.

Import Validator Cart Checkout Server Terms.

Lemma valid_sale_quantities (p : page) :
  isValid (validateSale (as_SaleData (saleData p))) = true ->
  Forall (fun item => (0 < SalesBilling.quantity item)%Q) (cart p).
Proof.
  intros H. apply valid_iff_no_error in H.
  unfold validateSale, as_SaleData in H. cbn [sd_items errors] in H.
  rewrite !push_if_nil in H. destruct H as (_ & _ & H).
  apply each_item_nil in H as [_ H].
  apply Forall_forall. intros item Hitem.
  rewrite Forall_forall in H.
  destruct (H (Checkout.sale_item item)) as (_ & _ & [n Hn] & _).
  { now apply list_elem_of_fmap_2. }
  cbn in Hn. rewrite Hn. reflexivity.
Qed.

Lemma sell_item_lowers (saleId : string) (d : db) (item : SalesBilling.CartItem)
  (id : string) (s : Q) :
  (0 < SalesBilling.quantity item)%Q ->
  remote_stock d id = Some s ->
  exists s', remote_stock (sell_item env saleId d item) id = Some s' /\ (s' <= s)%Q.
Proof.
  intros Hq Hs.
  destruct (same_medicine id (SalesBilling.medicineId item)) eqn:Hsame.
  - pose proof (sell_item_same env saleId d item) as H.
    rewrite <- !(remote_stock_same _ id _ Hsame), Hs in H.
    cbn [fmap option_fmap option_map] in H. eexists. split; [exact H|].
    destruct (Qleb _ s && int4 _); lra.
  - exists s. split; [|lra]. now rewrite sell_item_other.
Qed.

Lemma sell_items_lower (saleId : string) (items : list SalesBilling.CartItem) (d : db)
  (id : string) (s : Q) :
  Forall (fun item => (0 < SalesBilling.quantity item)%Q) items ->
  remote_stock d id = Some s ->
  exists s',
    remote_stock (fold_left (sell_item env saleId) items d) id = Some s' /\
    (s' <= s)%Q.
Proof.
  intros Hq. revert d s. induction Hq as [|item items Hi _ IH]; intros d s Hs.
  - exists s. split; [exact Hs | lra].
  - cbn [fold_left].
    destruct (sell_item_lowers saleId d item id s Hi Hs) as (s1 & H1 & Hle1).
    destruct (IH _ _ H1) as (s2 & H2 & Hle2).
    exists s2. split; [exact H2 | lra].
Qed.

(** X29. Whatever the page holds and whatever the network does, [processSale]
    never raises the stock of a medicine of the hosted store: after it,
    every medicine that had a stock has one that is not larger. *)
Theorem checkout_never_raises_stock (p : page) (w : System.world) (id : string) (s : Q) :
  remote_stock (System.remote w) id = Some s ->
  exists s',
    remote_stock
      (System.remote
         (snd (fst (processSale toUpperCase date time collate env amb net p w))))
      id = Some s' /\
    (s' <= s)%Q.
Proof.
  intros Hs.
  assert (Hsame : exists s', remote_stock (System.remote w) id = Some s' /\ (s' <= s)%Q)
    by (exists s; split; [exact Hs | lra]).
  unfold processSale.
  destruct (List.length (cart p) =? 0)%nat; [exact Hsame|].
  destruct (isValid (validateSale (as_SaleData (saleData p)))) eqn:Hv;
    cbn [negb]; [|exact Hsame].
  apply valid_sale_quantities in Hv.
  assert (Hsale : exists s',
            remote_stock
              (System.remote (fst (System.createSale env amb net (saleData p) w))) id
            = Some s' /\ (s' <= s)%Q).
  { unfold System.createSale, System.call, System.served. destruct net.
    - unfold post_sales.
      destruct (negb (ready (System.remote w)));
        [|destruct (existsb _ (sales (System.remote w)))]; cbn; try exact Hsame.
      apply (sell_items_lower _ (cart p) (insert_sale (System.remote w) _) id s Hv).
      exact Hs.
    - cbn. exact Hsame. }
  destruct (System.createSale env amb net (saleData p) w) as [w' out].
  cbn [fst] in Hsale.
  destruct out as [response|msg]; [|exact Hsale].
  destruct (truthy _); [|exact Hsale].
  destruct (receipt _ _ _ _) as [r|msg]; [|exact Hsale].
  cbn [fst snd]. now rewrite getMedicines_keeps_world.
Qed.

End CheckoutStock.

Section CheckoutStockExample.

Import Checkout Server Terms.

Lemma checkout_never_raises_stock_witness :
  remote_stock (System.remote Fixtures.world1) (m_id Fixtures.paracetamol) = Some 150%Q /\
  exists s',
    remote_stock
      (System.remote
         (snd (fst (processSale (fun s => s) "1/8/2025" "10:00:00 AM"
                      Fixtures.by_code_units Fixtures.env1 Fixtures.amb1 System.Up
                      {| cart := Fixtures.hosted_cart;
                         customerInfo_name := "John Smith";
                         customerInfo_phone := "+1234567890";
                         paymentMethod := "cash";
                         currentReceipt := None;
                         showReceipt := false |}
                      Fixtures.world1))))
      (m_id Fixtures.paracetamol) = Some s' /\
    (s' <= 150)%Q.
Proof.
  split; [reflexivity|].
  apply checkout_never_raises_stock. reflexivity.
Defined.

End CheckoutStockExample.

